(** * The dApp connection and approval protocol of the wallet back end

    A shallow embedding of [src/lib/thanos/back/dapp.ts]: the per-origin
    session store, the request validators, the four arbiters
    ([requestPermission], [requestOperation], [requestSign],
    [requestBroadcast]) and the confirmation orchestrator
    ([requestConfirm]), followed by the properties of the protocol.

    Asynchronous code is modelled by explicit state passing.  An arbiter is
    a function from the persisted storage to a [Run]: the effects it
    performed, in program order, and the state its promise is left in.  A
    confirmation that has been opened is a record [Confirm] of the variables
    captured by the closures of [requestConfirm]; the callbacks the host
    runtime may invoke (a message on a port, the completion of an awaited
    vault or storage call, the timer, a window removal) are the events of a
    step function over that record.

    The development then covers the geometry of the approval window and
    the pure parts of two views: the merge of pending and historical
    operations and the aggregation of pages in
    [src/app/templates/OperationHistory.tsx], and the lookup in a baker's
    history of settings in [src/app/pages/Explore/BakingHistoryItem.tsx]. *)

From Stdlib Require Import ZArith Ascii String List Bool Lia Permutation Sorted.
From stdpp Require Import base option list gmap strings.
Import ListNotations.

Local Open Scope string_scope.
Local Open Scope list_scope.

(** ** JavaScript values and completions *)

(** [ThanosDAppErrorType] of the dApp protocol; its members are used as the
    message of the errors the arbiters raise. *)
Inductive ThanosDAppErrorType :=
| NotGranted
| NotFound
| InvalidParams
| TezosOperation.

(** The [message] of an error object: one of the protocol codes, or free
    text. *)
Inductive ErrorMessage :=
| Code (c : ThanosDAppErrorType)
| Text (s : string).

(** The values that are thrown: [new Error(message)], the
    [TezosOperationError] of the RPC library (a message and the node's error
    list), and the [TypeError] the engine raises when a property is read off
    [undefined] or [null] (tagged with the property). *)
Inductive JsError :=
| Error (message : ErrorMessage)
| TezosOperationError (message : ErrorMessage) (errors : list string)
| TypeError (property : string).

(** [err instanceof TezosOperationError] *)
Definition instanceofTezosOperationError (err : JsError) : bool :=
  match err with
  | TezosOperationError _ _ => true
  | _ => false
  end.

(** [err.message = m] : the assignment keeps every other field. *)
Definition setMessage (err : JsError) (m : ErrorMessage) : JsError :=
  match err with
  | Error _ => Error m
  | TezosOperationError _ errs => TezosOperationError m errs
  | TypeError p => TypeError p
  end.

(** The completion of an expression: a value, or a thrown error. *)
Inductive Completion (A : Type) :=
| Normal (a : A)
| Throw (e : JsError).
Arguments Normal {A} a.
Arguments Throw {A} e.

Definition bindC {A B} (c : Completion A) (k : A -> Completion B) : Completion B :=
  match c with
  | Normal a => k a
  | Throw e => Throw e
  end.

Notation "'let?' x ':=' c 'in' k" := (bindC c (fun x => k))
  (at level 10, x name, c at level 100, k at level 200).

(** Truthiness of a string: every string but the empty one. *)
Definition truthy (s : string) : bool := negb (String.eqb s EmptyString).

(** [s.slice(2)] and [s.slice(1, -1)] on strings. *)
Definition slice_from (n : nat) (s : string) : string :=
  substring n (String.length s - n) s.

Definition slice_1_m1 (s : string) : string :=
  substring 1 (String.length s - 2) s.

(** [s.startsWith(p)] *)
Definition startsWith (p s : string) : bool := String.prefix p s.

(** ** Regular expressions of the module *)

Definition in_range (lo hi c : ascii) : bool :=
  (nat_of_ascii lo <=? nat_of_ascii c)%nat && (nat_of_ascii c <=? nat_of_ascii hi)%nat.

(** the class [[0-9a-fA-F]] *)
Definition is_hex (c : ascii) : bool :=
  in_range "0" "9" c || in_range "a" "f" c || in_range "A" "F" c.

(** the class [[a-f0-9]] *)
Definition is_lower_hex (c : ascii) : bool :=
  in_range "a" "f" c || in_range "0" "9" c.

Fixpoint all_chars (p : ascii -> bool) (s : string) : bool :=
  match s with
  | EmptyString => true
  | String c s' => p c && all_chars p s'
  end.

(** [HEX_PATTERN = /^[0-9a-fA-F]+$/] *)
Definition HEX_PATTERN (s : string) : bool :=
  negb (String.eqb s EmptyString) && all_chars is_hex s.

(** The hexadecimal spelling of the text that opens a signed message. *)
Definition SIGNED_MESSAGE_MAGIC : string :=
  "54657a6f73205369676e6564204d6573736167653a20".

(** [TEZ_MSG_SIGN_PATTERN =
     /^0501[a-f0-9]{8}54657a6f73205369676e6564204d6573736167653a20[a-f0-9]*$/] *)
Definition TEZ_MSG_SIGN_PATTERN (s : string) : bool :=
  String.eqb (substring 0 4 s) "0501"
  && (String.length (substring 4 8 s) =? 8)%nat
  && all_chars is_lower_hex (substring 4 8 s)
  && String.eqb (substring 12 44 s) SIGNED_MESSAGE_MAGIC
  && all_chars is_lower_hex (slice_from 56 s).

(** ** Data model *)

(** An entry of the known-network list [NETWORKS]. *)
Record ThanosNetwork := {
  net_id : string;
  net_rpcBaseURL : string;
  net_disabled : bool
}.

(** [ThanosDAppNetwork]: a known-network id, or an inline descriptor. *)
Inductive ThanosDAppNetwork :=
| NetworkId (id : string)
| NetworkCustom (name rpc : string).

(** [appMeta]; [meta_name] is [Some] exactly when [name] is a string. *)
Record ThanosDAppMetadata := {
  meta_name : option string
}.

(** [ThanosDAppSession] *)
Record ThanosDAppSession := {
  dapp_network : ThanosDAppNetwork;
  dapp_appMeta : ThanosDAppMetadata;
  dapp_pkh : string;
  dapp_publicKey : string
}.

(** [ThanosDAppSessions]: the object that maps an origin to its session. *)
Abbreviation ThanosDAppSessions := (gmap string ThanosDAppSession).

(** The document under [STORAGE_KEY] in [browser.storage.local]; [None]
    while nothing was ever written. *)
Abbreviation Storage := (option (gmap string ThanosDAppSession)).

(** ** Session store *)

(** [(await browser.storage.local.get([STORAGE_KEY]))[STORAGE_KEY] || {}] *)
Definition getAllDApps (st : Storage) : ThanosDAppSessions :=
  match st with
  | Some m => m
  | None => ∅
  end.

(** The names of the members of [Object.prototype].  The document is a
    plain object: [obj[key]] for one of these names that is not a key of
    the document finds the inherited member, a function or an object that
    is neither a session nor [undefined]. *)
Definition OBJECT_PROTOTYPE_KEYS : list string :=
  [ "constructor"; "hasOwnProperty"; "isPrototypeOf"; "propertyIsEnumerable";
    "toLocaleString"; "toString"; "valueOf"; "__proto__";
    "__defineGetter__"; "__defineSetter__"; "__lookupGetter__"; "__lookupSetter__" ].

Definition inheritedKey (key : string) : bool :=
  existsb (String.eqb key) OBJECT_PROTOTYPE_KEYS.

(** [(await getAllDApps())[origin]]: the session stored under [origin], and
    [None] for [undefined].  The lookup of the source goes on to
    [Object.prototype] when [origin] is not a key of the document; [None]
    is what it finds there for every [origin] with [inheritedKey origin =
    false], as are the origins the host runtime asserts (of the form
    [scheme://host]).  Where a property depends on the lookup finding
    nothing, it states that condition. *)
Definition getDApp (st : Storage) (origin : string) : option ThanosDAppSession :=
  getAllDApps st !! origin.

Definition setDApps (newDApps : ThanosDAppSessions) : Storage := Some newDApps.

(** [{ ...current, [origin]: permissions }], then persisted whole. *)
Definition setDApp (st : Storage) (origin : string) (permissions : ThanosDAppSession)
  : Storage :=
  let current := getAllDApps st in
  setDApps (<[origin := permissions]> current).

(** [removeDApp]; the removal of the origin's Beacon public key that follows
    the write is outside the storage and is not part of the model. *)
Definition removeDApp (st : Storage) (origin : string) : Storage :=
  setDApps (delete origin (getAllDApps st)).

Definition cleanDApps : Storage := setDApps ∅.

(** ** Requests, responses and confirmation payloads *)

(** An element of [opParams : any[]]: [null] or [undefined], or a value
    whose property [kind] can be read; [op_kind] is [Some] exactly when
    [typeof op.kind === "string"]. *)
Inductive OpParam :=
| OpNullish
| OpObject (op_kind : option string).

(** The requests a requester sends.  A field the validators read through
    [?.] is an [option]: [None] stands for a missing field. *)
Record ThanosDAppPermissionRequest := {
  perm_network : option ThanosDAppNetwork;
  perm_appMeta : option ThanosDAppMetadata;
  perm_force : bool
}.

Record ThanosDAppOperationRequest := {
  op_sourcePkh : option string;
  op_opParams : option (list OpParam)
}.

Record ThanosDAppSignRequest := {
  sign_sourcePkh : option string;
  sign_payload : option string
}.

Record ThanosDAppBroadcastRequest := {
  bc_signedOpBytes : option string
}.

Record Permission := {
  rpc : string;
  pkh : string;
  publicKey : string
}.

(** The responses, tagged by their [type]. *)
Inductive ThanosDAppResponse :=
| GetCurrentPermissionResponse (permission : option Permission)
| PermissionResponse (rpc pkh publicKey : string)
| OperationResponse (opHash : string)
| SignResponse (signature : string)
| BroadcastResponse (opHash : string).

(** What [localForger.parse] returns. *)
Record ForgedOperation := {
  forged_branch : string;
  forged_contents : list string
}.

(** The variable [preview] of [requestSign]. *)
Inductive Preview :=
| PreviewUndefined
| PreviewNull
| PreviewText (text : string)
| PreviewOperation (parsed : ForgedOperation).

(** [ThanosDAppPayload], tagged by its [type]: [connect],
    [confirm_operations] or [sign]. *)
Inductive ThanosDAppPayload :=
| PayloadConnect (origin networkRpc : string) (appMeta : ThanosDAppMetadata)
| PayloadConfirmOperations (origin networkRpc : string) (appMeta : ThanosDAppMetadata)
    (sourcePkh sourcePublicKey : string) (opParams : list OpParam)
| PayloadSign (origin networkRpc : string) (appMeta : ThanosDAppMetadata)
    (sourcePkh payload : string) (preview : Preview).

(** The messages of the approval surface on the message bus; every other
    request of the wallet is [OtherRequest]. *)
Inductive ThanosRequest :=
| DAppGetPayloadRequest (id : string)
| DAppPermConfirmationRequest (id : string) (confirmed : bool)
    (accountPublicKeyHash accountPublicKey : string)
| DAppOpsConfirmationRequest (id : string) (confirmed : bool)
| DAppSignConfirmationRequest (id : string) (confirmed : bool)
| OtherRequest.

Inductive ThanosResponse :=
| DAppGetPayloadResponse (payload : ThanosDAppPayload)
| DAppPermConfirmationResponse
| DAppOpsConfirmationResponse
| DAppSignConfirmationResponse.

(** ** Effects *)

(** What the module does to the world, in the order it does it. *)
Inductive Effect :=
| EStorageGet
| EStorageSet (origin : string) (session : ThanosDAppSession)
| EInjectOperation (rpc signedOpBytes : string)
| EOpenConfirm (id : string) (payload : ThanosDAppPayload)
| EVaultSendOperations (pkh rpc : string) (opParams : list OpParam)
| EVaultSign (pkh payload : string)
| ELedgerAppend (pkh opHash : string)
| EResolve (r : ThanosDAppResponse)
| EReject (e : JsError)
| EClearTimeout
| EStopRequestListening
| EStopWinRemovedListening
| ECloseWindow
| EWindowsRemove (winId : Z).

Global Instance ThanosDAppErrorType_eq_dec : EqDecision ThanosDAppErrorType.
Proof. solve_decision. Defined.
Global Instance ErrorMessage_eq_dec : EqDecision ErrorMessage.
Proof. solve_decision. Defined.
Global Instance JsError_eq_dec : EqDecision JsError.
Proof. solve_decision. Defined.
Global Instance ThanosDAppNetwork_eq_dec : EqDecision ThanosDAppNetwork.
Proof. solve_decision. Defined.
Global Instance ThanosDAppMetadata_eq_dec : EqDecision ThanosDAppMetadata.
Proof. solve_decision. Defined.
Global Instance ThanosDAppSession_eq_dec : EqDecision ThanosDAppSession.
Proof. solve_decision. Defined.
Global Instance OpParam_eq_dec : EqDecision OpParam.
Proof. solve_decision. Defined.
Global Instance Permission_eq_dec : EqDecision Permission.
Proof. solve_decision. Defined.
Global Instance ThanosDAppResponse_eq_dec : EqDecision ThanosDAppResponse.
Proof. solve_decision. Defined.
Global Instance ForgedOperation_eq_dec : EqDecision ForgedOperation.
Proof. solve_decision. Defined.
Global Instance Preview_eq_dec : EqDecision Preview.
Proof. solve_decision. Defined.
Global Instance ThanosDAppPayload_eq_dec : EqDecision ThanosDAppPayload.
Proof. solve_decision. Defined.
Global Instance ThanosRequest_eq_dec : EqDecision ThanosRequest.
Proof. solve_decision. Defined.
Global Instance Effect_eq_dec : EqDecision Effect.
Proof. solve_decision. Defined.

(** The state of the promise an arbiter returned. *)
Inductive Promise :=
| Pending
| Resolved (r : ThanosDAppResponse)
| RejectedWith (e : JsError).

(** [resolve] and [reject] settle a pending promise and do nothing to a
    settled one. *)
Definition resolve (p : Promise) (r : ThanosDAppResponse) : Promise :=
  match p with
  | Pending => Resolved r
  | _ => p
  end.

Definition reject (p : Promise) (e : JsError) : Promise :=
  match p with
  | Pending => RejectedWith e
  | _ => p
  end.

(** ** The confirmation orchestrator: [requestConfirm] *)

(** The delay, in milliseconds, after which a confirmation is declined. *)
Definition AUTODECLINE_AFTER : Z := 120000.

(** A [Runtime.Port]; ports are compared by identity. *)
Definition Port := nat.

(** The [handleIntercomRequest] closures of the three arbiters, with the
    variables each one captures. *)
Inductive Handler :=
| PermHandler (origin : string) (network : ThanosDAppNetwork)
    (appMeta : ThanosDAppMetadata) (networkRpc : string)
| OpsHandler (dApp : ThanosDAppSession) (networkRpc : string) (opParams : list OpParam)
| SignHandler (dApp : ThanosDAppSession) (payload : string).

(** The constants of one call of [requestConfirm]: its parameters ([onDecline]
    is [reject(new Error(NotGranted))] at all three call sites and is not a
    parameter here) and the id of the window it created. *)
Record ConfirmParams := {
  c_id : string;
  c_payload : ThanosDAppPayload;
  c_handler : Handler;
  c_confirmWinId : option Z
}.

(** The variables the closures of one call of [requestConfirm] share, the
    listeners and the timer it registered, the promise of the arbiter, the
    persisted storage and the effects so far.  [suspended] lists the runs of
    the request listener that wait at the [await] of their handler (on
    [setDApp], [vault.sendOperations] or [vault.sign]), each by the request
    it was started on. *)
Record Confirm := {
  closing : bool;
  knownPort : option Port;
  timerPending : bool;
  requestListening : bool;
  winRemovedListening : bool;
  windowOpen : bool;
  suspended : list ThanosRequest;
  promise : Promise;
  storage : Storage;
  log : list Effect
}.

(** What a run of the request listener gives back to the message bus:
    [undefined], a response, a rejection, or nothing yet because the run is
    suspended. *)
Inductive Reply :=
| Ignored
| Respond (r : ThanosResponse)
| Fail (e : JsError)
| Awaiting.

(** The callbacks the host runtime invokes. [Completed i result ledger]: the
    call awaited by the [i]-th suspended listener run completes with
    [result]; [ledger] tells whether the pending-operation ledger update
    that follows a submission ran to its end.  [TimerFired]: the timer set
    for [AUTODECLINE_AFTER] milliseconds expires. *)
Inductive Event :=
| Message (port : Port) (req : ThanosRequest)
| Completed (i : nat) (result : Completion string) (ledger : bool)
| TimerFired
| WindowRemoved (winId : Z).

Definition emit (e : list Effect) (c : Confirm) : Confirm :=
  {| closing := closing c; knownPort := knownPort c; timerPending := timerPending c;
     requestListening := requestListening c;
     winRemovedListening := winRemovedListening c; windowOpen := windowOpen c;
     suspended := suspended c; promise := promise c; storage := storage c;
     log := log c ++ e |}.

Definition set_promise (p : Promise) (c : Confirm) : Confirm :=
  {| closing := closing c; knownPort := knownPort c; timerPending := timerPending c;
     requestListening := requestListening c;
     winRemovedListening := winRemovedListening c; windowOpen := windowOpen c;
     suspended := suspended c; promise := p; storage := storage c;
     log := log c |}.

Definition set_suspended (l : list ThanosRequest) (c : Confirm) : Confirm :=
  {| closing := closing c; knownPort := knownPort c; timerPending := timerPending c;
     requestListening := requestListening c;
     winRemovedListening := winRemovedListening c; windowOpen := windowOpen c;
     suspended := l; promise := promise c; storage := storage c;
     log := log c |}.

Definition set_storage (st : Storage) (c : Confirm) : Confirm :=
  {| closing := closing c; knownPort := knownPort c; timerPending := timerPending c;
     requestListening := requestListening c;
     winRemovedListening := winRemovedListening c; windowOpen := windowOpen c;
     suspended := suspended c; promise := promise c; storage := st;
     log := log c |}.

Definition set_knownPort (port : Port) (c : Confirm) : Confirm :=
  {| closing := closing c; knownPort := Some port; timerPending := timerPending c;
     requestListening := requestListening c;
     winRemovedListening := winRemovedListening c; windowOpen := windowOpen c;
     suspended := suspended c; promise := promise c; storage := storage c;
     log := log c |}.

Definition set_windowOpen (b : bool) (c : Confirm) : Confirm :=
  {| closing := closing c; knownPort := knownPort c; timerPending := timerPending c;
     requestListening := requestListening c;
     winRemovedListening := winRemovedListening c; windowOpen := b;
     suspended := suspended c; promise := promise c; storage := storage c;
     log := log c |}.

Definition set_timerPending (b : bool) (c : Confirm) : Confirm :=
  {| closing := closing c; knownPort := knownPort c; timerPending := b;
     requestListening := requestListening c;
     winRemovedListening := winRemovedListening c; windowOpen := windowOpen c;
     suspended := suspended c; promise := promise c; storage := storage c;
     log := log c |}.

(** [resolve(r)] and [reject(e)] of the arbiter's promise. *)
Definition do_resolve (r : ThanosDAppResponse) (c : Confirm) : Confirm :=
  emit [EResolve r] (set_promise (resolve (promise c) r) c).

Definition do_reject (e : JsError) (c : Confirm) : Confirm :=
  emit [EReject e] (set_promise (reject (promise c) e) c).

(** [onDecline = () => reject(new Error(ThanosDAppErrorType.NotGranted))] *)
Definition onDecline (c : Confirm) : Confirm :=
  do_reject (Error (Code NotGranted)) c.

(** [stopTimeout = () => clearTimeout(t)] *)
Definition stopTimeout (c : Confirm) : Confirm :=
  emit [EClearTimeout] (set_timerPending false c).

(** the unsubscribe function [intercom.onRequest] returned *)
Definition stopRequestListening (c : Confirm) : Confirm :=
  emit [EStopRequestListening]
    {| closing := closing c; knownPort := knownPort c; timerPending := timerPending c;
       requestListening := false;
       winRemovedListening := winRemovedListening c; windowOpen := windowOpen c;
       suspended := suspended c; promise := promise c; storage := storage c;
       log := log c |}.

(** [browser.windows.onRemoved.removeListener(handleWinRemoved)] *)
Definition stopWinRemovedListening (c : Confirm) : Confirm :=
  emit [EStopWinRemovedListening]
    {| closing := closing c; knownPort := knownPort c; timerPending := timerPending c;
       requestListening := requestListening c;
       winRemovedListening := false; windowOpen := windowOpen c;
       suspended := suspended c; promise := promise c; storage := storage c;
       log := log c |}.

(** [closeWindow]: with a truthy window id, [browser.windows.get] finds the
    window only while it is open (otherwise it rejects, which [close]
    swallows) and the window is then removed. *)
Definition closeWindow (P : ConfirmParams) (c : Confirm) : Confirm :=
  let c := emit [ECloseWindow] c in
  match c_confirmWinId P with
  | Some w =>
      if negb (w =? 0)%Z && windowOpen c
      then emit [EWindowsRemove w] (set_windowOpen false c)
      else c
  | None => c
  end.

(** [close]: guarded by the flag [closing]. *)
Definition close (P : ConfirmParams) (c : Confirm) : Confirm :=
  if closing c then c
  else
    let c :=
      {| closing := true; knownPort := knownPort c; timerPending := timerPending c;
         requestListening := requestListening c;
         winRemovedListening := winRemovedListening c; windowOpen := windowOpen c;
         suspended := suspended c; promise := promise c; storage := storage c;
         log := log c |} in
    closeWindow P (stopWinRemovedListening (stopRequestListening (stopTimeout c))).

(** [declineAndClose = () => { onDecline(); close(); }] *)
Definition declineAndClose (P : ConfirmParams) (c : Confirm) : Confirm :=
  close P (onDecline c).

(** *** The arbiters' decision handlers *)

(** How a call of [handleIntercomRequest] leaves the listener: it returned
    (a response, or [undefined]), or it is suspended at its [await]. *)
Inductive HandlerStatus :=
| HReturn (result : option ThanosResponse)
| HAwait.

(** [handleIntercomRequest(req, onDecline)] up to its first [await]. *)
Definition handle_start (P : ConfirmParams) (c : Confirm) (req : ThanosRequest)
  : Confirm * HandlerStatus :=
  match c_handler P, req with
  | PermHandler origin network appMeta networkRpc,
    DAppPermConfirmationRequest id confirmed accountPublicKeyHash accountPublicKey =>
      if String.eqb id (c_id P) then
        if confirmed && truthy accountPublicKeyHash && truthy accountPublicKey
        then (c, HAwait)
        else (onDecline c, HReturn (Some DAppPermConfirmationResponse))
      else (c, HReturn None)
  | OpsHandler dApp networkRpc opParams, DAppOpsConfirmationRequest id confirmed =>
      if String.eqb id (c_id P) then
        if confirmed
        then (emit [EVaultSendOperations (dapp_pkh dApp) networkRpc opParams] c, HAwait)
        else (onDecline c, HReturn (Some DAppOpsConfirmationResponse))
      else (c, HReturn None)
  | SignHandler dApp payload, DAppSignConfirmationRequest id confirmed =>
      if String.eqb id (c_id P) then
        if confirmed
        then (emit [EVaultSign (dapp_pkh dApp) payload] c, HAwait)
        else (onDecline c, HReturn (Some DAppSignConfirmationResponse))
      else (c, HReturn None)
  | _, _ => (c, HReturn None)
  end.

(** The rest of [handleIntercomRequest] once the awaited call completed
    with [result], for the run that was started on [req]. *)
Definition handle_resume (P : ConfirmParams) (c : Confirm) (req : ThanosRequest)
    (result : Completion string) (ledger : bool)
  : Confirm * Completion (option ThanosResponse) :=
  match c_handler P, req with
  | PermHandler origin network appMeta networkRpc,
    DAppPermConfirmationRequest _ _ accountPublicKeyHash accountPublicKey =>
      match result with
      | Normal _ =>
          let session :=
            {| dapp_network := network; dapp_appMeta := appMeta;
               dapp_pkh := accountPublicKeyHash; dapp_publicKey := accountPublicKey |} in
          let c := emit [EStorageGet; EStorageSet origin session]
                     (set_storage (setDApp (storage c) origin session) c) in
          (do_resolve (PermissionResponse networkRpc accountPublicKeyHash accountPublicKey) c,
           Normal (Some DAppPermConfirmationResponse))
      | Throw err => (c, Throw err)
      end
  | OpsHandler dApp networkRpc opParams, DAppOpsConfirmationRequest _ _ =>
      match result with
      | Normal opHash =>
          let c := if ledger then emit [ELedgerAppend (dapp_pkh dApp) opHash] c else c in
          (do_resolve (OperationResponse opHash) c,
           Normal (Some DAppOpsConfirmationResponse))
      | Throw err =>
          if instanceofTezosOperationError err
          then (do_reject (setMessage err (Code TezosOperation)) c,
                Normal (Some DAppOpsConfirmationResponse))
          else (c, Throw err)
      end
  | SignHandler dApp payload, DAppSignConfirmationRequest _ _ =>
      match result with
      | Normal signature =>
          (do_resolve (SignResponse signature) c,
           Normal (Some DAppSignConfirmationResponse))
      | Throw err => (c, Throw err)
      end
  | _, _ => (c, Normal None)
  end.

(** *** The request listener and the other callbacks *)

(** The listener after [await handleIntercomRequest(req, onDecline)]:
    [if (result) { close(); return result; }]. *)
Definition after_handler (P : ConfirmParams) (c : Confirm)
    (res : Completion (option ThanosResponse)) : Confirm * Reply :=
  match res with
  | Normal (Some r) => (close P c, Respond r)
  | Normal None => (c, Ignored)
  | Throw e => (c, Fail e)
  end.

(** [req?.type === DAppGetPayloadRequest && req.id === id] *)
Definition isGetPayloadFor (id : string) (req : ThanosRequest) : bool :=
  match req with
  | DAppGetPayloadRequest id' => String.eqb id' id
  | _ => false
  end.

(** The callback given to [intercom.onRequest]. *)
Definition onRequest (P : ConfirmParams) (c : Confirm) (port : Port) (req : ThanosRequest)
  : Confirm * Reply :=
  if isGetPayloadFor (c_id P) req then
    (set_knownPort port c, Respond (DAppGetPayloadResponse (c_payload P)))
  else if negb (bool_decide (knownPort c = Some port)) then (c, Ignored)
  else
    match handle_start P c req with
    | (c, HAwait) => (set_suspended (suspended c ++ [req]) c, Awaiting)
    | (c, HReturn result) => after_handler P c (Normal result)
    end.

(** [handleWinRemoved] *)
Definition handleWinRemoved (P : ConfirmParams) (c : Confirm) (winId : Z) : Confirm :=
  if bool_decide (c_confirmWinId P = Some winId) then declineAndClose P c else c.

(** One callback of the host runtime.  A message reaches the listener only
    while it is attached, the timer fires once and only while it is not
    cleared, a window removal reaches [handleWinRemoved] only while it is
    attached; a suspended run resumes whatever was detached meanwhile. *)
Definition step (P : ConfirmParams) (c : Confirm) (ev : Event) : Confirm * Reply :=
  match ev with
  | Message port req =>
      if requestListening c then onRequest P c port req else (c, Ignored)
  | Completed i result ledger =>
      match suspended c !! i with
      | Some req =>
          let c := set_suspended (delete i (suspended c)) c in
          let '(c, res) := handle_resume P c req result ledger in
          after_handler P c res
      | None => (c, Ignored)
      end
  | TimerFired =>
      if timerPending c
      then (declineAndClose P (set_timerPending false c), Ignored)
      else (c, Ignored)
  | WindowRemoved winId =>
      let c := if bool_decide (c_confirmWinId P = Some winId)
               then set_windowOpen false c else c in
      if winRemovedListening c then (handleWinRemoved P c winId, Ignored)
      else (c, Ignored)
  end.

Fixpoint run (P : ConfirmParams) (c : Confirm) (evs : list Event) : Confirm :=
  match evs with
  | [] => c
  | ev :: evs' => run P (fst (step P c ev)) evs'
  end.

(** [requestConfirm] up to its end: the listeners are attached, the window
    is created with id [winId], the timer is armed.  The position and the
    size of the window play no part in what follows and are left out; the
    callbacks are taken to run once [requestConfirm] has returned. *)
Definition requestConfirm (id : string) (payload : ThanosDAppPayload)
    (handler : Handler) (winId : option Z) (st : Storage) : ConfirmParams * Confirm :=
  ({| c_id := id; c_payload := payload; c_handler := handler; c_confirmWinId := winId |},
   {| closing := false; knownPort := None; timerPending := true;
      requestListening := true; winRemovedListening := true; windowOpen := true;
      suspended := []; promise := Pending; storage := st; log := [] |}).

(** ** The arbiters *)

(** How a call of an arbiter leaves the promise it returned: fulfilled,
    rejected, pending on a confirmation that was opened, or pending for ever
    because the [async] executor of [new Promise] threw [e] (nothing calls
    [resolve] or [reject] then). *)
Inductive Settlement :=
| Fulfilled (r : ThanosDAppResponse)
| Rejected (e : JsError)
| Confirming (P : ConfirmParams) (c : Confirm)
| NeverSettled (e : JsError).

Record Run := {
  effects : list Effect;
  settlement : Settlement
}.

Section Arbiters.

(** The known-network list of [lib/thanos/networks]. *)
Variable NETWORKS : list ThanosNetwork.
(** [isAddressValid] of [lib/thanos/helpers], on a field that may be
    missing. *)
Variable isAddressValid : option string -> bool.
(** [hex => emitMicheline(valueDecoder(Uint8ArrayConsumer.fromHexString(hex)),
    { indent: "  ", newline: "\n" })] of the forging library. *)
Variable emitMichelineValue : string -> Completion string.
(** [localForger.parse] *)
Variable localForger_parse : string -> Completion ForgedOperation.
(** [(rpc, bytes) => new RpcClient(rpc).injectOperation(bytes)] *)
Variable injectOperation : string -> string -> Completion string.

(** [NETWORKS.find((n) => n.id === net)!.rpcBaseURL], or [net.rpc]. *)
Definition getNetworkRPC (net : ThanosDAppNetwork) : Completion string :=
  match net with
  | NetworkId id =>
      match List.find (fun n => String.eqb (net_id n) id) NETWORKS with
      | Some n => Normal (net_rpcBaseURL n)
      | None => Throw (TypeError "rpcBaseURL")
      end
  | NetworkCustom _ rpc => Normal rpc
  end.

Definition isAllowedNetwork (net : option ThanosDAppNetwork) : bool :=
  match net with
  | Some (NetworkId id) =>
      existsb (fun n => negb (net_disabled n) && String.eqb (net_id n) id) NETWORKS
  | Some (NetworkCustom _ rpc) => truthy rpc
  | None => false
  end.

(** Two inline descriptors are compared by [rpc], everything else by
    [===]: two ids as strings, and an id never equals a descriptor. *)
Definition isNetworkEquals (fNet sNet : ThanosDAppNetwork) : bool :=
  match fNet, sNet with
  | NetworkCustom _ frpc, NetworkCustom _ srpc => String.eqb frpc srpc
  | NetworkId fid, NetworkId sid => String.eqb fid sid
  | _, _ => false
  end.

(** [req.appMeta.name === dApp.appMeta.name], for a [req] whose name is
    a string. *)
Definition sameName (a b : ThanosDAppMetadata) : bool :=
  match meta_name a, meta_name b with
  | Some x, Some y => String.eqb x y
  | _, _ => false
  end.

(** [typeof req?.appMeta?.name === "string"] *)
Definition nameIsString (appMeta : option ThanosDAppMetadata) : bool :=
  match appMeta with
  | Some m => bool_decide (is_Some (meta_name m))
  | None => false
  end.

(** [[...].every(Boolean)] *)
Definition everyBoolean (l : list bool) : bool := forallb (fun b => b) l.

Definition getCurrentPermission (st : Storage) (origin : string) : Run :=
  match getDApp st origin with
  | Some dApp =>
      match getNetworkRPC (dapp_network dApp) with
      | Normal r =>
          {| effects := [EStorageGet];
             settlement := Fulfilled (GetCurrentPermissionResponse
               (Some {| rpc := r; pkh := dapp_pkh dApp;
                        publicKey := dapp_publicKey dApp |})) |}
      | Throw e => {| effects := [EStorageGet]; settlement := Rejected e |}
      end
  | None =>
      {| effects := [EStorageGet];
         settlement := Fulfilled (GetCurrentPermissionResponse None) |}
  end.

(** [id] is the value of [nanoid()] and [winId] the id of the window
    [browser.windows.create] returns, here and in the arbiters below. *)
Definition requestPermission (st : Storage) (id : string) (winId : option Z)
    (origin : string) (req : ThanosDAppPermissionRequest) : Run :=
  if negb (everyBoolean [isAllowedNetwork (perm_network req);
                         nameIsString (perm_appMeta req)])
  then {| effects := []; settlement := Rejected (Error (Code InvalidParams)) |}
  else
    match perm_network req, perm_appMeta req with
    | Some network, Some appMeta =>
        match getNetworkRPC network with
        | Throw e => {| effects := []; settlement := Rejected e |}
        | Normal networkRpc =>
            let fast :=
              match getDApp st origin with
              | Some dApp =>
                  if negb (perm_force req)
                     && isNetworkEquals network (dapp_network dApp)
                     && sameName appMeta (dapp_appMeta dApp)
                  then Some dApp else None
              | None => None
              end in
            match fast with
            | Some dApp =>
                {| effects := [EStorageGet];
                   settlement := Fulfilled
                     (PermissionResponse networkRpc (dapp_pkh dApp) (dapp_publicKey dApp)) |}
            | None =>
                let payload := PayloadConnect origin networkRpc appMeta in
                let '(P, c) :=
                  requestConfirm id payload
                    (PermHandler origin network appMeta networkRpc) winId st in
                {| effects := [EStorageGet; EOpenConfirm id payload];
                   settlement := Confirming P c |}
            end
        end
    | _, _ =>
        (* not reached: the validation above fails on a missing field *)
        {| effects := []; settlement := Rejected (Error (Code InvalidParams)) |}
    end.

(** [(op) => typeof op.kind === "string"] under [every]: it stops at the
    first element that fails, and reading [kind] off [null] or [undefined]
    throws. *)
Fixpoint everyKindIsString (ops : list OpParam) : Completion bool :=
  match ops with
  | [] => Normal true
  | OpNullish :: _ => Throw (TypeError "kind")
  | OpObject k :: rest =>
      if bool_decide (is_Some k) then everyKindIsString rest else Normal false
  end.

(** The array literal of the validation of [requestOperation], its three
    elements evaluated in order, then [.every(Boolean)]. *)
Definition validOperationRequest (req : ThanosDAppOperationRequest) : Completion bool :=
  let a := isAddressValid (op_sourcePkh req) in
  let b := match op_opParams req with
           | Some ops => (0 <? length ops)%nat
           | None => false
           end in
  let? c := match op_opParams req with
            | Some ops => everyKindIsString ops
            | None => Normal false
            end in
  Normal (everyBoolean [a; b; c]).

Definition requestOperation (st : Storage) (id : string) (winId : option Z)
    (origin : string) (req : ThanosDAppOperationRequest) : Run :=
  match validOperationRequest req with
  | Throw e => {| effects := []; settlement := Rejected e |}
  | Normal false =>
      {| effects := []; settlement := Rejected (Error (Code InvalidParams)) |}
  | Normal true =>
      match getDApp st origin with
      | None =>
          {| effects := [EStorageGet]; settlement := Rejected (Error (Code NotGranted)) |}
      | Some dApp =>
          if negb (bool_decide (op_sourcePkh req = Some (dapp_pkh dApp)))
          then {| effects := [EStorageGet];
                  settlement := Rejected (Error (Code NotFound)) |}
          else
            match getNetworkRPC (dapp_network dApp) with
            | Throw e => {| effects := [EStorageGet]; settlement := NeverSettled e |}
            | Normal networkRpc =>
                (* both fields are present once the checks above passed *)
                let sourcePkh := default EmptyString (op_sourcePkh req) in
                let opParams := default [] (op_opParams req) in
                let payload :=
                  PayloadConfirmOperations origin networkRpc (dapp_appMeta dApp)
                    sourcePkh (dapp_publicKey dApp) opParams in
                let '(P, c) :=
                  requestConfirm id payload
                    (OpsHandler dApp networkRpc opParams) winId st in
                {| effects := [EStorageGet; EOpenConfirm id payload];
                   settlement := Confirming P c |}
            end
      end
  end.

(** The preview of [requestSign]: every exception of the [try] block
    leaves [null], a parsed operation without contents leaves [preview]
    unassigned. *)
Definition buildPreview (payload : string) : Preview :=
  if TEZ_MSG_SIGN_PATTERN payload then
    match emitMichelineValue (slice_from 2 payload) with
    | Normal text => PreviewText (slice_1_m1 text)
    | Throw _ => PreviewNull
    end
  else
    match localForger_parse payload with
    | Normal parsed =>
        if (0 <? length (forged_contents parsed))%nat
        then PreviewOperation parsed else PreviewUndefined
    | Throw _ => PreviewNull
    end.

(** [if (req?.payload?.startsWith("0x")) req = { ...req, payload:
    req.payload.substring(2) }] *)
Definition normalizeSignRequest (req : ThanosDAppSignRequest) : ThanosDAppSignRequest :=
  match sign_payload req with
  | Some p =>
      if startsWith "0x" p
      then {| sign_sourcePkh := sign_sourcePkh req;
              sign_payload := Some (slice_from 2 p) |}
      else req
  | None => req
  end.

(** [HEX_PATTERN.test(req?.payload)]: a missing payload is tested as the
    text [undefined], which is not hexadecimal. *)
Definition testHex (payload : option string) : bool :=
  match payload with
  | Some p => HEX_PATTERN p
  | None => false
  end.

Definition requestSign (st : Storage) (id : string) (winId : option Z)
    (origin : string) (req0 : ThanosDAppSignRequest) : Run :=
  let req := normalizeSignRequest req0 in
  if negb (everyBoolean [isAddressValid (sign_sourcePkh req); testHex (sign_payload req)])
  then {| effects := []; settlement := Rejected (Error (Code InvalidParams)) |}
  else
    match getDApp st origin with
    | None =>
        {| effects := [EStorageGet]; settlement := Rejected (Error (Code NotGranted)) |}
    | Some dApp =>
        if negb (bool_decide (sign_sourcePkh req = Some (dapp_pkh dApp)))
        then {| effects := [EStorageGet]; settlement := Rejected (Error (Code NotFound)) |}
        else
          match getNetworkRPC (dapp_network dApp) with
          | Throw e => {| effects := [EStorageGet]; settlement := NeverSettled e |}
          | Normal networkRpc =>
              (* both fields are present once the checks above passed *)
              let sourcePkh := default EmptyString (sign_sourcePkh req) in
              let raw := default EmptyString (sign_payload req) in
              let preview := buildPreview raw in
              let payload :=
                PayloadSign origin networkRpc (dapp_appMeta dApp)
                  sourcePkh raw preview in
              let '(P, c) :=
                requestConfirm id payload (SignHandler dApp raw) winId st in
              {| effects := [EStorageGet; EOpenConfirm id payload];
                 settlement := Confirming P c |}
          end
    end.

Definition requestBroadcast (st : Storage) (origin : string)
    (req : ThanosDAppBroadcastRequest) : Run :=
  match bc_signedOpBytes req with
  | None => {| effects := []; settlement := Rejected (Error (Code InvalidParams)) |}
  | Some signedOpBytes =>
      if negb (everyBoolean [(0 <? String.length signedOpBytes)%nat])
      then {| effects := []; settlement := Rejected (Error (Code InvalidParams)) |}
      else
        match getDApp st origin with
        | None =>
            {| effects := [EStorageGet];
               settlement := Rejected (Error (Code NotGranted)) |}
        | Some dApp =>
            let relabel (err : JsError) : JsError :=
              if instanceofTezosOperationError err
              then setMessage err (Code TezosOperation)
              else Error (Text "Failed to broadcast") in
            match getNetworkRPC (dapp_network dApp) with
            | Throw err =>
                {| effects := [EStorageGet]; settlement := Rejected (relabel err) |}
            | Normal r =>
                match injectOperation r signedOpBytes with
                | Normal opHash =>
                    {| effects := [EStorageGet; EInjectOperation r signedOpBytes];
                       settlement := Fulfilled (BroadcastResponse opHash) |}
                | Throw err =>
                    {| effects := [EStorageGet; EInjectOperation r signedOpBytes];
                       settlement := Rejected (relabel err) |}
                end
            end
        end
  end.

End Arbiters.

(** ** Sample data

    A two-entry network list, a session and the collaborators, used where
    the properties below are instantiated. *)
Module Sample.

Definition NETWORKS : list ThanosNetwork :=
  [ {| net_id := "mainnet"; net_rpcBaseURL := "https://mainnet.rpc"; net_disabled := false |};
    {| net_id := "sandbox"; net_rpcBaseURL := "http://localhost:8732"; net_disabled := true |} ].

Definition origin : string := "https://dapp.example".

Definition appMeta : ThanosDAppMetadata := {| meta_name := Some "Example" |}.

Definition session : ThanosDAppSession :=
  {| dapp_network := NetworkId "mainnet"; dapp_appMeta := appMeta;
     dapp_pkh := "tz1Alice"; dapp_publicKey := "edpkAlice" |}.

(** a session persisted under a network id that is no longer listed *)
Definition staleSession : ThanosDAppSession :=
  {| dapp_network := NetworkId "carthagenet"; dapp_appMeta := appMeta;
     dapp_pkh := "tz1Alice"; dapp_publicKey := "edpkAlice" |}.

Definition store : Storage := Some {[ origin := session ]}.

Definition staleStore : Storage := Some {[ origin := staleSession ]}.

Definition isAddressValid (a : option string) : bool :=
  match a with
  | Some s => startsWith "tz1" s
  | None => false
  end.

Definition quote : string := String (ascii_of_nat 34) EmptyString.

(** a decoder that knows one value, and a forger that parses nothing *)
Definition emitMichelineValue (hex : string) : Completion string :=
  if String.eqb hex "010000001654657a6f73205369676e6564204d6573736167653a20"
  then Normal (String.append quote (String.append "Tezos Signed Message: " quote))
  else Throw (Error (Text "decode")).

Definition localForger_parse (hex : string) : Completion ForgedOperation :=
  Throw (Error (Text "parse")).

Definition injectOperation (r bytes : string) : Completion string :=
  if String.eqb bytes "00" then Throw (TezosOperationError (Text "proto.alpha") ["bad"])
  else if String.eqb bytes "ff" then Throw (Error (Text "network"))
  else Normal "opHash".

Definition signedMessage : string :=
  "05010000001654657a6f73205369676e6564204d6573736167653a20".

Definition permissionRequest : ThanosDAppPermissionRequest :=
  {| perm_network := Some (NetworkId "mainnet"); perm_appMeta := Some appMeta;
     perm_force := false |}.

Definition operationRequest : ThanosDAppOperationRequest :=
  {| op_sourcePkh := Some "tz1Alice";
     op_opParams := Some [OpObject (Some "transaction")] |}.

Definition signRequest : ThanosDAppSignRequest :=
  {| sign_sourcePkh := Some "tz1Alice"; sign_payload := Some (String.append "0x" signedMessage) |}.

Definition rpcURL : string := "https://mainnet.rpc".

Definition opParams : list OpParam := [OpObject (Some "transaction")].

(** the three kinds of confirmation, as [requestConfirm] opens them *)
Definition opsPayload : ThanosDAppPayload :=
  PayloadConfirmOperations origin rpcURL appMeta "tz1Alice" "edpkAlice" opParams.

Definition opsParams : ConfirmParams :=
  fst (requestConfirm "id-1" opsPayload (OpsHandler session rpcURL opParams)
         (Some 7%Z) store).

Definition opsConfirm : Confirm :=
  snd (requestConfirm "id-1" opsPayload (OpsHandler session rpcURL opParams)
         (Some 7%Z) store).

Definition signPayload : ThanosDAppPayload :=
  PayloadSign origin rpcURL appMeta "tz1Alice" "0a0b" PreviewNull.

Definition signParams : ConfirmParams :=
  fst (requestConfirm "id-2" signPayload (SignHandler session "0a0b") (Some 8%Z) store).

Definition signConfirm : Confirm :=
  snd (requestConfirm "id-2" signPayload (SignHandler session "0a0b") (Some 8%Z) store).

End Sample.

(** ** Observations of a confirmation

    The predicates in which the properties of the orchestrator are stated. *)

(** [isHandshakeOn id port ev]: the event [ev] is a fetch-payload message
    with id [id] on the channel [port]. *)
Definition isHandshakeOn (id : string) (port : Port) (ev : Event) : bool :=
  match ev with
  | Message p req => (p =? port)%nat && isGetPayloadFor id req
  | _ => false
  end.

(** The effects [close] performs. *)
Definition isTeardown (e : Effect) : bool :=
  match e with
  | EClearTimeout | EStopRequestListening | EStopWinRemovedListening
  | ECloseWindow | EWindowsRemove _ => true
  | _ => false
  end.

Definition teardown (l : list Effect) : list Effect := List.filter isTeardown l.

Definition occurrences (e : Effect) (l : list Effect) : nat :=
  count_occ Effect_eq_dec l e.

(** The part of a confirmation that [close] reads and writes. *)
Definition guard (c : Confirm) : bool * bool * bool * bool * list Effect :=
  (closing c, timerPending c, requestListening c, winRemovedListening c,
   teardown (log c)).

(** Before [close] ran, the timer and both listeners are in place and no
    teardown effect happened; after it ran they are gone, and the teardown
    effects are those of one run of [close]. *)
Definition guarded (c : Confirm) : Prop :=
  match guard c with
  | (false, t, r, w, td) => t = true /\ r = true /\ w = true /\ td = []
  | (true, t, r, w, td) =>
      t = false /\ r = false /\ w = false
      /\ exists tail,
           td = [EClearTimeout; EStopRequestListening; EStopWinRemovedListening;
                 ECloseWindow] ++ tail
           /\ (tail = [] \/ exists w, tail = [EWindowsRemove w])
  end.

(** The decision messages of the flow of [P], and those among them that
    approve. *)
Definition isDecision (P : ConfirmParams) (req : ThanosRequest) : bool :=
  match c_handler P, req with
  | PermHandler _ _ _ _, DAppPermConfirmationRequest id _ _ _ => String.eqb id (c_id P)
  | OpsHandler _ _ _, DAppOpsConfirmationRequest id _ => String.eqb id (c_id P)
  | SignHandler _ _, DAppSignConfirmationRequest id _ => String.eqb id (c_id P)
  | _, _ => false
  end.

Definition isApproval (P : ConfirmParams) (req : ThanosRequest) : bool :=
  isDecision P req &&
  match req with
  | DAppPermConfirmationRequest _ confirmed accountPublicKeyHash accountPublicKey =>
      confirmed && truthy accountPublicKeyHash && truthy accountPublicKey
  | DAppOpsConfirmationRequest _ confirmed => confirmed
  | DAppSignConfirmationRequest _ confirmed => confirmed
  | _ => false
  end.

(** Every teardown effect of [close] happened exactly once (the removal of
    the window at most once: the window may be gone already). *)
Definition tornDownOnce (c : Confirm) : Prop :=
  closing c = true
  /\ occurrences EClearTimeout (log c) = 1
  /\ occurrences EStopRequestListening (log c) = 1
  /\ occurrences EStopWinRemovedListening (log c) = 1
  /\ occurrences ECloseWindow (log c) = 1
  /\ forall w, occurrences (EWindowsRemove w) (log c) <= 1.

Definition notTornDown (c : Confirm) : Prop :=
  closing c = false /\ teardown (log c) = [].

(** The window [closeWindow] removes, if any. *)
Definition removesWindow (P : ConfirmParams) (c : Confirm) : option Z :=
  match c_confirmWinId P with
  | Some w => if negb (w =? 0)%Z && windowOpen c then Some w else None
  | None => None
  end.

(** Only approvals suspend the listener. *)
Definition approvalsOnly (P : ConfirmParams) (c : Confirm) : Prop :=
  Forall (fun req => isApproval P req = true) (suspended c).

(** ** Proof automation *)

(** Evaluation of the callbacks on a confirmation given by its fields. *)
Ltac run_callbacks :=
  lazy beta iota zeta delta
    [declineAndClose close closeWindow stopWinRemovedListening
     stopRequestListening stopTimeout onDecline do_reject do_resolve
     set_timerPending set_windowOpen set_knownPort set_storage set_suspended
     set_promise emit closing knownPort timerPending requestListening
     winRemovedListening windowOpen suspended promise storage log fst snd].

Ltac case_all :=
  repeat match goal with
    | |- context [match ?x with _ => _ end] => destruct x eqn:?
    end.

(** ** The approval window of [requestConfirm] *)

Definition CONFIRM_WINDOW_WIDTH : Z := 380.
Definition CONFIRM_WINDOW_HEIGHT : Z := 600.

(** The window [browser.windows.getCurrent()] returns, its four fields being
    whole numbers of pixels. *)
Record BrowserWindow := {
  win_top : Z;
  win_left : Z;
  win_width : Z;
  win_height : Z
}.

(** The argument of [browser.windows.create], whose [type] is always
    [popup]; [create_url] is the path handed to [browser.runtime.getURL]. *)
Record CreateData := {
  create_url : string;
  create_width : Z;
  create_height : Z;
  create_top : Z;
  create_left : Z
}.

(** The greatest magnitude of a coordinate or a size for which the window
    arithmetic below is the arithmetic of the source.  The source computes
    in IEEE doubles; for whole numbers of at most this magnitude every
    intermediate value is a multiple of one half below [2 ^ 52] and is
    computed without rounding. *)
Definition MAX_EXACT_COORDINATE : Z := 2 ^ 50.

Definition exactCoordinates (win : BrowserWindow) : bool :=
  forallb (fun z => (Z.abs z <=? MAX_EXACT_COORDINATE)%Z)
    [win_top win; win_left win; win_width win; win_height win].

(** [Math.round(n / 2)] for a whole [n]: a half is rounded up. *)
Definition roundHalf (n : Z) : Z := (n + 1) / 2.

(** [Math.round(win.top! + win.height! / 2 - CONFIRM_WINDOW_HEIGHT / 2)] and
    the same for [left], for a window with [exactCoordinates]; [isWin] is
    [(await getPlatformInfo()).os === "win"]. *)
Definition confirmWindow (win : BrowserWindow) (isWin : bool) (id : string) : CreateData :=
  let top := roundHalf (2 * win_top win + win_height win - CONFIRM_WINDOW_HEIGHT) in
  let left := roundHalf (2 * win_left win + win_width win - CONFIRM_WINDOW_WIDTH) in
  {| create_url := String.append "confirm.html#?id=" id;
     create_width := if isWin then CONFIRM_WINDOW_WIDTH + 16 else CONFIRM_WINDOW_WIDTH;
     create_height := if isWin then CONFIRM_WINDOW_HEIGHT + 17 else CONFIRM_WINDOW_HEIGHT;
     create_top := Z.max top 20;
     create_left := Z.max left 20 |}.

(** ** The operation history: [OperationHistory.tsx] *)

Definition PNDOP_EXPIRE_DELAY : Z := 1000 * 60 * 60 * 24.

Section Pages.

(** The token transfers and the operations of the two indexers are carried
    as they are. *)
Variables BcdTokenTransfer TzktOperation : Type.

(** [MixedPage]: [bcd.transfers], [bcd.last_id] and [tzkt]. *)
Record MixedPage := {
  bcd_transfers : list BcdTokenTransfer;
  bcd_last_id : option string;
  tzkt : list TzktOperation
}.

Definition getDataLength (pageData : MixedPage) : nat :=
  length (bcd_transfers pageData) + length (tzkt pageData).

Definition operationsReachingEnd (pageData : MixedPage) : bool :=
  (length (bcd_transfers pageData) <? 10)%nat && (length (tzkt pageData) <? 10)%nat.

(** [pagesData.reduce((acc, pageData) => ({ bcd: [...acc.bcd,
    ...pageData.bcd.transfers], tzkt: [...acc.tzkt, ...pageData.tzkt] }),
    { bcd: [], tzkt: [] })] *)
Definition operationsTransformFn (pagesData : list MixedPage)
  : list BcdTokenTransfer * list TzktOperation :=
  fold_left
    (fun acc pageData =>
       (fst acc ++ bcd_transfers pageData, snd acc ++ tzkt pageData))
    pagesData ([], []).

End Pages.

Arguments bcd_transfers {_ _} _.
Arguments bcd_last_id {_ _} _.
Arguments tzkt {_ _} _.
Arguments getDataLength {_ _} _.
Arguments operationsReachingEnd {_ _} _.
Arguments operationsTransformFn {_ _} _.

(** The fields of a [ThanosOperation] that the merge of pending and
    historical operations reads. *)
Record ThanosOperation := {
  op_hash : string;
  op_type : string;
  op_time : string;
  op_isThanosPending : bool
}.

(** [`${op.hash}_${op.type}`] *)
Definition opKey (op : ThanosOperation) : string :=
  String.append (op_hash op) (String.append "_" (op_type op)).

Section UniqueOps.

(** [time => new Date(time).getTime()], on times that are dates, and the
    reading of [Date.now()] in the turn of the loop over the pending
    operations that handles the operation at index [k]. *)
Variable getTime : string -> Z.
Variable now : nat -> Z.

Definition expired (k : nat) (pndOp : ThanosOperation) : bool :=
  (getTime (op_time pndOp) + PNDOP_EXPIRE_DELAY <? now k)%Z.

(** [l.some((op) => opKey(op) === opKey(x))] *)
Definition hasKey (l : list ThanosOperation) (x : ThanosOperation) : bool :=
  existsb (fun op => String.eqb (opKey op) (opKey x)) l.

(** [unique.every((u) => opKey(u) !== opKey(x))] *)
Definition keyIsNew (unique : list ThanosOperation) (x : ThanosOperation) : bool :=
  forallb (fun u => negb (String.eqb (opKey u) (opKey x))) unique.

(** One turn of the first loop, over the pending operations: the state is
    [(unique, nonUnique)]. *)
Definition pendingStep (operations : list ThanosOperation) (k : nat)
    (acc : list ThanosOperation * list ThanosOperation) (pndOp : ThanosOperation)
  : list ThanosOperation * list ThanosOperation :=
  if expired k pndOp || hasKey operations pndOp then (fst acc, snd acc ++ [pndOp])
  else if keyIsNew (fst acc) pndOp then (fst acc ++ [pndOp], snd acc)
  else acc.

(** The first loop, from the operation at index [k] on. *)
Fixpoint pendingLoop (operations : list ThanosOperation) (k : nat)
    (pendingOperations : list ThanosOperation)
    (acc : list ThanosOperation * list ThanosOperation)
  : list ThanosOperation * list ThanosOperation :=
  match pendingOperations with
  | [] => acc
  | pndOp :: rest =>
      pendingLoop operations (S k) rest (pendingStep operations k acc pndOp)
  end.

(** One turn of the second loop, over the historical operations. *)
Definition historyStep (unique : list ThanosOperation) (op : ThanosOperation)
  : list ThanosOperation :=
  if keyIsNew unique op then unique ++ [op] else unique.

(** [unique.sort((a, b) => new Date(b.time).getTime() - new
    Date(a.time).getTime())]: the latest first, operations of the same time
    in the order they had (the sort is stable). *)
Fixpoint insertByTime (x : ThanosOperation) (l : list ThanosOperation)
  : list ThanosOperation :=
  match l with
  | [] => [x]
  | y :: l' =>
      if (getTime (op_time y) <? getTime (op_time x))%Z then x :: y :: l'
      else y :: insertByTime x l'
  end.

Definition sortByTime (l : list ThanosOperation) : list ThanosOperation :=
  fold_left (fun sorted x => insertByTime x sorted) l [].

(** The order of a list sorted by that comparison: [a] before [b] only if
    [a] is not earlier than [b]. *)
Definition latestFirst (a b : ThanosOperation) : Prop :=
  (getTime (op_time b) <= getTime (op_time a))%Z.

(** The pair [[uniqueOps, nonUniqueOps]]. *)
Definition uniqueAndNonUniqueOps (operations pendingOperations : list ThanosOperation)
  : list ThanosOperation * list ThanosOperation :=
  let '(unique, nonUnique) :=
    pendingLoop operations 0 pendingOperations ([], []) in
  let unique := fold_left historyStep operations unique in
  (sortByTime unique, nonUnique).

End UniqueOps.

(** ** The history of a baker's settings: [BakingHistoryItem.tsx] *)

(** The loops over [rewardConfigHistory] and [feeHistory]: the value of the
    first entry whose cycle is not after [cycle], and [initial] if there is
    none. *)
Definition valueAtCycle {V : Type} (history : list (Z * V)) (cycle : Z) (initial : V) : V :=
  match List.find (fun historyEntry => (fst historyEntry <=? cycle)%Z) history with
  | Some historyEntry => snd historyEntry
  | None => initial
  end.

(** ** Further observations of a confirmation *)

Definition isPending (p : Promise) : bool :=
  match p with
  | Pending => true
  | _ => false
  end.

(** The id a message carries, if it is one of the messages of the approval
    surface. *)
Definition requestId (req : ThanosRequest) : option string :=
  match req with
  | DAppGetPayloadRequest id => Some id
  | DAppPermConfirmationRequest id _ _ _ => Some id
  | DAppOpsConfirmationRequest id _ => Some id
  | DAppSignConfirmationRequest id _ => Some id
  | OtherRequest => None
  end.

(** The calls of the vault. *)
Definition isVaultCall (e : Effect) : bool :=
  match e with
  | EVaultSendOperations _ _ _ | EVaultSign _ _ => true
  | _ => false
  end.

Definition vaultCalls (l : list Effect) : list Effect := List.filter isVaultCall l.

(** The call of the vault that the handler of [P] makes on an approval. *)
Definition vaultCall (P : ConfirmParams) : list Effect :=
  match c_handler P with
  | PermHandler _ _ _ _ => []
  | OpsHandler dApp networkRpc opParams =>
      [EVaultSendOperations (dapp_pkh dApp) networkRpc opParams]
  | SignHandler dApp payload => [EVaultSign (dapp_pkh dApp) payload]
  end.

(** The event is an approval that the listener accepts: it arrives while
    the listener is attached, on the bound channel. *)
Definition acceptsApproval (P : ConfirmParams) (c : Confirm) (ev : Event) : bool :=
  match ev with
  | Message port req =>
      requestListening c && bool_decide (knownPort c = Some port) && isApproval P req
  | _ => false
  end.

(** The response that answers a decision of the flow of [P]. *)
Definition decisionResponse (P : ConfirmParams) : ThanosResponse :=
  match c_handler P with
  | PermHandler _ _ _ _ => DAppPermConfirmationResponse
  | OpsHandler _ _ _ => DAppOpsConfirmationResponse
  | SignHandler _ _ => DAppSignConfirmationResponse
  end.

(** The promise is settled exactly when [close] ran. *)
Definition settledWhenClosed (c : Confirm) : Prop :=
  closing c = negb (isPending (promise c)).

(** The number of approvals the listener accepts along a sequence of
    callbacks. *)
Fixpoint approvalsAccepted (P : ConfirmParams) (c : Confirm) (evs : list Event) : nat :=
  match evs with
  | [] => 0
  | ev :: evs' =>
      (if acceptsApproval P c ev then 1 else 0)
      + approvalsAccepted P (fst (step P c ev)) evs'
  end.

(** What the arbiters that prompt do before the confirmation decides: they
    read the storage and open the confirmation, nothing else. *)
Definition onlyReadsAndPrompts (run : Run) : Prop :=
  Forall (fun e => e = EStorageGet \/ exists id payload, e = EOpenConfirm id payload)
    (effects run).

(** ** Sample operations *)

(** Concrete operations for the operation history: a clock at one instant,
    a historical operation, and three pending ones: one already in the
    history, one older than a day, one fresh. *)
Module SampleHistory.

Definition getTime (time : string) : Z :=
  if String.eqb time "2020-12-01T00:00:00Z" then 1606780800000
  else if String.eqb time "2020-12-03T00:00:00Z" then 1606953600000
  else 1606867200000.

Definition now (_ : nat) : Z := 1606953600000.

Definition applied : ThanosOperation :=
  {| op_hash := "ooApplied"; op_type := "transaction";
     op_time := "2020-12-02T00:00:00Z"; op_isThanosPending := false |}.

Definition appliedPending : ThanosOperation :=
  {| op_hash := "ooApplied"; op_type := "transaction";
     op_time := "2020-12-02T00:00:00Z"; op_isThanosPending := true |}.

Definition stalePending : ThanosOperation :=
  {| op_hash := "ooStale"; op_type := "transaction";
     op_time := "2020-12-01T00:00:00Z"; op_isThanosPending := true |}.

Definition freshPending : ThanosOperation :=
  {| op_hash := "ooFresh"; op_type := "delegation";
     op_time := "2020-12-03T00:00:00Z"; op_isThanosPending := true |}.

Definition operations : list ThanosOperation := [applied].

Definition pendingOperations : list ThanosOperation :=
  [appliedPending; stalePending; freshPending].

End SampleHistory.

(** * Properties *)

(** ** The session store *)

Lemma getDApp_setDApp (st : Storage) (origin : string) (s : ThanosDAppSession) :
  getDApp (setDApp st origin s) origin = Some s.
Proof. unfold getDApp, setDApp, setDApps; simpl. apply lookup_insert_eq. Qed.

Lemma getDApp_setDApp_other (st : Storage) (o o' : string) (s : ThanosDAppSession) :
  o ≠ o' -> getDApp (setDApp st o s) o' = getDApp st o'.
Proof.
  intros Hne. unfold getDApp, setDApp, setDApps; simpl. by apply lookup_insert_ne.
Qed.

Lemma getDApp_removeDApp (st : Storage) (origin : string) :
  getDApp (removeDApp st origin) origin = None.
Proof. unfold getDApp, removeDApp, setDApps; simpl. apply lookup_delete_eq. Qed.

(** ** Networks *)

Section NetworkFacts.

Variable NETWORKS : list ThanosNetwork.

Lemma getNetworkRPC_listed (id : string) :
  (exists n, In n NETWORKS /\ net_id n = id) ->
  exists n, In n NETWORKS /\ net_id n = id
            /\ getNetworkRPC NETWORKS (NetworkId id) = Normal (net_rpcBaseURL n).
Proof.
  intros [n [Hin Hid]]. unfold getNetworkRPC.
  destruct (List.find (fun n0 => String.eqb (net_id n0) id) NETWORKS) as [m|] eqn:Hfind.
  - apply find_some in Hfind as [Hm Heq]. apply String.eqb_eq in Heq.
    exists m. auto.
  - exfalso. apply (find_none _ _ Hfind) in Hin.
    apply String.eqb_neq in Hin. congruence.
Qed.

Lemma getNetworkRPC_unlisted (id : string) :
  (forall n, In n NETWORKS -> net_id n <> id) ->
  getNetworkRPC NETWORKS (NetworkId id) = Throw (TypeError "rpcBaseURL").
Proof.
  intros Hnone. unfold getNetworkRPC.
  destruct (List.find (fun n0 => String.eqb (net_id n0) id) NETWORKS) as [m|] eqn:Hfind;
    [|reflexivity].
  apply find_some in Hfind as [Hm Heq]. apply String.eqb_eq in Heq.
  exfalso. exact (Hnone m Hm Heq).
Qed.

(** The only error of [getNetworkRPC] is the [TypeError] of the missing
    entry. *)
Lemma getNetworkRPC_throws (net : ThanosDAppNetwork) (e : JsError) :
  getNetworkRPC NETWORKS net = Throw e -> e = TypeError "rpcBaseURL".
Proof.
  destruct net as [id|name r]; simpl; [|discriminate].
  destruct (List.find _ NETWORKS); [discriminate|]. congruence.
Qed.

(** An allowed network has an RPC endpoint. *)
Lemma isAllowedNetwork_rpc (net : ThanosDAppNetwork) :
  isAllowedNetwork NETWORKS (Some net) = true ->
  exists r, getNetworkRPC NETWORKS net = Normal r.
Proof.
  destruct net as [id|name r]; simpl; [|eauto].
  intros Hex. apply existsb_exists in Hex as [n [Hin Hn]].
  apply andb_true_iff in Hn as [_ Hid]. apply String.eqb_eq in Hid.
  destruct (getNetworkRPC_listed id) as [m [_ [_ Hm]]]; eauto.
Qed.

(** Networks that [isNetworkEquals] identifies have the same endpoint. *)
Lemma isNetworkEquals_rpc (fNet sNet : ThanosDAppNetwork) :
  isNetworkEquals fNet sNet = true ->
  getNetworkRPC NETWORKS fNet = getNetworkRPC NETWORKS sNet.
Proof.
  destruct fNet as [fid|fname frpc], sNet as [sid|sname srpc]; simpl; try discriminate.
  - intros H. apply String.eqb_eq in H. by subst.
  - intros H. apply String.eqb_eq in H. by subst.
Qed.

Lemma isNetworkEquals_ids (a b : string) :
  isNetworkEquals (NetworkId a) (NetworkId b) = true <-> a = b.
Proof. simpl. apply String.eqb_eq. Qed.

Lemma isNetworkEquals_descriptors (n r n' r' : string) :
  isNetworkEquals (NetworkCustom n r) (NetworkCustom n' r') = true <-> r = r'.
Proof. simpl. apply String.eqb_eq. Qed.

Lemma isNetworkEquals_mixed (a n r : string) :
  isNetworkEquals (NetworkId a) (NetworkCustom n r) = false
  /\ isNetworkEquals (NetworkCustom n r) (NetworkId a) = false.
Proof. split; reflexivity. Qed.

End NetworkFacts.

(** ** C4: the fast path of [requestPermission] *)

(** C4.  For a valid permission request (its network [network] is allowed
    and its app name is a string) of an origin that has a session [dApp],
    whose network equals the session's by [isNetworkEquals] (two ids are
    equal as strings, two inline descriptors by their RPC endpoint, an id
    never equals a descriptor), whose app name is the session's and whose
    [force] is unset: [requestPermission] reads the storage and is fulfilled
    with the endpoint of the session's network, the session's [pkh] and its
    [publicKey]; no confirmation is opened. *)
Theorem C4_permission_fast_path
    (NETWORKS : list ThanosNetwork) (st : Storage) (id : string) (winId : option Z)
    (origin : string) (req : ThanosDAppPermissionRequest)
    (network : ThanosDAppNetwork) (appMeta : ThanosDAppMetadata)
    (dApp : ThanosDAppSession) :
  perm_network req = Some network ->
  perm_appMeta req = Some appMeta ->
  isAllowedNetwork NETWORKS (Some network) = true ->
  nameIsString (Some appMeta) = true ->
  getDApp st origin = Some dApp ->
  isNetworkEquals network (dapp_network dApp) = true ->
  sameName appMeta (dapp_appMeta dApp) = true ->
  perm_force req = false ->
  (forall a b, isNetworkEquals (NetworkId a) (NetworkId b) = true <-> a = b)
  /\ (forall n r n' r',
        isNetworkEquals (NetworkCustom n r) (NetworkCustom n' r') = true <-> r = r')
  /\ (forall a n r,
        isNetworkEquals (NetworkId a) (NetworkCustom n r) = false
        /\ isNetworkEquals (NetworkCustom n r) (NetworkId a) = false)
  /\ exists r,
       getNetworkRPC NETWORKS (dapp_network dApp) = Normal r
       /\ requestPermission NETWORKS st id winId origin req =
          {| effects := [EStorageGet];
             settlement :=
               Fulfilled (PermissionResponse r (dapp_pkh dApp) (dapp_publicKey dApp)) |}.
Proof.
  intros Hnet Hmeta Hallowed Hname Hsession Hequal Hsame Hforce.
  split; [exact isNetworkEquals_ids|].
  split; [exact isNetworkEquals_descriptors|].
  split; [exact isNetworkEquals_mixed|].
  destruct (isAllowedNetwork_rpc NETWORKS network Hallowed) as [r Hr].
  exists r. split.
  - rewrite <- (isNetworkEquals_rpc NETWORKS _ _ Hequal). exact Hr.
  - unfold requestPermission, everyBoolean. rewrite Hnet, Hmeta.
    cbn [forallb]. rewrite Hallowed, Hname. cbn [andb negb].
    rewrite Hr, Hsession, Hforce, Hequal, Hsame.
    reflexivity.
Qed.

Lemma C4_permission_fast_path_witness :
  exists r,
    getNetworkRPC Sample.NETWORKS (dapp_network Sample.session) = Normal r
    /\ requestPermission Sample.NETWORKS Sample.store "id-1" (Some 7%Z)
         Sample.origin Sample.permissionRequest =
       {| effects := [EStorageGet];
          settlement :=
            Fulfilled (PermissionResponse r (dapp_pkh Sample.session)
                         (dapp_publicKey Sample.session)) |}.
Proof.
  apply (C4_permission_fast_path Sample.NETWORKS Sample.store "id-1" (Some 7%Z)
           Sample.origin Sample.permissionRequest
           (NetworkId "mainnet") Sample.appMeta Sample.session);
    reflexivity.
Defined.

(** ** C5: session and ownership checks of [requestOperation] and [requestSign] *)

(** C5.  A request that passes the validation of [requestOperation]
    (respectively [requestSign]) is rejected with [NotGranted] when the
    origin has no session, and with [NotFound] when it has a session whose
    [pkh] is not the request's [sourcePkh]; in both cases the only effect is
    the read of the storage: no confirmation is opened and the vault is not
    called.  The origin without a session is one for which the lookup finds
    nothing: not the name of a member of [Object.prototype]. *)
Theorem C5_session_and_owner_checks
    (NETWORKS : list ThanosNetwork) (isAddressValid : option string -> bool)
    (emitMichelineValue : string -> Completion string)
    (localForger_parse : string -> Completion ForgedOperation)
    (st : Storage) (id : string) (winId : option Z) (origin : string)
    (opReq : ThanosDAppOperationRequest) (signReq : ThanosDAppSignRequest) :
  validOperationRequest isAddressValid opReq = Normal true ->
  everyBoolean [isAddressValid (sign_sourcePkh (normalizeSignRequest signReq));
                testHex (sign_payload (normalizeSignRequest signReq))] = true ->
  (getDApp st origin = None -> inheritedKey origin = false ->
     requestOperation NETWORKS isAddressValid st id winId origin opReq =
       {| effects := [EStorageGet]; settlement := Rejected (Error (Code NotGranted)) |}
     /\ requestSign NETWORKS isAddressValid emitMichelineValue localForger_parse
          st id winId origin signReq =
        {| effects := [EStorageGet]; settlement := Rejected (Error (Code NotGranted)) |})
  /\ (forall dApp, getDApp st origin = Some dApp ->
        (op_sourcePkh opReq <> Some (dapp_pkh dApp) ->
           requestOperation NETWORKS isAddressValid st id winId origin opReq =
             {| effects := [EStorageGet]; settlement := Rejected (Error (Code NotFound)) |})
        /\ (sign_sourcePkh signReq <> Some (dapp_pkh dApp) ->
              requestSign NETWORKS isAddressValid emitMichelineValue localForger_parse
                st id winId origin signReq =
              {| effects := [EStorageGet];
                 settlement := Rejected (Error (Code NotFound)) |})).
Proof.
  intros Hop Hsign. split.
  - intros Hnone _. split.
    + unfold requestOperation. rewrite Hop, Hnone. reflexivity.
    + unfold requestSign. rewrite Hsign, Hnone. reflexivity.
  - intros dApp Hsome. split; intros Hpkh.
    + unfold requestOperation. rewrite Hop, Hsome.
      rewrite bool_decide_eq_false_2 by exact Hpkh. reflexivity.
    + unfold requestSign. rewrite Hsign, Hsome.
      rewrite bool_decide_eq_false_2; [reflexivity|].
      unfold normalizeSignRequest.
      destruct (sign_payload signReq) as [p|]; [|exact Hpkh].
      destruct (startsWith "0x" p); exact Hpkh.
Qed.

Lemma C5_session_and_owner_checks_witness :
  (requestOperation Sample.NETWORKS Sample.isAddressValid None "id-1" (Some 7%Z)
     Sample.origin Sample.operationRequest =
     {| effects := [EStorageGet]; settlement := Rejected (Error (Code NotGranted)) |}
   /\ requestSign Sample.NETWORKS Sample.isAddressValid Sample.emitMichelineValue
        Sample.localForger_parse None "id-1" (Some 7%Z) Sample.origin Sample.signRequest =
      {| effects := [EStorageGet]; settlement := Rejected (Error (Code NotGranted)) |})
  /\ requestOperation Sample.NETWORKS Sample.isAddressValid Sample.store "id-1" (Some 7%Z)
       Sample.origin
       {| op_sourcePkh := Some "tz1Bob"; op_opParams := Some [OpObject (Some "transaction")] |} =
     {| effects := [EStorageGet]; settlement := Rejected (Error (Code NotFound)) |}.
Proof.
  split.
  - apply (C5_session_and_owner_checks Sample.NETWORKS Sample.isAddressValid
             Sample.emitMichelineValue Sample.localForger_parse None "id-1" (Some 7%Z)
             Sample.origin Sample.operationRequest Sample.signRequest);
      reflexivity.
  - apply (C5_session_and_owner_checks Sample.NETWORKS Sample.isAddressValid
             Sample.emitMichelineValue Sample.localForger_parse Sample.store "id-1"
             (Some 7%Z) Sample.origin
             {| op_sourcePkh := Some "tz1Bob";
                op_opParams := Some [OpObject (Some "transaction")] |}
             Sample.signRequest ltac:(reflexivity) ltac:(reflexivity)) with Sample.session;
      [reflexivity | discriminate].
Defined.

(** ** C6: validation of [requestOperation] *)

(** Without a [null] or [undefined] element, the element check is a plain
    conjunction. *)
Lemma everyKindIsString_objects (ops : list OpParam) :
  Forall (fun op => op <> OpNullish) ops ->
  everyKindIsString ops =
  Normal (forallb (fun op => match op with
                             | OpObject (Some _) => true
                             | _ => false
                             end) ops).
Proof.
  induction 1 as [|op ops Hop _ IH]; [reflexivity|].
  destruct op as [|[k|]]; [congruence| |reflexivity].
  simpl. exact IH.
Qed.

(** A request whose address is not valid, whose [opParams] is missing or
    empty, or one of whose elements has no string [kind], is rejected with
    [InvalidParams] before any effect, provided no element is [null] or
    [undefined]. *)
Lemma requestOperation_InvalidParams
    (NETWORKS : list ThanosNetwork) (isAddressValid : option string -> bool)
    (st : Storage) (id : string) (winId : option Z) (origin : string)
    (req : ThanosDAppOperationRequest) :
  match op_opParams req with
  | Some ops => Forall (fun op => op <> OpNullish) ops
  | None => True
  end ->
  isAddressValid (op_sourcePkh req) = false
  \/ op_opParams req = None
  \/ op_opParams req = Some []
  \/ (exists ops, op_opParams req = Some ops /\ In (OpObject None) ops) ->
  requestOperation NETWORKS isAddressValid st id winId origin req =
    {| effects := []; settlement := Rejected (Error (Code InvalidParams)) |}.
Proof.
  intros Hobj Hbad.
  assert (validOperationRequest isAddressValid req = Normal false) as Hv.
  { unfold validOperationRequest, everyBoolean.
    destruct (op_opParams req) as [ops|] eqn:Hops.
    - rewrite (everyKindIsString_objects ops Hobj). simpl.
      destruct Hbad as [Ha|[Hn|[He|[ops' [Heq Hin]]]]].
      + rewrite Ha. reflexivity.
      + discriminate.
      + injection He as ->. simpl. by rewrite andb_false_r.
      + injection Heq as <-.
        assert (forallb (fun op => match op with
                                   | OpObject (Some _) => true
                                   | _ => false
                                   end) ops = false) as ->.
        { apply not_true_is_false. intros Hall.
          rewrite forallb_forall in Hall. specialize (Hall _ Hin). discriminate. }
        by rewrite !andb_false_r.
    - simpl. by rewrite andb_false_r. }
  unfold requestOperation. rewrite Hv. reflexivity.
Qed.

(** C6.  [requestOperation] on a request whose [opParams] is [[null]]: the
    element check reads [kind] off [null], and the call is rejected with the
    engine's [TypeError] instead of [InvalidParams] (still before any
    effect), whatever the address is.  On a request whose [opParams] is
    empty it is rejected with [InvalidParams] before any effect. *)
Theorem C6_null_element_TypeError
    (NETWORKS : list ThanosNetwork) (isAddressValid : option string -> bool)
    (st : Storage) (id : string) (winId : option Z) (origin : string)
    (sourcePkh : option string) :
  requestOperation NETWORKS isAddressValid st id winId origin
    {| op_sourcePkh := sourcePkh; op_opParams := Some [OpNullish] |} =
  {| effects := []; settlement := Rejected (TypeError "kind") |}
  /\ requestOperation NETWORKS isAddressValid st id winId origin
       {| op_sourcePkh := sourcePkh; op_opParams := Some [] |} =
     {| effects := []; settlement := Rejected (Error (Code InvalidParams)) |}.
Proof.
  split; [reflexivity|].
  unfold requestOperation, validOperationRequest, everyBoolean. simpl.
  rewrite andb_false_r. reflexivity.
Qed.

(** ** C9: [requestBroadcast] *)

(** C9, as the code has it.  [requestBroadcast] rejects missing or empty
    [signedOpBytes] with [InvalidParams] before any effect, and an origin
    without a session (one for which the lookup finds nothing: not the name
    of a member of [Object.prototype]) with [NotGranted].  Otherwise, when
    the session's network has an endpoint, it injects the bytes at that
    endpoint and opens no confirmation: it is fulfilled with the operation
    hash, a [TezosOperationError] of the injection is rejected with its
    message replaced by the [TezosOperation] code (its other fields kept),
    and every other failure of the injection is rejected as a new error
    [Failed to broadcast].  When the endpoint of the session's network
    cannot be found, nothing is injected and the call is rejected with
    [Failed to broadcast]. *)
Theorem C9_broadcast
    (NETWORKS : list ThanosNetwork)
    (injectOperation : string -> string -> Completion string)
    (st : Storage) (origin : string) (req : ThanosDAppBroadcastRequest) :
  let run := requestBroadcast NETWORKS injectOperation st origin req in
  (bc_signedOpBytes req = None \/ bc_signedOpBytes req = Some EmptyString ->
     run = {| effects := []; settlement := Rejected (Error (Code InvalidParams)) |})
  /\ (forall bytes, bc_signedOpBytes req = Some bytes -> bytes <> EmptyString ->
        (getDApp st origin = None -> inheritedKey origin = false ->
           run = {| effects := [EStorageGet];
                    settlement := Rejected (Error (Code NotGranted)) |})
        /\ (forall dApp r, getDApp st origin = Some dApp ->
              getNetworkRPC NETWORKS (dapp_network dApp) = Normal r ->
              effects run = [EStorageGet; EInjectOperation r bytes]
              /\ (forall opHash, injectOperation r bytes = Normal opHash ->
                    settlement run = Fulfilled (BroadcastResponse opHash))
              /\ (forall message errors,
                    injectOperation r bytes = Throw (TezosOperationError message errors) ->
                    settlement run =
                      Rejected (TezosOperationError (Code TezosOperation) errors))
              /\ (forall err, injectOperation r bytes = Throw err ->
                    instanceofTezosOperationError err = false ->
                    settlement run = Rejected (Error (Text "Failed to broadcast"))))
        /\ (forall dApp e, getDApp st origin = Some dApp ->
              getNetworkRPC NETWORKS (dapp_network dApp) = Throw e ->
              run = {| effects := [EStorageGet];
                       settlement := Rejected (Error (Text "Failed to broadcast")) |})).
Proof.
  intros run. subst run. unfold requestBroadcast, everyBoolean. split.
  - intros [-> | ->]; reflexivity.
  - intros bytes -> Hne.
    assert ((0 <? String.length bytes)%nat = true) as ->.
    { destruct bytes; [congruence|reflexivity]. }
    cbn [forallb andb negb]. split; [|split].
    + intros -> _. reflexivity.
    + intros dApp r -> ->.
      destruct (injectOperation r bytes) as [h|e] eqn:Hinj; cbn [effects settlement].
      * split; [reflexivity|]. split; [intros ? [= <-]; reflexivity|].
        split; intros; discriminate.
      * split; [reflexivity|]. split; [intros; discriminate|].
        split.
        -- intros m errs [= ->]. reflexivity.
        -- intros err [= ->] ->. reflexivity.
    + intros dApp e -> He. rewrite He.
      rewrite (getNetworkRPC_throws NETWORKS _ _ He). reflexivity.
Qed.

Lemma C9_broadcast_witness :
  requestBroadcast Sample.NETWORKS Sample.injectOperation Sample.store Sample.origin
    {| bc_signedOpBytes := Some EmptyString |} =
    {| effects := []; settlement := Rejected (Error (Code InvalidParams)) |}
  /\ requestBroadcast Sample.NETWORKS Sample.injectOperation None Sample.origin
       {| bc_signedOpBytes := Some "ab" |} =
     {| effects := [EStorageGet]; settlement := Rejected (Error (Code NotGranted)) |}
  /\ settlement (requestBroadcast Sample.NETWORKS Sample.injectOperation Sample.store
                   Sample.origin {| bc_signedOpBytes := Some "00" |}) =
     Rejected (TezosOperationError (Code TezosOperation) ["bad"])
  /\ settlement (requestBroadcast Sample.NETWORKS Sample.injectOperation Sample.store
                   Sample.origin {| bc_signedOpBytes := Some "ff" |}) =
     Rejected (Error (Text "Failed to broadcast")).
Proof.
  split; [|split; [|split]].
  - apply (C9_broadcast Sample.NETWORKS Sample.injectOperation Sample.store Sample.origin
             {| bc_signedOpBytes := Some EmptyString |}).
    right. reflexivity.
  - apply (C9_broadcast Sample.NETWORKS Sample.injectOperation None Sample.origin
             {| bc_signedOpBytes := Some "ab" |}) with "ab";
      [reflexivity | discriminate | reflexivity | reflexivity].
  - eapply (C9_broadcast Sample.NETWORKS Sample.injectOperation Sample.store Sample.origin
              {| bc_signedOpBytes := Some "00" |}) with (bytes := "00")
             (dApp := Sample.session) (r := "https://mainnet.rpc")
             (message := Text "proto.alpha");
      [reflexivity | discriminate | reflexivity | reflexivity | reflexivity].
  - eapply (C9_broadcast Sample.NETWORKS Sample.injectOperation Sample.store Sample.origin
              {| bc_signedOpBytes := Some "ff" |}) with (bytes := "ff")
             (dApp := Sample.session) (r := "https://mainnet.rpc")
             (err := Error (Text "network"));
      [reflexivity | discriminate | reflexivity | reflexivity | reflexivity | reflexivity].
Defined.

(** C9, as the claim states it, fails.  The origin has a session and the
    bytes are not empty, yet nothing is injected: the session is for a
    network id that the list of networks does not carry, the lookup of its
    endpoint throws inside the [try] block, and the call is rejected with
    [Failed to broadcast]. *)
Lemma C9_counterexample_stale_network :
  let req := {| bc_signedOpBytes := Some "ab" |} in
  let run :=
    requestBroadcast Sample.NETWORKS Sample.injectOperation Sample.staleStore
      Sample.origin req in
  getDApp Sample.staleStore Sample.origin = Some Sample.staleSession
  /\ inheritedKey Sample.origin = false
  /\ effects run = [EStorageGet]
  /\ ~ (exists r bytes, In (EInjectOperation r bytes) (effects run))
  /\ settlement run = Rejected (Error (Text "Failed to broadcast")).
Proof.
  cbv zeta. split; [reflexivity|]. split; [reflexivity|]. split; [reflexivity|].
  split; [|reflexivity].
  intros [r [bytes [Hin|[]]]]. discriminate Hin.
Qed.

(** ** C10: [getNetworkRPC] on network ids *)

(** C10.  On a network id that some entry of the known-network list
    carries, [getNetworkRPC] returns the [rpcBaseURL] of such an entry.  On
    an id that no entry carries it throws the engine's [TypeError] (a
    property read off [undefined]), and then, for an origin whose session
    was persisted under that id: [getCurrentPermission] is rejected with
    that [TypeError]; [requestOperation] and [requestSign], on a request
    that passes their checks, raise it inside the executor of their promise,
    which opens no confirmation and never settles. *)
Theorem C10_getNetworkRPC_partial
    (NETWORKS : list ThanosNetwork) (isAddressValid : option string -> bool)
    (emitMichelineValue : string -> Completion string)
    (localForger_parse : string -> Completion ForgedOperation)
    (netId : string) :
  ((exists n, In n NETWORKS /\ net_id n = netId) ->
     exists n, In n NETWORKS /\ net_id n = netId
               /\ getNetworkRPC NETWORKS (NetworkId netId) = Normal (net_rpcBaseURL n))
  /\ ((forall n, In n NETWORKS -> net_id n <> netId) ->
        getNetworkRPC NETWORKS (NetworkId netId) = Throw (TypeError "rpcBaseURL")
        /\ forall st origin dApp,
             getDApp st origin = Some dApp ->
             dapp_network dApp = NetworkId netId ->
             getCurrentPermission NETWORKS st origin =
               {| effects := [EStorageGet];
                  settlement := Rejected (TypeError "rpcBaseURL") |}
             /\ (forall id winId req,
                   validOperationRequest isAddressValid req = Normal true ->
                   op_sourcePkh req = Some (dapp_pkh dApp) ->
                   requestOperation NETWORKS isAddressValid st id winId origin req =
                     {| effects := [EStorageGet];
                        settlement := NeverSettled (TypeError "rpcBaseURL") |})
             /\ (forall id winId req,
                   everyBoolean
                     [isAddressValid (sign_sourcePkh (normalizeSignRequest req));
                      testHex (sign_payload (normalizeSignRequest req))] = true ->
                   sign_sourcePkh (normalizeSignRequest req) = Some (dapp_pkh dApp) ->
                   requestSign NETWORKS isAddressValid emitMichelineValue
                     localForger_parse st id winId origin req =
                     {| effects := [EStorageGet];
                        settlement := NeverSettled (TypeError "rpcBaseURL") |})).
Proof.
  split; [apply getNetworkRPC_listed|].
  intros Hnone. pose proof (getNetworkRPC_unlisted NETWORKS netId Hnone) as Hthrow.
  split; [exact Hthrow|].
  intros st origin dApp Hsome Hnet. split; [|split].
  - unfold getCurrentPermission. rewrite Hsome, Hnet, Hthrow. reflexivity.
  - intros id winId req Hvalid Hpkh.
    unfold requestOperation. rewrite Hvalid, Hsome, Hpkh.
    rewrite bool_decide_eq_true_2 by reflexivity.
    cbn [negb]. rewrite Hnet, Hthrow. reflexivity.
  - intros id winId req Hvalid Hpkh.
    unfold requestSign. rewrite Hvalid, Hsome, Hpkh.
    rewrite bool_decide_eq_true_2 by reflexivity.
    cbn [negb]. rewrite Hnet, Hthrow. reflexivity.
Qed.

Lemma C10_getNetworkRPC_partial_witness :
  getNetworkRPC Sample.NETWORKS (NetworkId "carthagenet") = Throw (TypeError "rpcBaseURL")
  /\ getCurrentPermission Sample.NETWORKS Sample.staleStore Sample.origin =
     {| effects := [EStorageGet]; settlement := Rejected (TypeError "rpcBaseURL") |}
  /\ requestOperation Sample.NETWORKS Sample.isAddressValid Sample.staleStore "id-1"
       (Some 7%Z) Sample.origin Sample.operationRequest =
     {| effects := [EStorageGet]; settlement := NeverSettled (TypeError "rpcBaseURL") |}
  /\ exists n, In n Sample.NETWORKS /\ net_id n = "mainnet"
       /\ getNetworkRPC Sample.NETWORKS (NetworkId "mainnet") = Normal (net_rpcBaseURL n).
Proof.
  assert (forall n, In n Sample.NETWORKS -> net_id n <> "carthagenet") as Hnone.
  { intros n [<-|[<-|[]]]; discriminate. }
  pose proof (C10_getNetworkRPC_partial Sample.NETWORKS Sample.isAddressValid
                Sample.emitMichelineValue Sample.localForger_parse "carthagenet")
    as [_ Hstale].
  destruct (Hstale Hnone) as [Hthrow Huse].
  destruct (Huse Sample.staleStore Sample.origin Sample.staleSession
              ltac:(reflexivity) ltac:(reflexivity)) as [Hcur [Hop _]].
  split; [exact Hthrow|]. split; [exact Hcur|]. split.
  - apply Hop; reflexivity.
  - apply (C10_getNetworkRPC_partial Sample.NETWORKS Sample.isAddressValid
             Sample.emitMichelineValue Sample.localForger_parse "mainnet").
    eexists. split; [left; reflexivity | reflexivity].
Defined.

(** ** C8: the preview of [requestSign] *)

(** C8.  For a sign request that passes the checks of [requestSign] (valid
    address, hexadecimal payload [raw] once a leading [0x] is dropped, a
    session of the origin for that address on a listed network), whatever
    the decoder and the forger do, the confirmation is opened with a [sign]
    payload that carries [raw] and a preview built in this order: if [raw]
    matches the signed-message pattern, the text of the value decoded from
    [raw] without its first byte, without its first and last character, and
    [null] if the decoding throws; otherwise the operation the forger
    parsed from [raw] if it has at least one content, nothing if it has
    none, and [null] if the parsing throws. *)
Theorem C8_sign_preview
    (NETWORKS : list ThanosNetwork) (isAddressValid : option string -> bool)
    (emitMichelineValue : string -> Completion string)
    (localForger_parse : string -> Completion ForgedOperation)
    (st : Storage) (id : string) (winId : option Z) (origin : string)
    (req : ThanosDAppSignRequest) (dApp : ThanosDAppSession) (r raw : string) :
  sign_payload (normalizeSignRequest req) = Some raw ->
  isAddressValid (sign_sourcePkh (normalizeSignRequest req)) = true ->
  HEX_PATTERN raw = true ->
  getDApp st origin = Some dApp ->
  sign_sourcePkh (normalizeSignRequest req) = Some (dapp_pkh dApp) ->
  getNetworkRPC NETWORKS (dapp_network dApp) = Normal r ->
  exists preview,
    let payload :=
      PayloadSign origin r (dapp_appMeta dApp) (dapp_pkh dApp) raw preview in
    requestSign NETWORKS isAddressValid emitMichelineValue localForger_parse
      st id winId origin req =
      {| effects := [EStorageGet; EOpenConfirm id payload];
         settlement :=
           Confirming (fst (requestConfirm id payload (SignHandler dApp raw) winId st))
                      (snd (requestConfirm id payload (SignHandler dApp raw) winId st)) |}
    /\ (TEZ_MSG_SIGN_PATTERN raw = true ->
          (forall text, emitMichelineValue (slice_from 2 raw) = Normal text ->
             preview = PreviewText (slice_1_m1 text))
          /\ (forall e, emitMichelineValue (slice_from 2 raw) = Throw e ->
                preview = PreviewNull))
    /\ (TEZ_MSG_SIGN_PATTERN raw = false ->
          (forall parsed, localForger_parse raw = Normal parsed ->
             forged_contents parsed <> [] -> preview = PreviewOperation parsed)
          /\ (forall parsed, localForger_parse raw = Normal parsed ->
                forged_contents parsed = [] -> preview = PreviewUndefined)
          /\ (forall e, localForger_parse raw = Throw e -> preview = PreviewNull)).
Proof.
  intros Hraw Haddr Hhex Hsome Hpkh Hrpc.
  exists (buildPreview emitMichelineValue localForger_parse raw).
  split; [|split].
  - unfold requestSign, everyBoolean, testHex. cbn [forallb].
    rewrite Hraw, Haddr, Hhex, Hsome, Hpkh, Hrpc.
    rewrite bool_decide_eq_true_2 by reflexivity. reflexivity.
  - intros Hmatch. unfold buildPreview. rewrite Hmatch.
    split; [intros text -> | intros e ->]; reflexivity.
  - intros Hmatch. unfold buildPreview. rewrite Hmatch.
    split; [|split].
    + intros parsed -> Hne.
      destruct (forged_contents parsed); [congruence|reflexivity].
    + intros parsed -> ->. reflexivity.
    + intros e ->. reflexivity.
Qed.

Lemma C8_sign_preview_witness :
  exists preview,
    effects (requestSign Sample.NETWORKS Sample.isAddressValid Sample.emitMichelineValue
               Sample.localForger_parse Sample.store "id-1" (Some 7%Z) Sample.origin
               Sample.signRequest) =
      [EStorageGet;
       EOpenConfirm "id-1"
         (PayloadSign Sample.origin "https://mainnet.rpc" Sample.appMeta "tz1Alice"
            Sample.signedMessage preview)]
    /\ preview = PreviewText "Tezos Signed Message: ".
Proof.
  destruct (C8_sign_preview Sample.NETWORKS Sample.isAddressValid
              Sample.emitMichelineValue Sample.localForger_parse Sample.store "id-1"
              (Some 7%Z) Sample.origin Sample.signRequest Sample.session
              "https://mainnet.rpc" Sample.signedMessage
              ltac:(reflexivity) ltac:(reflexivity) ltac:(reflexivity)
              ltac:(reflexivity) ltac:(reflexivity) ltac:(reflexivity))
    as [preview [Hrun [Hmatch _]]].
  exists preview. split.
  - rewrite Hrun. reflexivity.
  - destruct (Hmatch ltac:(reflexivity)) as [Htext _].
    apply (Htext (String.append Sample.quote
                    (String.append "Tezos Signed Message: " Sample.quote))).
    reflexivity.
Defined.

(** ** The orchestrator: what each callback leaves untouched *)

Lemma close_closed (P : ConfirmParams) (c : Confirm) :
  closing c = true -> close P c = c.
Proof. intros H. unfold close. rewrite H. reflexivity. Qed.

(** The first run of [close], field by field. *)
Lemma close_open (P : ConfirmParams) (c : Confirm) :
  closing c = false ->
  close P c =
  {| closing := true; knownPort := knownPort c; timerPending := false;
     requestListening := false; winRemovedListening := false;
     windowOpen := match removesWindow P c with
                   | Some _ => false
                   | None => windowOpen c
                   end;
     suspended := suspended c; promise := promise c; storage := storage c;
     log := log c ++ [EClearTimeout; EStopRequestListening; EStopWinRemovedListening;
                      ECloseWindow]
                  ++ match removesWindow P c with
                     | Some w => [EWindowsRemove w]
                     | None => []
                     end |}.
Proof.
  destruct c as [cl kp tp rl wl wo su pr st lg]. simpl. intros ->.
  unfold removesWindow. run_callbacks.
  destruct (c_confirmWinId P) as [w|]; [destruct (negb (w =? 0)%Z && wo)|];
    rewrite <- ?app_assoc; reflexivity.
Qed.

Ltac close_cases P c :=
  let H := fresh "Hclosing" in
  destruct (closing c) eqn:H;
  [rewrite (close_closed P c H) | rewrite (close_open P c H)].

Lemma knownPort_close (P : ConfirmParams) (c : Confirm) :
  knownPort (close P c) = knownPort c.
Proof. close_cases P c; reflexivity. Qed.

Lemma knownPort_handle_start (P : ConfirmParams) (c : Confirm) (req : ThanosRequest) :
  knownPort (fst (handle_start P c req)) = knownPort c.
Proof. unfold handle_start. case_all; reflexivity. Qed.

Lemma knownPort_handle_resume (P : ConfirmParams) (c : Confirm) (req : ThanosRequest)
    (result : Completion string) (ledger : bool) :
  knownPort (fst (handle_resume P c req result ledger)) = knownPort c.
Proof. unfold handle_resume. case_all; reflexivity. Qed.

Lemma knownPort_after_handler (P : ConfirmParams) (c : Confirm)
    (res : Completion (option ThanosResponse)) :
  knownPort (fst (after_handler P c res)) = knownPort c.
Proof.
  unfold after_handler. destruct res as [[r|]|e]; simpl; auto using knownPort_close.
Qed.

(** Only a fetch-payload message with the id of the confirmation changes the
    bound channel, and it binds the channel it arrives on. *)
Lemma knownPort_step (P : ConfirmParams) (c : Confirm) (ev : Event) :
  knownPort (fst (step P c ev)) =
  match ev with
  | Message port req =>
      if requestListening c && isGetPayloadFor (c_id P) req then Some port
      else knownPort c
  | _ => knownPort c
  end.
Proof.
  destruct ev as [port req|i result ledger| |winId]; simpl.
  - destruct (requestListening c); [|reflexivity]. unfold onRequest. simpl.
    destruct (isGetPayloadFor (c_id P) req); [reflexivity|].
    destruct (bool_decide (knownPort c = Some port)); [|reflexivity]. simpl.
    pose proof (knownPort_handle_start P c req) as Hstart.
    destruct (handle_start P c req) as [c' [result|]]; cbn [fst snd] in *.
    + destruct result; cbn [fst]; rewrite ?knownPort_close; exact Hstart.
    + exact Hstart.
  - destruct (suspended c !! i) as [req|]; [|reflexivity].
    pose proof (knownPort_handle_resume P (set_suspended (delete i (suspended c)) c)
                  req result ledger) as Hres.
    destruct (handle_resume P _ req result ledger) as [c' res]; cbn [fst snd] in *.
    rewrite knownPort_after_handler. exact Hres.
  - destruct (timerPending c); [|reflexivity]. simpl.
    unfold declineAndClose. rewrite knownPort_close. reflexivity.
  - destruct (bool_decide (c_confirmWinId P = Some winId)) eqn:Hw;
      destruct (winRemovedListening c) eqn:Hl; simpl;
      unfold handleWinRemoved, declineAndClose; rewrite ?Hl, ?Hw; simpl;
      rewrite ?Hl, ?knownPort_close; reflexivity.
Qed.

(** A channel that sent no fetch-payload message for the id is not the
    bound channel. *)
Lemma knownPort_run (P : ConfirmParams) (evs : list Event) (c : Confirm) (port : Port) :
  knownPort c <> Some port ->
  existsb (isHandshakeOn (c_id P) port) evs = false ->
  knownPort (run P c evs) <> Some port.
Proof.
  revert c. induction evs as [|ev evs IH]; intros c Hc Hnone; [exact Hc|].
  simpl in Hnone. apply orb_false_iff in Hnone as [Hev Hevs].
  simpl. apply IH; [|exact Hevs].
  rewrite knownPort_step.
  destruct ev as [p req| | |]; try exact Hc.
  destruct (requestListening c && isGetPayloadFor (c_id P) req) eqn:Hbind; [|exact Hc].
  apply andb_true_iff in Hbind as [_ Hget]. simpl in Hev. rewrite Hget in Hev.
  rewrite andb_true_r in Hev. apply Nat.eqb_neq in Hev. congruence.
Qed.

(** A message that is not the fetch-payload message of the confirmation and
    arrives on a channel other than the bound one changes nothing and is
    given no response. *)
Lemma step_other_channel (P : ConfirmParams) (c : Confirm) (port : Port)
    (req : ThanosRequest) :
  knownPort c <> Some port ->
  isGetPayloadFor (c_id P) req = false ->
  step P c (Message port req) = (c, Ignored).
Proof.
  intros Hport Hreq. simpl. destruct (requestListening c); [|reflexivity].
  unfold onRequest. rewrite Hreq.
  rewrite bool_decide_eq_false_2 by exact Hport. reflexivity.
Qed.

(** ** C1: the channel bound to a confirmation *)

(** C1, as the code has it.  In a confirmation opened by [requestConfirm]
    (no channel bound yet), after any sequence of callbacks: a fetch-payload
    message with the id of the confirmation, on whatever channel it arrives
    while the listener is attached, is answered with the payload and binds
    that channel, replacing the channel bound before; every other message
    that arrives on a channel which is not the bound one, or which never
    sent a fetch-payload message with that id, changes nothing and gets no
    response.  In particular a decision message with the right id from a
    channel that never performed the handshake does not resolve the
    confirmation. *)
Theorem C1_only_bound_channel_decides
    (P : ConfirmParams) (c0 : Confirm) (evs : list Event) (port : Port)
    (req : ThanosRequest) :
  knownPort c0 = None ->
  isGetPayloadFor (c_id P) req = false ->
  knownPort (run P c0 evs) <> Some port
  \/ existsb (isHandshakeOn (c_id P) port) evs = false ->
  step P (run P c0 evs) (Message port req) = (run P c0 evs, Ignored)
  /\ (requestListening (run P c0 evs) = true ->
        step P (run P c0 evs) (Message port (DAppGetPayloadRequest (c_id P))) =
          (set_knownPort port (run P c0 evs),
           Respond (DAppGetPayloadResponse (c_payload P)))).
Proof.
  intros Hnone Hreq Hother. split.
  - apply step_other_channel; [|exact Hreq].
    destruct Hother as [Hother|Hnever]; [exact Hother|].
    apply knownPort_run; [congruence|exact Hnever].
  - intros Hlisten. simpl. rewrite Hlisten. unfold onRequest. simpl.
    rewrite String.eqb_refl. reflexivity.
Qed.

Lemma C1_only_bound_channel_decides_witness :
  let c := run Sample.opsParams Sample.opsConfirm
             [Message 1 (DAppGetPayloadRequest "id-1")] in
  step Sample.opsParams c (Message 2 (DAppOpsConfirmationRequest "id-1" true)) =
    (c, Ignored).
Proof.
  apply (C1_only_bound_channel_decides Sample.opsParams Sample.opsConfirm
           [Message 1 (DAppGetPayloadRequest "id-1")] 2
           (DAppOpsConfirmationRequest "id-1" true));
    [reflexivity | reflexivity | right; reflexivity].
Defined.

(** C1, as the claim states it, fails: once channel 1 performed the
    handshake, the fetch-payload message of channel 2 with the same id is not
    ignored: it is answered with the payload and binds channel 2, whose
    decision then resolves the confirmation. *)
Lemma C1_counterexample_second_handshake :
  let P := Sample.opsParams in
  let c1 := run P Sample.opsConfirm [Message 1 (DAppGetPayloadRequest "id-1")] in
  let c2 := fst (step P c1 (Message 2 (DAppGetPayloadRequest "id-1"))) in
  let c3 := fst (step P c2 (Message 2 (DAppOpsConfirmationRequest "id-1" false))) in
  knownPort c1 = Some 1
  /\ step P c1 (Message 2 (DAppGetPayloadRequest "id-1")) <> (c1, Ignored)
  /\ snd (step P c1 (Message 2 (DAppGetPayloadRequest "id-1"))) =
     Respond (DAppGetPayloadResponse Sample.opsPayload)
  /\ knownPort c2 = Some 2
  /\ promise c2 = Pending
  /\ promise c3 = RejectedWith (Error (Code NotGranted))
  /\ closing c3 = true.
Proof.
  cbv zeta. repeat split; try reflexivity.
  intros H. apply (f_equal snd) in H. discriminate H.
Qed.

(** ** The orchestrator: the guard of [close] *)

Lemma teardown_app (l l' : list Effect) :
  teardown (l ++ l') = teardown l ++ teardown l'.
Proof. apply List.filter_app. Qed.

Lemma occurrences_teardown (e : Effect) (l : list Effect) :
  isTeardown e = true -> occurrences e (teardown l) = occurrences e l.
Proof.
  intros He. unfold occurrences, teardown.
  induction l as [|a l IH]; [reflexivity|]. simpl.
  destruct (isTeardown a) eqn:Ha; simpl; destruct (Effect_eq_dec a e) as [->|Hne];
    auto; congruence.
Qed.

Lemma guard_emit (l : list Effect) (c : Confirm) :
  teardown l = [] -> guard (emit l c) = guard c.
Proof.
  intros Hl. unfold guard. simpl. rewrite teardown_app, Hl, app_nil_r. reflexivity.
Qed.

Lemma guard_onDecline (c : Confirm) : guard (onDecline c) = guard c.
Proof. unfold onDecline, do_reject. rewrite guard_emit; reflexivity. Qed.

Lemma guard_do_resolve (r : ThanosDAppResponse) (c : Confirm) :
  guard (do_resolve r c) = guard c.
Proof. unfold do_resolve. rewrite guard_emit; reflexivity. Qed.

Lemma guard_do_reject (e : JsError) (c : Confirm) : guard (do_reject e c) = guard c.
Proof. unfold do_reject. rewrite guard_emit; reflexivity. Qed.

Lemma guard_handle_start (P : ConfirmParams) (c : Confirm) (req : ThanosRequest) :
  guard (fst (handle_start P c req)) = guard c.
Proof.
  unfold handle_start. case_all; cbn [fst];
    rewrite ?guard_onDecline, ?guard_emit; reflexivity.
Qed.

Lemma guard_handle_resume (P : ConfirmParams) (c : Confirm) (req : ThanosRequest)
    (result : Completion string) (ledger : bool) :
  guard (fst (handle_resume P c req result ledger)) = guard c.
Proof.
  unfold handle_resume. case_all; cbn [fst];
    rewrite ?guard_do_resolve, ?guard_do_reject, ?guard_emit; reflexivity.
Qed.

Lemma guarded_guard (c c' : Confirm) : guard c' = guard c -> guarded c -> guarded c'.
Proof. unfold guarded. intros ->. auto. Qed.

Lemma closing_close (P : ConfirmParams) (c : Confirm) : closing (close P c) = true.
Proof. close_cases P c; [assumption|reflexivity]. Qed.

(** The first run of [close] after which the guard holds. *)
Lemma guarded_close_open (P : ConfirmParams) (c : Confirm) :
  closing c = false -> teardown (log c) = [] -> guarded (close P c).
Proof.
  intros Hopen Htd. rewrite (close_open P c Hopen). unfold guarded, guard. simpl.
  rewrite !teardown_app, Htd. simpl.
  repeat (split; [reflexivity|]).
  destruct (removesWindow P c) as [w|]; simpl; eauto.
Qed.

Lemma guarded_close (P : ConfirmParams) (c : Confirm) :
  guarded c -> guarded (close P c).
Proof.
  intros Hc. destruct (closing c) eqn:Hclosing.
  - rewrite close_closed by exact Hclosing. exact Hc.
  - apply guarded_close_open; [exact Hclosing|].
    unfold guarded, guard in Hc. rewrite Hclosing in Hc. tauto.
Qed.

Lemma guarded_after_handler (P : ConfirmParams) (c : Confirm)
    (res : Completion (option ThanosResponse)) :
  guarded c -> guarded (fst (after_handler P c res)).
Proof.
  unfold after_handler. destruct res as [[r|]|e]; simpl; auto using guarded_close.
Qed.

Lemma guarded_step (P : ConfirmParams) (c : Confirm) (ev : Event) :
  guarded c -> guarded (fst (step P c ev)).
Proof.
  intros Hc. destruct ev as [port req|i result ledger| |winId]; simpl.
  - destruct (requestListening c); [|exact Hc]. unfold onRequest.
    destruct (isGetPayloadFor (c_id P) req); [exact Hc|].
    destruct (bool_decide (knownPort c = Some port)); [|exact Hc]. simpl.
    pose proof (guard_handle_start P c req) as Hstart.
    destruct (handle_start P c req) as [c' [result|]]; cbn [fst snd] in *.
    + apply (guarded_after_handler P c' (Normal result)).
      exact (guarded_guard _ _ Hstart Hc).
    + exact (guarded_guard c _ Hstart Hc).
  - destruct (suspended c !! i) as [req|]; [|exact Hc].
    pose proof (guard_handle_resume P (set_suspended (delete i (suspended c)) c)
                  req result ledger) as Hres.
    destruct (handle_resume P _ req result ledger) as [c' res]; cbn [fst snd] in *.
    apply guarded_after_handler. exact (guarded_guard c _ Hres Hc).
  - destruct (timerPending c) eqn:Ht; [|exact Hc]. simpl.
    unfold declineAndClose.
    assert (closing c = false) as Hopen.
    { unfold guarded, guard in Hc. destruct (closing c); [|reflexivity].
      destruct Hc as [Hc _]. congruence. }
    apply guarded_close_open; [exact Hopen|].
    unfold guarded, guard in Hc. rewrite Hopen in Hc.
    destruct Hc as [_ [_ [_ Htd]]].
    change (teardown (log c ++ [EReject (Error (Code NotGranted))]) = []).
    rewrite teardown_app, Htd. reflexivity.
  - set (c' := if bool_decide (c_confirmWinId P = Some winId)
               then set_windowOpen false c else c).
    assert (guarded c') as Hc'.
    { subst c'. destruct (bool_decide (c_confirmWinId P = Some winId)); exact Hc. }
    destruct (winRemovedListening c'); [|exact Hc']. simpl.
    unfold handleWinRemoved.
    destruct (bool_decide (c_confirmWinId P = Some winId)) eqn:Hw; [|exact Hc'].
    unfold declineAndClose. apply guarded_close.
    exact (guarded_guard _ _ (guard_onDecline c') Hc').
Qed.

Lemma guarded_run (P : ConfirmParams) (evs : list Event) (c : Confirm) :
  guarded c -> guarded (run P c evs).
Proof.
  revert c. induction evs as [|ev evs IH]; intros c Hc; [exact Hc|].
  simpl. apply IH. apply guarded_step. exact Hc.
Qed.

Lemma guarded_requestConfirm (id : string) (payload : ThanosDAppPayload)
    (handler : Handler) (winId : option Z) (st : Storage) :
  guarded (snd (requestConfirm id payload handler winId st)).
Proof. unfold guarded. simpl. auto. Qed.

(** A guarded confirmation is either not torn down, or torn down once. *)
Lemma guarded_tornDownOnce (c : Confirm) :
  guarded c -> closing c = true -> tornDownOnce c.
Proof.
  unfold guarded, guard. intros Hc Hclosing. rewrite Hclosing in Hc.
  destruct Hc as [_ [_ [_ [tail [Htd Htail]]]]].
  unfold tornDownOnce. split; [exact Hclosing|].
  rewrite <- !(occurrences_teardown _ (log c)) by reflexivity.
  repeat split.
  1-4: rewrite Htd; destruct Htail as [->|[w ->]]; reflexivity.
  intros w. rewrite <- (occurrences_teardown _ (log c)) by reflexivity.
  rewrite Htd. destruct Htail as [->|[w' ->]]; unfold occurrences; simpl.
  - lia.
  - destruct (decide_rel eq w' w); simpl; lia.
Qed.

Lemma guarded_notTornDown (c : Confirm) :
  guarded c -> closing c = false -> notTornDown c.
Proof.
  unfold guarded, guard, notTornDown. intros Hc Hclosing. rewrite Hclosing in Hc.
  destruct Hc as [_ [_ [_ Htd]]]. auto.
Qed.

(** ** The orchestrator: suspended runs and the triggers of [close] *)

Lemma handle_start_await (P : ConfirmParams) (c : Confirm) (req : ThanosRequest) :
  snd (handle_start P c req) = HAwait -> isApproval P req = true.
Proof.
  unfold handle_start, isApproval, isDecision.
  destruct (c_handler P), req; simpl; try discriminate;
    destruct (String.eqb id (c_id P)); simpl; try discriminate;
    repeat match goal with
      | |- context [if ?b then _ else _] => destruct b eqn:?
      end; simpl in *; congruence.
Qed.

Lemma handle_start_decline (P : ConfirmParams) (c : Confirm) (req : ThanosRequest) :
  isDecision P req = true -> isApproval P req = false ->
  exists r, handle_start P c req = (onDecline c, HReturn (Some r)).
Proof.
  unfold handle_start, isApproval, isDecision.
  destruct (c_handler P), req; simpl; try discriminate;
    intros -> Hno; simpl in Hno; rewrite ?Hno; eauto.
Qed.

Lemma handle_resume_approved (P : ConfirmParams) (c : Confirm) (req : ThanosRequest)
    (v : string) (ledger : bool) :
  isApproval P req = true ->
  exists r, snd (handle_resume P c req (Normal v) ledger) = Normal (Some r).
Proof.
  unfold handle_resume, isApproval, isDecision.
  destruct (c_handler P), req; simpl; try discriminate; eauto.
Qed.

Lemma suspended_handle_start (P : ConfirmParams) (c : Confirm) (req : ThanosRequest) :
  suspended (fst (handle_start P c req)) = suspended c.
Proof. unfold handle_start. case_all; reflexivity. Qed.

Lemma suspended_handle_resume (P : ConfirmParams) (c : Confirm) (req : ThanosRequest)
    (result : Completion string) (ledger : bool) :
  suspended (fst (handle_resume P c req result ledger)) = suspended c.
Proof. unfold handle_resume. case_all; reflexivity. Qed.

Lemma suspended_close (P : ConfirmParams) (c : Confirm) :
  suspended (close P c) = suspended c.
Proof. close_cases P c; reflexivity. Qed.

Lemma suspended_after_handler (P : ConfirmParams) (c : Confirm)
    (res : Completion (option ThanosResponse)) :
  suspended (fst (after_handler P c res)) = suspended c.
Proof.
  unfold after_handler. destruct res as [[r|]|e]; simpl; auto using suspended_close.
Qed.

Lemma approvalsOnly_step (P : ConfirmParams) (c : Confirm) (ev : Event) :
  approvalsOnly P c -> approvalsOnly P (fst (step P c ev)).
Proof.
  unfold approvalsOnly. intros Hc.
  destruct ev as [port req|i result ledger| |winId]; simpl.
  - destruct (requestListening c); [|exact Hc]. unfold onRequest.
    destruct (isGetPayloadFor (c_id P) req); [exact Hc|].
    destruct (bool_decide (knownPort c = Some port)); [|exact Hc]. simpl.
    pose proof (suspended_handle_start P c req) as Hsusp.
    pose proof (handle_start_await P c req) as Hawait.
    destruct (handle_start P c req) as [c' [result|]]; cbn [fst snd] in *.
    + destruct result; cbn [fst]; rewrite ?suspended_close, Hsusp; exact Hc.
    + rewrite Hsusp. apply Forall_app. split; [exact Hc|].
      constructor; [auto|constructor].
  - destruct (suspended c !! i) as [req|]; [|exact Hc].
    pose proof (suspended_handle_resume P (set_suspended (delete i (suspended c)) c)
                  req result ledger) as Hres.
    destruct (handle_resume P _ req result ledger) as [c' res]; cbn [fst snd] in *.
    rewrite suspended_after_handler, Hres. apply Forall_delete. exact Hc.
  - destruct (timerPending c); [|exact Hc]. simpl.
    unfold declineAndClose. rewrite suspended_close. exact Hc.
  - destruct (bool_decide (c_confirmWinId P = Some winId)) eqn:Hw;
      destruct (winRemovedListening c) eqn:Hl; simpl;
      unfold handleWinRemoved, declineAndClose; rewrite ?Hl, ?Hw; simpl;
      rewrite ?Hl, ?suspended_close; exact Hc.
Qed.

Lemma approvalsOnly_run (P : ConfirmParams) (evs : list Event) (c : Confirm) :
  approvalsOnly P c -> approvalsOnly P (run P c evs).
Proof.
  revert c. induction evs as [|ev evs IH]; intros c Hc; [exact Hc|].
  simpl. apply IH. apply approvalsOnly_step. exact Hc.
Qed.

Lemma guarded_closed_of_detached (c : Confirm) :
  guarded c ->
  timerPending c = false \/ requestListening c = false \/ winRemovedListening c = false ->
  closing c = true.
Proof.
  unfold guarded, guard. destruct (closing c); [reflexivity|].
  intros [Ht [Hr [Hw _]]] [H|[H|H]]; congruence.
Qed.

Lemma closing_after_response (P : ConfirmParams) (c : Confirm) (r : ThanosResponse) :
  closing (fst (after_handler P c (Normal (Some r)))) = true.
Proof. simpl. apply closing_close. Qed.

(** The timer. *)
Lemma closing_step_timer (P : ConfirmParams) (c : Confirm) :
  guarded c -> closing (fst (step P c TimerFired)) = true.
Proof.
  intros Hc. simpl. destruct (timerPending c) eqn:Ht.
  - unfold declineAndClose. apply closing_close.
  - apply guarded_closed_of_detached; auto.
Qed.

(** The removal of the approval window. *)
Lemma closing_step_window (P : ConfirmParams) (c : Confirm) (w : Z) :
  guarded c -> c_confirmWinId P = Some w ->
  closing (fst (step P c (WindowRemoved w))) = true.
Proof.
  intros Hc Hw. simpl. rewrite bool_decide_eq_true_2 by exact Hw.
  change (winRemovedListening (set_windowOpen false c)) with (winRemovedListening c).
  destruct (winRemovedListening c) eqn:Hl; simpl.
  - unfold handleWinRemoved. rewrite bool_decide_eq_true_2 by exact Hw.
    unfold declineAndClose. apply closing_close.
  - apply guarded_closed_of_detached; auto.
Qed.

(** A decision of the bound channel that declines. *)
Lemma closing_step_decline (P : ConfirmParams) (c : Confirm) (port : Port)
    (req : ThanosRequest) :
  guarded c -> knownPort c = Some port ->
  isDecision P req = true -> isApproval P req = false ->
  closing (fst (step P c (Message port req))) = true.
Proof.
  intros Hc Hport Hdec Hno. simpl. destruct (requestListening c) eqn:Hl.
  - unfold onRequest.
    assert (isGetPayloadFor (c_id P) req = false) as ->.
    { unfold isDecision in Hdec. destruct (c_handler P), req; try discriminate;
        reflexivity. }
    rewrite bool_decide_eq_true_2 by exact Hport. simpl.
    destruct (handle_start_decline P c req Hdec Hno) as [r ->].
    apply closing_after_response.
  - apply guarded_closed_of_detached; auto.
Qed.

(** The completion of an approved action. *)
Lemma closing_step_completed (P : ConfirmParams) (c : Confirm) (i : nat) (v : string)
    (ledger : bool) :
  approvalsOnly P c -> i < length (suspended c) ->
  closing (fst (step P c (Completed i (Normal v) ledger))) = true.
Proof.
  intros Happ Hi. simpl.
  destruct (lookup_lt_is_Some_2 (suspended c) i Hi) as [req Hreq]. rewrite Hreq.
  assert (isApproval P req = true) as Hreq'.
  { unfold approvalsOnly in Happ. rewrite Forall_forall in Happ.
    apply Happ. eapply list_elem_of_lookup_2. exact Hreq. }
  destruct (handle_resume_approved P (set_suspended (delete i (suspended c)) c)
              req v ledger Hreq') as [r Hr].
  destruct (handle_resume P _ req (Normal v) ledger) as [c' res]; cbn [fst snd] in *.
  subst res. apply closing_close.
Qed.

Lemma iter_close (P : ConfirmParams) (c : Confirm) (n : nat) :
  Nat.iter (S n) (close P) c = close P c.
Proof.
  induction n as [|n IH]; [reflexivity|].
  change (Nat.iter (S (S n)) (close P) c) with (close P (Nat.iter (S n) (close P) c)).
  rewrite IH. apply close_closed, closing_close.
Qed.

(** ** C2: teardown happens exactly once *)

(** C2.  In a confirmation opened by [requestConfirm], after any sequence
    of callbacks in any order: either [close] did not run yet and no
    teardown effect happened, or the timer was cleared once, the message
    listener detached once, the window-removal listener detached once and
    the window closed once (its removal requested at most once).  Each
    trigger leaves the confirmation torn down once: the timer, the removal
    of the approval window, a declining decision of the bound channel, the
    completion of an approved action; and so do any number of calls of
    [close]. *)
Theorem C2_teardown_exactly_once
    (id : string) (payload : ThanosDAppPayload) (handler : Handler)
    (winId : option Z) (st : Storage) (evs : list Event) :
  let P := fst (requestConfirm id payload handler winId st) in
  let c := run P (snd (requestConfirm id payload handler winId st)) evs in
  (notTornDown c \/ tornDownOnce c)
  /\ tornDownOnce (fst (step P c TimerFired))
  /\ (forall w, winId = Some w -> tornDownOnce (fst (step P c (WindowRemoved w))))
  /\ (forall port req,
        knownPort c = Some port -> isDecision P req = true -> isApproval P req = false ->
        tornDownOnce (fst (step P c (Message port req))))
  /\ (forall i v ledger,
        i < length (suspended c) ->
        tornDownOnce (fst (step P c (Completed i (Normal v) ledger))))
  /\ (forall n, tornDownOnce (Nat.iter (S n) (close P) c)).
Proof.
  intros P c.
  assert (guarded c) as Hc.
  { apply guarded_run, guarded_requestConfirm. }
  assert (approvalsOnly P c) as Happ.
  { apply approvalsOnly_run. constructor. }
  split; [|split; [|split; [|split; [|split]]]].
  - destruct (closing c) eqn:Hclosing.
    + right. apply guarded_tornDownOnce; assumption.
    + left. apply guarded_notTornDown; assumption.
  - apply guarded_tornDownOnce; [apply guarded_step; exact Hc|].
    apply closing_step_timer. exact Hc.
  - intros w ->. apply guarded_tornDownOnce; [apply guarded_step; exact Hc|].
    apply closing_step_window; [exact Hc|reflexivity].
  - intros port req Hport Hdec Hno.
    apply guarded_tornDownOnce; [apply guarded_step; exact Hc|].
    apply closing_step_decline; assumption.
  - intros i v ledger Hi.
    apply guarded_tornDownOnce; [apply guarded_step; exact Hc|].
    apply closing_step_completed; assumption.
  - intros n. rewrite iter_close.
    apply guarded_tornDownOnce; [apply guarded_close; exact Hc|apply closing_close].
Qed.

Lemma C2_teardown_exactly_once_witness :
  let P := Sample.opsParams in
  let c := run P Sample.opsConfirm
             [Message 1 (DAppGetPayloadRequest "id-1");
              Message 1 (DAppOpsConfirmationRequest "id-1" true)] in
  tornDownOnce (fst (step P c TimerFired))
  /\ tornDownOnce (fst (step P c (WindowRemoved 7)))
  /\ tornDownOnce (fst (step P c (Message 1 (DAppOpsConfirmationRequest "id-1" false))))
  /\ tornDownOnce (fst (step P c (Completed 0 (Normal "opHash") true)))
  /\ tornDownOnce (Nat.iter 3 (close P) c).
Proof.
  intros P c.
  pose proof (C2_teardown_exactly_once "id-1" Sample.opsPayload
                (OpsHandler Sample.session Sample.rpcURL Sample.opParams) (Some 7%Z)
                Sample.store
                [Message 1 (DAppGetPayloadRequest "id-1");
                 Message 1 (DAppOpsConfirmationRequest "id-1" true)])
    as [_ [Htimer [Hwindow [Hdecline [Hcompleted Hclose]]]]].
  split; [exact Htimer|].
  split; [exact (Hwindow 7%Z eq_refl)|].
  split; [apply Hdecline; vm_compute; reflexivity|].
  split; [apply Hcompleted; vm_compute; lia|].
  exact (Hclose 2).
Defined.

(** ** C3: a failure of the approved action *)

Lemma promise_close (P : ConfirmParams) (c : Confirm) : promise (close P c) = promise c.
Proof. close_cases P c; reflexivity. Qed.

Lemma storage_close (P : ConfirmParams) (c : Confirm) : storage (close P c) = storage c.
Proof. close_cases P c; reflexivity. Qed.

(** The log of the first run of [close]. *)
Lemma log_close (P : ConfirmParams) (c : Confirm) :
  closing c = false ->
  exists tail,
    log (close P c) =
    log c ++ [EClearTimeout; EStopRequestListening; EStopWinRemovedListening;
              ECloseWindow] ++ tail.
Proof.
  intros Hopen. rewrite (close_open P c Hopen). simpl. eauto.
Qed.

(** C3, as the code has it.  In a confirmation opened by [requestConfirm],
    when the action awaited by a suspended run of the listener (an approved
    decision) fails with [err]: in the operation flow, if [err] is a
    [TezosOperationError], the promise of the caller is rejected with it,
    its message replaced by the [TezosOperation] code, the decision is
    answered and the confirmation is torn down, the rejection coming first;
    in every other case (another failure of the submission, any failure of
    the signing or of the session write) [err] is the failure of the
    decision message, unchanged, and the promise, the guard of [close] and
    the effects are as they were: the error does not reach the caller and
    the confirmation stays open. *)
Theorem C3_action_failure
    (id : string) (payload : ThanosDAppPayload) (handler : Handler)
    (winId : option Z) (st : Storage) (evs : list Event)
    (i : nat) (req : ThanosRequest) (err : JsError) (ledger : bool) :
  let P := fst (requestConfirm id payload handler winId st) in
  let c := run P (snd (requestConfirm id payload handler winId st)) evs in
  let out := step P c (Completed i (Throw err) ledger) in
  suspended c !! i = Some req ->
  match handler, err with
  | OpsHandler _ _ _, TezosOperationError _ errors =>
      let relabelled := TezosOperationError (Code TezosOperation) errors in
      promise (fst out) = reject (promise c) relabelled
      /\ snd out = Respond DAppOpsConfirmationResponse
      /\ closing (fst out) = true
      /\ (closing c = false ->
            exists tail,
              log (fst out) =
              log c ++ [EReject relabelled; EClearTimeout; EStopRequestListening;
                        EStopWinRemovedListening; ECloseWindow] ++ tail)
  | _, _ =>
      snd out = Fail err
      /\ promise (fst out) = promise c
      /\ closing (fst out) = closing c
      /\ log (fst out) = log c
  end.
Proof.
  intros P c out Hreq.
  assert (isApproval P req = true) as Happroved.
  { assert (approvalsOnly P c) as Happ by (apply approvalsOnly_run; constructor).
    unfold approvalsOnly in Happ. rewrite Forall_forall in Happ.
    apply Happ. eapply list_elem_of_lookup_2. exact Hreq. }
  subst out. simpl step. rewrite Hreq.
  unfold isApproval, isDecision in Happroved. unfold handle_resume.
  change (c_handler P) with handler in *.
  destruct handler as [o n a r|d r ops|d raw];
    destruct req as [rid|rid conf h k|rid conf|rid conf|]; try discriminate Happroved.
  - destruct err; simpl; auto.
  - destruct err as [m|m errors|p]; simpl; auto.
    rewrite promise_close, closing_close. simpl.
    split; [reflexivity|]. split; [reflexivity|]. split; [reflexivity|].
    intros Hopen.
    destruct (log_close P
                (do_reject (TezosOperationError (Code TezosOperation) errors)
                   (set_suspended (delete i (suspended c)) c)) Hopen) as [tail Htail].
    exists tail. rewrite Htail. simpl. rewrite <- app_assoc. reflexivity.
  - destruct err; simpl; auto.
Qed.

Lemma C3_action_failure_witness :
  let P := Sample.opsParams in
  let c := run P Sample.opsConfirm
             [Message 1 (DAppGetPayloadRequest "id-1");
              Message 1 (DAppOpsConfirmationRequest "id-1" true)] in
  let out := step P c (Completed 0 (Throw (TezosOperationError (Text "proto") ["e"])) false) in
  promise (fst out) = RejectedWith (TezosOperationError (Code TezosOperation) ["e"])
  /\ snd out = Respond DAppOpsConfirmationResponse
  /\ closing (fst out) = true.
Proof.
  intros P c out.
  pose proof (C3_action_failure "id-1" Sample.opsPayload
                (OpsHandler Sample.session Sample.rpcURL Sample.opParams) (Some 7%Z)
                Sample.store
                [Message 1 (DAppGetPayloadRequest "id-1");
                 Message 1 (DAppOpsConfirmationRequest "id-1" true)]
                0 (DAppOpsConfirmationRequest "id-1" true)
                (TezosOperationError (Text "proto") ["e"]) false
                ltac:(reflexivity)) as [Hpromise [Hreply [Hclosing _]]].
  split; [exact Hpromise|]. split; [exact Hreply|exact Hclosing].
Defined.

(** C3, as the claim states it, fails.  An approved sign request whose
    signing fails: the error is the failure of the decision message, the
    promise of the caller stays pending and nothing is torn down.  An
    approved operation whose submission fails with a [TezosOperationError]:
    the promise is rejected before the teardown, not after it; with another
    error the promise stays pending. *)
Lemma C3_counterexample_error_not_delivered :
  let failed := Error (Text "vault is locked") in
  let sign := run Sample.signParams Sample.signConfirm
                [Message 1 (DAppGetPayloadRequest "id-2");
                 Message 1 (DAppSignConfirmationRequest "id-2" true)] in
  let signOut := step Sample.signParams sign (Completed 0 (Throw failed) false) in
  let ops := run Sample.opsParams Sample.opsConfirm
               [Message 1 (DAppGetPayloadRequest "id-1");
                Message 1 (DAppOpsConfirmationRequest "id-1" true)] in
  let opsOut := step Sample.opsParams ops
                  (Completed 0 (Throw (TezosOperationError (Text "proto") ["e"])) false) in
  let opsOther := step Sample.opsParams ops (Completed 0 (Throw failed) false) in
  suspended sign = [DAppSignConfirmationRequest "id-2" true]
  /\ snd signOut = Fail failed
  /\ promise (fst signOut) = Pending
  /\ promise (fst signOut) <> RejectedWith failed
  /\ closing (fst signOut) = false
  /\ log (fst signOut) = [EVaultSign "tz1Alice" "0a0b"]
  /\ log (fst opsOut) =
     [EVaultSendOperations "tz1Alice" Sample.rpcURL Sample.opParams;
      EReject (TezosOperationError (Code TezosOperation) ["e"]);
      EClearTimeout; EStopRequestListening; EStopWinRemovedListening; ECloseWindow;
      EWindowsRemove 7]
  /\ snd opsOther = Fail failed
  /\ promise (fst opsOther) = Pending
  /\ closing (fst opsOther) = false.
Proof. cbv zeta. repeat split; try reflexivity. discriminate. Qed.

(** ** C7: a grant is what [getCurrentPermission] returns *)

(** A confirmation opened by [requestPermission] runs the permission
    handler of a network whose endpoint is the one the handler captured. *)
Lemma requestPermission_confirming
    (NETWORKS : list ThanosNetwork) (st : Storage) (id : string) (winId : option Z)
    (origin : string) (req : ThanosDAppPermissionRequest)
    (effs : list Effect) (P : ConfirmParams) (c0 : Confirm) :
  requestPermission NETWORKS st id winId origin req =
    {| effects := effs; settlement := Confirming P c0 |} ->
  exists network appMeta networkRpc,
    c_handler P = PermHandler origin network appMeta networkRpc
    /\ getNetworkRPC NETWORKS network = Normal networkRpc.
Proof.
  unfold requestPermission.
  destruct (negb _); [discriminate|].
  destruct (perm_network req) as [network|]; [|discriminate].
  destruct (perm_appMeta req) as [appMeta|]; [|discriminate].
  destruct (getNetworkRPC NETWORKS network) as [networkRpc|e] eqn:Hrpc; [|discriminate].
  match goal with |- context [match ?f with Some _ => _ | None => _ end] =>
    destruct f end; [discriminate|].
  simpl. intros [= _ <- _]. simpl. eauto.
Qed.

Lemma promise_handle_start (P : ConfirmParams) (c : Confirm) (req : ThanosRequest) :
  promise c = Pending ->
  forall r, promise (fst (handle_start P c req)) <> Resolved r.
Proof.
  intros Hpending r. unfold handle_start.
  case_all; cbn [fst]; unfold onDecline, do_reject; cbn [promise emit set_promise];
    rewrite ?Hpending; discriminate.
Qed.

Lemma promise_declineAndClose (P : ConfirmParams) (c : Confirm) :
  promise c = Pending ->
  promise (declineAndClose P c) = RejectedWith (Error (Code NotGranted)).
Proof.
  intros Hpending. unfold declineAndClose. rewrite promise_close.
  unfold onDecline, do_reject. cbn [promise emit set_promise].
  rewrite Hpending. reflexivity.
Qed.

(** C7.  In a confirmation opened by [requestPermission] for the origin
    [origin], whenever a callback settles the pending promise of the caller
    with a permission response [{rpc, pkh, publicKey}], the storage it
    leaves is one in which [getCurrentPermission] of [origin] is fulfilled
    with exactly that [{rpc, pkh, publicKey}]. *)
Theorem C7_grant_then_getCurrentPermission
    (NETWORKS : list ThanosNetwork) (st : Storage) (id : string) (winId : option Z)
    (origin : string) (req : ThanosDAppPermissionRequest)
    (effs : list Effect) (P : ConfirmParams) (c0 c : Confirm) (ev : Event)
    (r p k : string) :
  requestPermission NETWORKS st id winId origin req =
    {| effects := effs; settlement := Confirming P c0 |} ->
  promise c = Pending ->
  promise (fst (step P c ev)) = Resolved (PermissionResponse r p k) ->
  getCurrentPermission NETWORKS (storage (fst (step P c ev))) origin =
    {| effects := [EStorageGet];
       settlement :=
         Fulfilled (GetCurrentPermissionResponse
                      (Some {| rpc := r; pkh := p; publicKey := k |})) |}.
Proof.
  intros Hopen Hpending.
  destruct (requestPermission_confirming _ _ _ _ _ _ _ _ _ Hopen)
    as [network [appMeta [networkRpc [Hhandler Hrpc]]]].
  destruct ev as [port msg|i result ledger| |w]; cbn [step].
  - destruct (requestListening c); [|cbn [fst]; congruence]. unfold onRequest.
    destruct (isGetPayloadFor (c_id P) msg); [cbn; congruence|].
    destruct (bool_decide (knownPort c = Some port)); [|cbn; congruence].
    cbn [negb].
    pose proof (promise_handle_start P c msg Hpending (PermissionResponse r p k))
      as Hstart.
    destruct (handle_start P c msg) as [c' [[resp|]|]]; cbn [fst after_handler] in *;
      rewrite ?promise_close; intros H; exfalso; exact (Hstart H).
  - destruct (suspended c !! i) as [msg|]; [|cbn [fst]; congruence].
    unfold handle_resume. rewrite Hhandler.
    destruct msg as [rid|rid conf h pk|rid conf|rid conf|];
      try (cbn; congruence).
    destruct result as [v|e]; [|cbn; congruence].
    cbn [fst snd after_handler]. rewrite promise_close, storage_close.
    unfold do_resolve. cbn [promise storage emit set_promise set_storage set_suspended].
    rewrite Hpending. cbn [resolve]. intros [= <- <- <-].
    unfold getCurrentPermission. rewrite getDApp_setDApp.
    cbn [dapp_network dapp_pkh dapp_publicKey]. rewrite Hrpc. reflexivity.
  - destruct (timerPending c); [|cbn [fst]; congruence]. cbn [fst].
    rewrite promise_declineAndClose by exact Hpending. discriminate.
  - assert (promise (if bool_decide (c_confirmWinId P = Some w)
                     then set_windowOpen false c else c) = Pending) as Hpending'.
    { destruct (bool_decide (c_confirmWinId P = Some w)); exact Hpending. }
    destruct (winRemovedListening _); cbn [fst]; [|congruence].
    unfold handleWinRemoved.
    destruct (bool_decide (c_confirmWinId P = Some w)) eqn:Hw; [|congruence].
    rewrite promise_declineAndClose by exact Hpending'. discriminate.
Qed.

Lemma C7_grant_then_getCurrentPermission_witness :
  let run0 := requestPermission Sample.NETWORKS None "id-3" (Some 9%Z) Sample.origin
                Sample.permissionRequest in
  match settlement run0 with
  | Confirming P c0 =>
      let c := run P c0
                 [Message 1 (DAppGetPayloadRequest "id-3");
                  Message 1 (DAppPermConfirmationRequest "id-3" true "tz1Alice" "edpkAlice")] in
      let c' := fst (step P c (Completed 0 (Normal EmptyString) false)) in
      promise c' = Resolved (PermissionResponse Sample.rpcURL "tz1Alice" "edpkAlice")
      /\ getCurrentPermission Sample.NETWORKS (storage c') Sample.origin =
         {| effects := [EStorageGet];
            settlement :=
              Fulfilled (GetCurrentPermissionResponse
                           (Some {| rpc := Sample.rpcURL; pkh := "tz1Alice";
                                    publicKey := "edpkAlice" |})) |}
  | _ => False
  end.
Proof.
  cbv zeta.
  destruct (settlement (requestPermission Sample.NETWORKS None "id-3" (Some 9%Z)
                          Sample.origin Sample.permissionRequest))
    as [resp|e|P c0|e] eqn:Hsettle; try discriminate Hsettle.
  injection Hsettle as HP Hc0. subst P c0.
  split; [reflexivity|].
  eapply (C7_grant_then_getCurrentPermission Sample.NETWORKS None "id-3" (Some 9%Z)
            Sample.origin Sample.permissionRequest);
    reflexivity.
Defined.

(** * Further properties *)

(** ** The session store *)

(** X1.  After [setDApp(origin, permissions)], [getDApp] returns
    [permissions] for [origin] and what it returned before for every other
    origin. *)
Theorem X1_setDApp_then_getDApp
    (st : Storage) (origin other : string) (permissions : ThanosDAppSession) :
  getDApp (setDApp st origin permissions) other =
  if bool_decide (other = origin) then Some permissions else getDApp st other.
Proof.
  case_bool_decide as Heq.
  - subst. apply getDApp_setDApp.
  - apply getDApp_setDApp_other. congruence.
Qed.

(** X2.  For an origin that is not the name of a member of
    [Object.prototype]: after [removeDApp(origin)], [getDApp] returns
    nothing for it, and after [cleanDApps()], as on a storage that was
    never written, [getDApp] returns nothing for it.  For every origin
    other than the removed one, [getDApp] returns after [removeDApp] what
    it returned before. *)
Theorem X2_removeDApp_cleanDApps
    (st : Storage) (origin other : string) :
  (inheritedKey origin = false -> getDApp (removeDApp st origin) origin = None)
  /\ (other <> origin -> getDApp (removeDApp st origin) other = getDApp st other)
  /\ (inheritedKey other = false ->
        getDApp cleanDApps other = None /\ getDApp None other = None).
Proof.
  split; [|split].
  - intros _. apply getDApp_removeDApp.
  - intros Hne. unfold getDApp, removeDApp, setDApps. simpl.
    apply lookup_delete_ne. congruence.
  - intros _. split; reflexivity.
Qed.

Lemma X2_removeDApp_cleanDApps_witness :
  getDApp (removeDApp Sample.store Sample.origin) Sample.origin = None
  /\ getDApp (removeDApp (setDApp Sample.store "https://b.example" Sample.staleSession)
                Sample.origin) "https://b.example" = Some Sample.staleSession
  /\ getDApp cleanDApps Sample.origin = None.
Proof.
  split; [|split].
  - pose proof (X2_removeDApp_cleanDApps Sample.store Sample.origin Sample.origin)
      as [Hremoved _].
    apply Hremoved. reflexivity.
  - pose proof (X2_removeDApp_cleanDApps
                  (setDApp Sample.store "https://b.example" Sample.staleSession)
                  Sample.origin "https://b.example") as [_ [Hother _]].
    rewrite Hother; [|discriminate]. vm_compute. reflexivity.
  - pose proof (X2_removeDApp_cleanDApps Sample.store Sample.origin Sample.origin)
      as [_ [_ Hclean]].
    apply Hclean. reflexivity.
Defined.

(** X3.  Writes of the store compose as writes of a map: a second
    [setDApp] for the same origin replaces the first, [setDApp]s for
    different origins commute, [removeDApp] undoes a [setDApp] for an origin
    that had no session, and [setDApp] of the session an origin already has
    changes no lookup. *)
Theorem X3_store_writes_compose
    (st : Storage) (o o' : string) (s s' : ThanosDAppSession) :
  setDApp (setDApp st o s) o s' = setDApp st o s'
  /\ (o <> o' -> setDApp (setDApp st o s) o' s' = setDApp (setDApp st o' s') o s)
  /\ (getDApp st o = None ->
        getAllDApps (removeDApp (setDApp st o s) o) = getAllDApps st)
  /\ (getDApp st o = Some s -> getAllDApps (setDApp st o s) = getAllDApps st).
Proof.
  unfold setDApp, removeDApp, setDApps, getDApp. simpl. repeat split.
  - f_equal. apply insert_insert_eq.
  - intros Hne. f_equal. apply insert_insert_ne. congruence.
  - intros Hnone. rewrite delete_insert_eq. apply delete_id. exact Hnone.
  - intros Hsome. apply insert_id. exact Hsome.
Qed.

Lemma X3_store_writes_compose_witness :
  setDApp (setDApp None "https://a.example" Sample.session)
          "https://b.example" Sample.staleSession =
  setDApp (setDApp None "https://b.example" Sample.staleSession)
          "https://a.example" Sample.session
  /\ getAllDApps (removeDApp (setDApp None "https://a.example" Sample.session)
                    "https://a.example") = getAllDApps None
  /\ getAllDApps (setDApp Sample.store Sample.origin Sample.session) =
     getAllDApps Sample.store.
Proof.
  split; [|split].
  - pose proof (X3_store_writes_compose None "https://a.example" "https://b.example"
                  Sample.session Sample.staleSession) as [_ [Hcommute _]].
    apply Hcommute. discriminate.
  - pose proof (X3_store_writes_compose None "https://a.example" "https://b.example"
                  Sample.session Sample.staleSession) as [_ [_ [Hundo _]]].
    apply Hundo. reflexivity.
  - pose proof (X3_store_writes_compose Sample.store Sample.origin Sample.origin
                  Sample.session Sample.session) as [_ [_ [_ Hsame]]].
    apply Hsame. vm_compute. reflexivity.
Defined.

(** ** Networks *)

(** X4.  [isNetworkEquals] is an equivalence on networks: reflexive,
    symmetric and transitive (two inline descriptors with the same [rpc] are
    equal whatever their names are). *)
Theorem X4_isNetworkEquals_equivalence (a b c : ThanosDAppNetwork) :
  isNetworkEquals a a = true
  /\ isNetworkEquals a b = isNetworkEquals b a
  /\ (isNetworkEquals a b = true -> isNetworkEquals b c = true ->
        isNetworkEquals a c = true).
Proof.
  split; [|split].
  - destruct a; simpl; apply String.eqb_refl.
  - destruct a, b; simpl; try reflexivity; apply String.eqb_sym.
  - destruct a, b, c; simpl; try discriminate;
      rewrite !String.eqb_eq; congruence.
Qed.

Lemma X4_isNetworkEquals_equivalence_witness :
  isNetworkEquals (NetworkCustom "first" "https://node.example")
                  (NetworkCustom "third" "https://node.example") = true.
Proof.
  pose proof (X4_isNetworkEquals_equivalence
                (NetworkCustom "first" "https://node.example")
                (NetworkCustom "second" "https://node.example")
                (NetworkCustom "third" "https://node.example")) as [_ [_ Htrans]].
  apply Htrans; reflexivity.
Defined.

(** X5.  A network that [isAllowedNetwork] accepts has an endpoint:
    [getNetworkRPC] returns, for an inline descriptor its non-empty [rpc],
    for an id the [rpcBaseURL] of a listed network with that id. *)
Theorem X5_allowed_network_has_rpc
    (NETWORKS : list ThanosNetwork) (net : ThanosDAppNetwork) :
  isAllowedNetwork NETWORKS (Some net) = true ->
  exists r,
    getNetworkRPC NETWORKS net = Normal r
    /\ match net with
       | NetworkCustom _ rpc => r = rpc /\ rpc <> EmptyString
       | NetworkId id => exists n, In n NETWORKS /\ net_id n = id /\ r = net_rpcBaseURL n
       end.
Proof.
  destruct net as [id|name rpc]; simpl.
  - intros Hex. apply existsb_exists in Hex as [n [Hin Hn]].
    apply andb_true_iff in Hn as [_ Hid]. apply String.eqb_eq in Hid.
    destruct (List.find (fun n0 => String.eqb (net_id n0) id) NETWORKS) as [m|] eqn:Hfind.
    + apply find_some in Hfind as [Hm Heq]. apply String.eqb_eq in Heq.
      exists (net_rpcBaseURL m). split; [reflexivity|]. exists m. auto.
    + exfalso. apply (find_none _ _ Hfind) in Hin.
      apply String.eqb_neq in Hin. congruence.
  - intros Htruthy. exists rpc. split; [reflexivity|]. split; [reflexivity|].
    unfold truthy in Htruthy. apply negb_true_iff in Htruthy.
    apply String.eqb_neq in Htruthy. exact Htruthy.
Qed.

Lemma X5_allowed_network_has_rpc_witness :
  exists r,
    getNetworkRPC Sample.NETWORKS (NetworkId "mainnet") = Normal r
    /\ exists n, In n Sample.NETWORKS /\ net_id n = "mainnet" /\ r = net_rpcBaseURL n.
Proof.
  apply (X5_allowed_network_has_rpc Sample.NETWORKS (NetworkId "mainnet")).
  reflexivity.
Defined.

(** ** The patterns of [requestSign] *)

Lemma slice_from_0 (s : string) : slice_from 0 s = s.
Proof.
  unfold slice_from. rewrite Nat.sub_0_r.
  induction s as [|c s IH]; [reflexivity|]. simpl. rewrite IH. reflexivity.
Qed.

Lemma slice_from_S (n : nat) (c : ascii) (s : string) :
  slice_from (S n) (String c s) = slice_from n s.
Proof. reflexivity. Qed.

Lemma slice_from_empty (n : nat) : slice_from n EmptyString = EmptyString.
Proof. destruct n; reflexivity. Qed.

(** A string is its first [n] characters followed by the rest. *)
Lemma all_chars_split (p : ascii -> bool) (n : nat) (s : string) :
  all_chars p s = all_chars p (substring 0 n s) && all_chars p (slice_from n s).
Proof.
  revert s. induction n as [|n IH]; intros s.
  - rewrite slice_from_0. destruct s; reflexivity.
  - destruct s as [|c s]; [reflexivity|].
    rewrite slice_from_S. simpl. rewrite (IH s). apply andb_assoc.
Qed.

Lemma substring_slice_from (n m : nat) (s : string) :
  substring 0 m (slice_from n s) = substring n m s.
Proof.
  revert s. induction n as [|n IH]; intros s.
  - rewrite slice_from_0. reflexivity.
  - destruct s as [|c s].
    + rewrite slice_from_empty. destruct m; reflexivity.
    + rewrite slice_from_S. simpl. apply IH.
Qed.

Lemma slice_from_add (n m : nat) (s : string) :
  slice_from m (slice_from n s) = slice_from (n + m) s.
Proof.
  revert s. induction n as [|n IH]; intros s.
  - rewrite slice_from_0. reflexivity.
  - destruct s as [|c s].
    + rewrite !slice_from_empty. reflexivity.
    + simpl Nat.add. rewrite !slice_from_S. apply IH.
Qed.

Lemma length_substring_le (n m : nat) (s : string) :
  String.length (substring n m s) <= String.length s - n.
Proof.
  revert m s. induction n as [|n IH]; intros m s.
  - rewrite Nat.sub_0_r. revert s. induction m as [|m IHm]; intros s.
    + destruct s; simpl; lia.
    + destruct s as [|c s]; simpl; [lia|]. specialize (IHm s). lia.
  - destruct s as [|c s]; simpl; [lia|]. apply IH.
Qed.

Lemma all_chars_impl (p q : ascii -> bool) (s : string) :
  (forall c, p c = true -> q c = true) ->
  all_chars p s = true -> all_chars q s = true.
Proof.
  intros Hpq. induction s as [|c s IH]; [reflexivity|]. simpl.
  rewrite !andb_true_iff. intros [Hc Hs]. auto.
Qed.

Lemma is_lower_hex_is_hex (c : ascii) : is_lower_hex c = true -> is_hex c = true.
Proof.
  unfold is_lower_hex, is_hex. rewrite !orb_true_iff. tauto.
Qed.

(** X6.  A payload that matches [TEZ_MSG_SIGN_PATTERN] matches
    [HEX_PATTERN] and has at least 56 characters: the signed-message branch
    of the preview only ever sees payloads the validation accepts, and a
    payload with an upper-case digit never takes it. *)
Theorem X6_signed_message_is_hex (s : string) :
  TEZ_MSG_SIGN_PATTERN s = true ->
  HEX_PATTERN s = true
  /\ 56 <= String.length s
  /\ all_chars is_lower_hex s = true.
Proof.
  unfold TEZ_MSG_SIGN_PATTERN. rewrite !andb_true_iff.
  intros [[[[Hprefix Hlen] Hmarker] Hmagic] Hrest].
  apply String.eqb_eq in Hprefix. apply String.eqb_eq in Hmagic.
  assert (all_chars is_lower_hex s = true) as Hlower.
  { rewrite (all_chars_split _ 4 s), Hprefix.
    rewrite (all_chars_split _ 8 (slice_from 4 s)).
    rewrite substring_slice_from, Hmarker, slice_from_add.
    rewrite (all_chars_split _ 44 (slice_from 12 s)).
    rewrite substring_slice_from, Hmagic, slice_from_add. simpl Nat.add.
    rewrite Hrest. reflexivity. }
  split; [|split; [|exact Hlower]].
  - unfold HEX_PATTERN. rewrite andb_true_iff. split.
    + destruct s; [discriminate Hprefix|reflexivity].
    + exact (all_chars_impl _ _ s is_lower_hex_is_hex Hlower).
  - pose proof (length_substring_le 12 44 s) as Hle. rewrite Hmagic in Hle.
    change (String.length SIGNED_MESSAGE_MAGIC) with 44 in Hle. lia.
Qed.

Lemma X6_signed_message_is_hex_witness :
  HEX_PATTERN Sample.signedMessage = true /\ 56 <= String.length Sample.signedMessage.
Proof.
  destruct (X6_signed_message_is_hex Sample.signedMessage ltac:(reflexivity))
    as [Hhex [Hlen _]].
  split; assumption.
Defined.

(** ** Validation and prompting in the arbiters *)

Lemma HEX_PATTERN_not_0x (p : string) :
  HEX_PATTERN p = true -> startsWith "0x" p = false.
Proof.
  unfold HEX_PATTERN, startsWith. rewrite andb_true_iff. intros [_ Hall].
  destruct (String.prefix "0x" p) eqn:Hprefix; [|reflexivity].
  apply String.prefix_correct in Hprefix.
  destruct p as [|a [|b p]]; try discriminate Hprefix.
  simpl in Hprefix. injection Hprefix as -> -> _.
  simpl in Hall. discriminate Hall.
Qed.

Lemma startsWith_0x_append (p : string) : startsWith "0x" (String.append "0x" p) = true.
Proof.
  unfold startsWith. apply String.prefix_correct. simpl. destruct p; reflexivity.
Qed.

(** X7.  [requestSign] treats a hexadecimal payload and the same payload
    with the prefix [0x] alike: the two calls give the same run.  A payload
    that is valid once normalised never starts with [0x], so the prefix is
    dropped at most once. *)
Theorem X7_sign_0x_prefix
    (NETWORKS : list ThanosNetwork) (isAddressValid : option string -> bool)
    (emitMichelineValue : string -> Completion string)
    (localForger_parse : string -> Completion ForgedOperation)
    (st : Storage) (id : string) (winId : option Z) (origin : string)
    (sourcePkh : option string) (p : string) :
  HEX_PATTERN p = true ->
  startsWith "0x" p = false
  /\ requestSign NETWORKS isAddressValid emitMichelineValue localForger_parse
       st id winId origin
       {| sign_sourcePkh := sourcePkh; sign_payload := Some (String.append "0x" p) |} =
     requestSign NETWORKS isAddressValid emitMichelineValue localForger_parse
       st id winId origin
       {| sign_sourcePkh := sourcePkh; sign_payload := Some p |}.
Proof.
  intros Hhex. pose proof (HEX_PATTERN_not_0x p Hhex) as Hno.
  split; [exact Hno|].
  unfold requestSign, normalizeSignRequest. cbn [sign_payload sign_sourcePkh].
  rewrite startsWith_0x_append, Hno.
  change (slice_from 2 (String.append "0x" p)) with (slice_from 0 p).
  rewrite slice_from_0. reflexivity.
Qed.

Lemma X7_sign_0x_prefix_witness :
  requestSign Sample.NETWORKS Sample.isAddressValid Sample.emitMichelineValue
    Sample.localForger_parse Sample.store "id-1" (Some 7%Z) Sample.origin
    {| sign_sourcePkh := Some "tz1Alice"; sign_payload := Some (String.append "0x" "0a0b") |} =
  requestSign Sample.NETWORKS Sample.isAddressValid Sample.emitMichelineValue
    Sample.localForger_parse Sample.store "id-1" (Some 7%Z) Sample.origin
    {| sign_sourcePkh := Some "tz1Alice"; sign_payload := Some "0a0b" |}.
Proof.
  apply (X7_sign_0x_prefix Sample.NETWORKS Sample.isAddressValid
           Sample.emitMichelineValue Sample.localForger_parse Sample.store "id-1"
           (Some 7%Z) Sample.origin (Some "tz1Alice") "0a0b").
  reflexivity.
Defined.

(** X8.  [requestPermission] rejects with [InvalidParams], before any
    effect, a request whose network is missing, is an id that no enabled
    entry of the network list carries, or is an inline descriptor with an
    empty [rpc], and a request whose [appMeta] is missing or has no string
    [name]. *)
Theorem X8_permission_InvalidParams
    (NETWORKS : list ThanosNetwork) (st : Storage) (id : string) (winId : option Z)
    (origin : string) (req : ThanosDAppPermissionRequest) :
  perm_network req = None
  \/ (exists netId, perm_network req = Some (NetworkId netId)
        /\ forall n, In n NETWORKS -> net_id n = netId -> net_disabled n = true)
  \/ (exists name, perm_network req = Some (NetworkCustom name EmptyString))
  \/ perm_appMeta req = None
  \/ (exists appMeta, perm_appMeta req = Some appMeta /\ meta_name appMeta = None) ->
  requestPermission NETWORKS st id winId origin req =
    {| effects := []; settlement := Rejected (Error (Code InvalidParams)) |}.
Proof.
  intros Hbad.
  assert (everyBoolean [isAllowedNetwork NETWORKS (perm_network req);
                        nameIsString (perm_appMeta req)] = false) as Hinvalid.
  { unfold everyBoolean. cbn [forallb].
    destruct Hbad as [Hnet|[[netId [Hnet Hdisabled]]|[[name Hnet]|[Hmeta|[m [Hmeta Hname]]]]]].
    - rewrite Hnet. reflexivity.
    - rewrite Hnet. simpl.
      assert (existsb (fun n => negb (net_disabled n) && String.eqb (net_id n) netId)
                NETWORKS = false) as ->; [|reflexivity].
      apply not_true_is_false. intros Hex.
      apply existsb_exists in Hex as [n [Hin Hn]].
      apply andb_true_iff in Hn as [Hen Hid]. apply String.eqb_eq in Hid.
      rewrite (Hdisabled n Hin Hid) in Hen. discriminate.
    - rewrite Hnet. reflexivity.
    - rewrite Hmeta. simpl. apply andb_false_r.
    - rewrite Hmeta. simpl. rewrite Hname.
      rewrite bool_decide_eq_false_2; [apply andb_false_r|].
      intros [x Hx]. discriminate. }
  unfold requestPermission. rewrite Hinvalid. reflexivity.
Qed.

Lemma X8_permission_InvalidParams_witness :
  requestPermission Sample.NETWORKS Sample.store "id-1" (Some 7%Z) Sample.origin
    {| perm_network := Some (NetworkId "sandbox"); perm_appMeta := Some Sample.appMeta;
       perm_force := false |} =
    {| effects := []; settlement := Rejected (Error (Code InvalidParams)) |}.
Proof.
  apply (X8_permission_InvalidParams Sample.NETWORKS Sample.store "id-1" (Some 7%Z)
           Sample.origin).
  right. left. exists "sandbox". split; [reflexivity|].
  intros n [<-|[<-|[]]]; [discriminate|reflexivity].
Defined.

(** X9.  A valid permission request opens a [connect] confirmation that
    carries the origin, the endpoint of the requested network and the
    request's [appMeta] whenever the fast path does not apply: the origin
    has no session, or [force] is set, or the session is for another
    network or another app name.  The storage is only read. *)
Theorem X9_permission_prompts
    (NETWORKS : list ThanosNetwork) (st : Storage) (id : string) (winId : option Z)
    (origin : string) (req : ThanosDAppPermissionRequest)
    (network : ThanosDAppNetwork) (appMeta : ThanosDAppMetadata) :
  perm_network req = Some network ->
  perm_appMeta req = Some appMeta ->
  isAllowedNetwork NETWORKS (Some network) = true ->
  nameIsString (Some appMeta) = true ->
  getDApp st origin = None
  \/ perm_force req = true
  \/ (exists dApp, getDApp st origin = Some dApp
        /\ (isNetworkEquals network (dapp_network dApp) = false
            \/ sameName appMeta (dapp_appMeta dApp) = false)) ->
  exists networkRpc,
    getNetworkRPC NETWORKS network = Normal networkRpc
    /\ let payload := PayloadConnect origin networkRpc appMeta in
       let opened :=
         requestConfirm id payload (PermHandler origin network appMeta networkRpc)
           winId st in
       requestPermission NETWORKS st id winId origin req =
         {| effects := [EStorageGet; EOpenConfirm id payload];
            settlement := Confirming (fst opened) (snd opened) |}.
Proof.
  intros Hnet Hmeta Hallowed Hname Hslow.
  destruct (isAllowedNetwork_rpc NETWORKS network Hallowed) as [networkRpc Hrpc].
  exists networkRpc. split; [exact Hrpc|].
  unfold requestPermission, everyBoolean. rewrite Hnet, Hmeta.
  cbn [forallb]. rewrite Hallowed, Hname. cbn [andb negb]. rewrite Hrpc.
  destruct Hslow as [Hnone|[Hforce|[dApp [Hsome Hdiff]]]].
  - rewrite Hnone. reflexivity.
  - rewrite Hforce. destruct (getDApp st origin); reflexivity.
  - rewrite Hsome.
    destruct Hdiff as [Hd|Hd]; rewrite Hd; rewrite ?andb_false_r; reflexivity.
Qed.

Lemma X9_permission_prompts_witness :
  exists networkRpc,
    effects (requestPermission Sample.NETWORKS Sample.store "id-1" (Some 7%Z)
               Sample.origin
               {| perm_network := Some (NetworkId "mainnet");
                  perm_appMeta := Some Sample.appMeta; perm_force := true |}) =
    [EStorageGet; EOpenConfirm "id-1" (PayloadConnect Sample.origin networkRpc Sample.appMeta)].
Proof.
  destruct (X9_permission_prompts Sample.NETWORKS Sample.store "id-1" (Some 7%Z)
              Sample.origin
              {| perm_network := Some (NetworkId "mainnet");
                 perm_appMeta := Some Sample.appMeta; perm_force := true |}
              (NetworkId "mainnet") Sample.appMeta
              ltac:(reflexivity) ltac:(reflexivity) ltac:(reflexivity)
              ltac:(reflexivity) ltac:(right; left; reflexivity))
    as [networkRpc [_ Hrun]].
  exists networkRpc. cbv zeta in Hrun. rewrite Hrun. reflexivity.
Defined.

(** X10.  [requestSign] rejects with [InvalidParams], before any effect, a
    request whose address is not valid or whose payload is missing or, once
    a leading [0x] is dropped, is not a non-empty string of hexadecimal
    digits; so it rejects the empty payload and the payload [0x]. *)
Theorem X10_sign_InvalidParams
    (NETWORKS : list ThanosNetwork) (isAddressValid : option string -> bool)
    (emitMichelineValue : string -> Completion string)
    (localForger_parse : string -> Completion ForgedOperation)
    (st : Storage) (id : string) (winId : option Z) (origin : string)
    (req : ThanosDAppSignRequest) :
  isAddressValid (sign_sourcePkh req) = false
  \/ sign_payload req = None
  \/ (exists p, sign_payload req = Some p
        /\ startsWith "0x" p = false /\ HEX_PATTERN p = false)
  \/ (exists p, sign_payload req = Some (String.append "0x" p) /\ HEX_PATTERN p = false) ->
  requestSign NETWORKS isAddressValid emitMichelineValue localForger_parse
    st id winId origin req =
    {| effects := []; settlement := Rejected (Error (Code InvalidParams)) |}.
Proof.
  intros Hbad.
  assert (sign_sourcePkh (normalizeSignRequest req) = sign_sourcePkh req) as Hsame.
  { unfold normalizeSignRequest. destruct (sign_payload req) as [p|]; [|reflexivity].
    destruct (startsWith "0x" p); reflexivity. }
  assert (everyBoolean
            [isAddressValid (sign_sourcePkh (normalizeSignRequest req));
             testHex (sign_payload (normalizeSignRequest req))] = false) as Hinvalid.
  { unfold everyBoolean. cbn [forallb]. rewrite Hsame.
    destruct Hbad as [Haddr|Hpayload]; [rewrite Haddr; reflexivity|].
    assert (testHex (sign_payload (normalizeSignRequest req)) = false) as ->;
      [|apply andb_false_r].
    unfold normalizeSignRequest.
    destruct Hpayload as [Hnone|[[p [Hp [Hno Hhex]]]|[p [Hp Hhex]]]].
    - rewrite Hnone. cbn. rewrite Hnone. reflexivity.
    - rewrite Hp, Hno. cbn. rewrite Hp. exact Hhex.
    - rewrite Hp, startsWith_0x_append. cbn [sign_payload testHex].
      change (slice_from 2 (String.append "0x" p)) with (slice_from 0 p).
      rewrite slice_from_0. exact Hhex. }
  unfold requestSign. rewrite Hinvalid. reflexivity.
Qed.

Lemma X10_sign_InvalidParams_witness :
  requestSign Sample.NETWORKS Sample.isAddressValid Sample.emitMichelineValue
    Sample.localForger_parse Sample.store "id-1" (Some 7%Z) Sample.origin
    {| sign_sourcePkh := Some "tz1Alice"; sign_payload := Some "0x" |} =
    {| effects := []; settlement := Rejected (Error (Code InvalidParams)) |}.
Proof.
  apply (X10_sign_InvalidParams Sample.NETWORKS Sample.isAddressValid
           Sample.emitMichelineValue Sample.localForger_parse Sample.store "id-1"
           (Some 7%Z) Sample.origin).
  right. right. right. exists EmptyString. split; reflexivity.
Defined.

(** X11.  [requestOperation] and [requestSign] never fulfil their promise
    themselves and never call the vault, write the storage or reach the
    network themselves: whatever the request, they only read the storage
    and open a confirmation, and a confirmation they open starts pending,
    under the id drawn for it, with no channel bound.  An operation or a
    signature is therefore only ever produced by a callback of the
    confirmation. *)
Theorem X11_operation_and_sign_only_prompt
    (NETWORKS : list ThanosNetwork) (isAddressValid : option string -> bool)
    (emitMichelineValue : string -> Completion string)
    (localForger_parse : string -> Completion ForgedOperation)
    (st : Storage) (id : string) (winId : option Z) (origin : string)
    (opReq : ThanosDAppOperationRequest) (signReq : ThanosDAppSignRequest)
    (run : Run) :
  run = requestOperation NETWORKS isAddressValid st id winId origin opReq
  \/ run = requestSign NETWORKS isAddressValid emitMichelineValue localForger_parse
             st id winId origin signReq ->
  (forall r, settlement run <> Fulfilled r)
  /\ onlyReadsAndPrompts run
  /\ (forall P c, settlement run = Confirming P c ->
        c_id P = id /\ c_confirmWinId P = winId
        /\ promise c = Pending /\ knownPort c = None /\ closing c = false
        /\ storage c = st /\ log c = []
        /\ In (EOpenConfirm id (c_payload P)) (effects run)).
Proof.
  assert (forall e, onlyReadsAndPrompts {| effects := []; settlement := e |}) as H0.
  { intros e. constructor. }
  assert (forall e, onlyReadsAndPrompts {| effects := [EStorageGet]; settlement := e |})
    as H1.
  { intros e. repeat constructor. }
  assert (forall i p e,
            onlyReadsAndPrompts
              {| effects := [EStorageGet; EOpenConfirm i p]; settlement := e |}) as H2.
  { intros i p e. constructor; [left; reflexivity|].
    constructor; [right; eauto|constructor]. }
  intros [-> | ->].
  - unfold requestOperation.
    destruct (validOperationRequest isAddressValid opReq) as [[|]|e];
      [|split; [discriminate|split; [apply H0|discriminate]]..].
    destruct (getDApp st origin) as [dApp|];
      [|split; [discriminate|split; [apply H1|discriminate]]].
    destruct (negb _);
      [split; [discriminate|split; [apply H1|discriminate]]|].
    destruct (getNetworkRPC NETWORKS (dapp_network dApp)) as [r|e];
      [|split; [discriminate|split; [apply H1|discriminate]]].
    cbn. split; [discriminate|]. split; [apply H2|].
    intros P c [= <- <-]. cbn. repeat (split; [reflexivity|]). auto.
  - unfold requestSign.
    destruct (negb _);
      [split; [discriminate|split; [apply H0|discriminate]]|].
    destruct (getDApp st origin) as [dApp|];
      [|split; [discriminate|split; [apply H1|discriminate]]].
    destruct (negb _);
      [split; [discriminate|split; [apply H1|discriminate]]|].
    destruct (getNetworkRPC NETWORKS (dapp_network dApp)) as [r|e];
      [|split; [discriminate|split; [apply H1|discriminate]]].
    cbn. split; [discriminate|]. split; [apply H2|].
    intros P c [= <- <-]. cbn. repeat (split; [reflexivity|]). auto.
Qed.

Lemma X11_operation_and_sign_only_prompt_witness :
  onlyReadsAndPrompts
    (requestOperation Sample.NETWORKS Sample.isAddressValid Sample.store "id-1"
       (Some 7%Z) Sample.origin Sample.operationRequest).
Proof.
  apply (X11_operation_and_sign_only_prompt Sample.NETWORKS Sample.isAddressValid
           Sample.emitMichelineValue Sample.localForger_parse Sample.store "id-1"
           (Some 7%Z) Sample.origin Sample.operationRequest Sample.signRequest).
  left. reflexivity.
Defined.

(** X12.  [requestBroadcast] never prompts and always settles: it is
    fulfilled with a broadcast response or rejected, its only effects are a
    read of the storage and at most one injection, and the error of a
    rejection is one of four: [InvalidParams], [NotGranted], a
    [TezosOperationError] whose message is the [TezosOperation] code, or
    the generic [Failed to broadcast]; no other error of the RPC client or
    of the network lookup reaches the requester. *)
Theorem X12_broadcast_outcomes
    (NETWORKS : list ThanosNetwork)
    (injectOperation : string -> string -> Completion string)
    (st : Storage) (origin : string) (req : ThanosDAppBroadcastRequest) :
  let run := requestBroadcast NETWORKS injectOperation st origin req in
  ((exists opHash, settlement run = Fulfilled (BroadcastResponse opHash))
   \/ settlement run = Rejected (Error (Code InvalidParams))
   \/ settlement run = Rejected (Error (Code NotGranted))
   \/ (exists errors,
         settlement run = Rejected (TezosOperationError (Code TezosOperation) errors))
   \/ settlement run = Rejected (Error (Text "Failed to broadcast")))
  /\ (effects run = [] \/ effects run = [EStorageGet]
      \/ exists r bytes, effects run = [EStorageGet; EInjectOperation r bytes]).
Proof.
  cbv zeta. unfold requestBroadcast.
  destruct (bc_signedOpBytes req) as [bytes|]; [|cbn; tauto].
  destruct (negb _); [cbn; tauto|].
  destruct (getDApp st origin) as [dApp|]; [|cbn; tauto].
  destruct (getNetworkRPC NETWORKS (dapp_network dApp)) as [r|e] eqn:Hrpc.
  - destruct (injectOperation r bytes) as [h|[m|m errs|p]]; cbn;
      (split; [|right; right; eauto]).
    + left. eauto.
    + tauto.
    + right. right. right. left. eauto.
    + tauto.
  - rewrite (getNetworkRPC_throws NETWORKS _ _ Hrpc). cbn. tauto.
Qed.

(** ** The orchestrator: how the handlers leave a confirmation *)

Lemma isPending_reject (p : Promise) (e : JsError) : isPending (reject p e) = false.
Proof. destruct p; reflexivity. Qed.

Lemma isPending_resolve (p : Promise) (r : ThanosDAppResponse) :
  isPending (resolve p r) = false.
Proof. destruct p; reflexivity. Qed.

Lemma isDecision_not_getPayload (P : ConfirmParams) (req : ThanosRequest) :
  isDecision P req = true -> isGetPayloadFor (c_id P) req = false.
Proof.
  unfold isDecision. destruct (c_handler P), req; try discriminate; reflexivity.
Qed.

Lemma isApproval_isDecision (P : ConfirmParams) (req : ThanosRequest) :
  isApproval P req = true -> isDecision P req = true.
Proof. unfold isApproval. rewrite andb_true_iff. tauto. Qed.

(** What [handleIntercomRequest] does up to its first [await], by the kind
    of the message. *)
Lemma handle_start_approval (P : ConfirmParams) (c : Confirm) (req : ThanosRequest) :
  isApproval P req = true ->
  snd (handle_start P c req) = HAwait
  /\ log (fst (handle_start P c req)) = log c ++ vaultCall P
  /\ promise (fst (handle_start P c req)) = promise c
  /\ storage (fst (handle_start P c req)) = storage c
  /\ closing (fst (handle_start P c req)) = closing c.
Proof.
  unfold handle_start, isApproval, isDecision, vaultCall.
  destruct (c_handler P), req; simpl; try discriminate;
    destruct (String.eqb id (c_id P)); simpl; try discriminate;
    intros Happ; rewrite ?Happ; simpl; rewrite ?app_nil_r; auto.
Qed.

Lemma handle_start_other (P : ConfirmParams) (c : Confirm) (req : ThanosRequest) :
  isDecision P req = false -> handle_start P c req = (c, HReturn None).
Proof.
  unfold handle_start, isDecision.
  destruct (c_handler P), req; try reflexivity; intros ->; reflexivity.
Qed.

Lemma handle_start_decline_response (P : ConfirmParams) (c : Confirm)
    (req : ThanosRequest) :
  isDecision P req = true -> isApproval P req = false ->
  handle_start P c req = (onDecline c, HReturn (Some (decisionResponse P))).
Proof.
  unfold handle_start, isApproval, isDecision, decisionResponse.
  destruct (c_handler P), req; simpl; try discriminate;
    intros -> Hno; simpl in Hno; rewrite ?Hno; reflexivity.
Qed.

(** What the rest of [handleIntercomRequest] does: it either settles the
    promise and answers the decision, or leaves the confirmation as it is. *)
Lemma handle_resume_cases (P : ConfirmParams) (c : Confirm) (req : ThanosRequest)
    (result : Completion string) (ledger : bool) :
  (snd (handle_resume P c req result ledger) = Normal (Some (decisionResponse P))
   /\ isPending (promise (fst (handle_resume P c req result ledger))) = false
   /\ closing (fst (handle_resume P c req result ledger)) = closing c)
  \/ (fst (handle_resume P c req result ledger) = c
      /\ forall r, snd (handle_resume P c req result ledger) <> Normal (Some r)).
Proof.
  unfold handle_resume, decisionResponse.
  destruct (c_handler P) as [o n a r|d r ops|d raw], req as [rid|rid cf h k|rid cf|rid cf|];
    try (right; split; [reflexivity|discriminate]).
  - destruct result as [v|e]; [|right; split; [reflexivity|discriminate]].
    left. cbn. rewrite isPending_resolve. auto.
  - destruct result as [v|e].
    + left. destruct ledger; cbn; rewrite isPending_resolve; auto.
    + destruct (instanceofTezosOperationError e).
      * left. cbn. rewrite isPending_reject. auto.
      * right. split; [reflexivity|discriminate].
  - destruct result as [v|e]; [|right; split; [reflexivity|discriminate]].
    left. cbn. rewrite isPending_resolve. auto.
Qed.

(** ** The orchestrator: the promise is settled exactly when [close] ran *)

Lemma settledWhenClosed_close (P : ConfirmParams) (c : Confirm) :
  isPending (promise c) = false -> settledWhenClosed (close P c).
Proof.
  intros Hsettled. unfold settledWhenClosed.
  rewrite closing_close, promise_close, Hsettled. reflexivity.
Qed.

Lemma settledWhenClosed_declineAndClose (P : ConfirmParams) (c : Confirm) :
  settledWhenClosed (declineAndClose P c).
Proof.
  unfold declineAndClose. apply settledWhenClosed_close.
  unfold onDecline, do_reject. cbn. apply isPending_reject.
Qed.

Lemma settledWhenClosed_step (P : ConfirmParams) (c : Confirm) (ev : Event) :
  settledWhenClosed c -> settledWhenClosed (fst (step P c ev)).
Proof.
  intros Hc. destruct ev as [port req|i result ledger| |w]; cbn [step].
  - destruct (requestListening c); [|exact Hc]. unfold onRequest.
    destruct (isGetPayloadFor (c_id P) req); [exact Hc|].
    destruct (bool_decide (knownPort c = Some port)); [|exact Hc]. cbn [negb].
    destruct (isDecision P req) eqn:Hdec.
    + destruct (isApproval P req) eqn:Happ.
      * destruct (handle_start_approval P c req Happ) as [Hs [_ [Hp [_ Hcl]]]].
        destruct (handle_start P c req) as [c' st]. cbn [fst snd] in *. subst st.
        cbn [fst]. unfold settledWhenClosed in *. cbn. congruence.
      * rewrite (handle_start_decline_response P c req Hdec Happ).
        cbn [fst after_handler]. apply settledWhenClosed_close.
        unfold onDecline, do_reject. cbn. apply isPending_reject.
    + rewrite (handle_start_other P c req Hdec). exact Hc.
  - destruct (suspended c !! i) as [req|]; [|exact Hc].
    set (c1 := set_suspended (delete i (suspended c)) c).
    destruct (handle_resume_cases P c1 req result ledger)
      as [[Hres [Hsettled _]]|[Hsame Hres]];
      destruct (handle_resume P c1 req result ledger) as [c' res];
      cbn [fst snd] in *.
    + subst res. cbn [fst after_handler]. apply settledWhenClosed_close. exact Hsettled.
    + subst c'. destruct res as [[r|]|e]; cbn [fst after_handler];
        [exfalso; exact (Hres r eq_refl)|exact Hc|exact Hc].
  - destruct (timerPending c); [|exact Hc]. cbn [fst].
    apply settledWhenClosed_declineAndClose.
  - set (c1 := if bool_decide (c_confirmWinId P = Some w)
               then set_windowOpen false c else c).
    assert (settledWhenClosed c1) as Hc1.
    { subst c1. destruct (bool_decide (c_confirmWinId P = Some w)); exact Hc. }
    destruct (winRemovedListening c1); [|exact Hc1]. cbn [fst].
    unfold handleWinRemoved.
    destruct (bool_decide (c_confirmWinId P = Some w)); [|exact Hc1].
    apply settledWhenClosed_declineAndClose.
Qed.

Lemma settledWhenClosed_run (P : ConfirmParams) (evs : list Event) (c : Confirm) :
  settledWhenClosed c -> settledWhenClosed (run P c evs).
Proof.
  revert c. induction evs as [|ev evs IH]; intros c Hc; [exact Hc|].
  simpl. apply IH. apply settledWhenClosed_step. exact Hc.
Qed.

(** X13.  In a confirmation opened by [requestConfirm], after any sequence
    of callbacks, the promise of the caller is settled exactly when [close]
    has run: a confirmation is never torn down with its caller left
    waiting, and never left open once its caller was answered.  While the
    promise is pending, the timer and both listeners are in place. *)
Theorem X13_settled_iff_closed
    (id : string) (payload : ThanosDAppPayload) (handler : Handler)
    (winId : option Z) (st : Storage) (evs : list Event) :
  let P := fst (requestConfirm id payload handler winId st) in
  let c := run P (snd (requestConfirm id payload handler winId st)) evs in
  closing c = negb (isPending (promise c))
  /\ timerPending c = isPending (promise c)
  /\ requestListening c = isPending (promise c)
  /\ winRemovedListening c = isPending (promise c).
Proof.
  intros P c.
  assert (settledWhenClosed c) as Hs.
  { apply settledWhenClosed_run. reflexivity. }
  assert (guarded c) as Hg.
  { apply guarded_run, guarded_requestConfirm. }
  unfold settledWhenClosed in Hs. split; [exact Hs|].
  unfold guarded, guard in Hg.
  destruct (closing c); destruct (isPending (promise c)); try discriminate Hs;
    intuition congruence.
Qed.

(** What a confirmation opened by [requestConfirm] keeps, whatever the
    callbacks: while the promise is pending nothing is detached, and once
    it is settled everything is. *)
Lemma opened_pending
    (id : string) (payload : ThanosDAppPayload) (handler : Handler)
    (winId : option Z) (st : Storage) (evs : list Event) :
  let P := fst (requestConfirm id payload handler winId st) in
  let c := run P (snd (requestConfirm id payload handler winId st)) evs in
  promise c = Pending ->
  closing c = false /\ timerPending c = true /\ requestListening c = true
  /\ winRemovedListening c = true.
Proof.
  intros P c Hpending.
  assert (settledWhenClosed c) as Hs by (apply settledWhenClosed_run; reflexivity).
  assert (guarded c) as Hg by (apply guarded_run, guarded_requestConfirm).
  unfold settledWhenClosed in Hs. rewrite Hpending in Hs. simpl in Hs.
  unfold guarded, guard in Hg. rewrite Hs in Hg. tauto.
Qed.

Lemma opened_settled
    (id : string) (payload : ThanosDAppPayload) (handler : Handler)
    (winId : option Z) (st : Storage) (evs : list Event) :
  let P := fst (requestConfirm id payload handler winId st) in
  let c := run P (snd (requestConfirm id payload handler winId st)) evs in
  promise c <> Pending ->
  closing c = true /\ timerPending c = false /\ requestListening c = false
  /\ winRemovedListening c = false.
Proof.
  intros P c Hsettled.
  assert (settledWhenClosed c) as Hs by (apply settledWhenClosed_run; reflexivity).
  assert (guarded c) as Hg by (apply guarded_run, guarded_requestConfirm).
  unfold settledWhenClosed in Hs.
  assert (isPending (promise c) = false) as Hp.
  { destruct (promise c); [congruence|reflexivity..]. }
  rewrite Hp in Hs. simpl in Hs.
  unfold guarded, guard in Hg. rewrite Hs in Hg. tauto.
Qed.

Lemma storage_declineAndClose (P : ConfirmParams) (c : Confirm) :
  storage (declineAndClose P c) = storage c.
Proof. unfold declineAndClose. rewrite storage_close. reflexivity. Qed.

(** ** The ways a confirmation is declined *)

(** X14.  In a confirmation opened by [requestConfirm], while the promise
    of the caller is pending, each of the following rejects it with
    [NotGranted], tears the confirmation down and leaves the storage as it
    is: the timer; the removal of the approval window; a decision of the
    bound channel that does not approve (for a permission, also one that
    confirms without an account address or public key), which is answered
    with the response of the flow. *)
Theorem X14_decline_paths
    (id : string) (payload : ThanosDAppPayload) (handler : Handler)
    (winId : option Z) (st : Storage) (evs : list Event) :
  let P := fst (requestConfirm id payload handler winId st) in
  let c := run P (snd (requestConfirm id payload handler winId st)) evs in
  let declined (out : Confirm * Reply) :=
    promise (fst out) = RejectedWith (Error (Code NotGranted))
    /\ closing (fst out) = true
    /\ storage (fst out) = storage c in
  promise c = Pending ->
  (declined (step P c TimerFired) /\ snd (step P c TimerFired) = Ignored)
  /\ (forall w, winId = Some w -> declined (step P c (WindowRemoved w)))
  /\ (forall port req,
        knownPort c = Some port ->
        isDecision P req = true -> isApproval P req = false ->
        declined (step P c (Message port req))
        /\ snd (step P c (Message port req)) = Respond (decisionResponse P)).
Proof.
  intros P c declined Hpending.
  destruct (opened_pending id payload handler winId st evs Hpending)
    as [Hopen [Htimer [Hlisten Hwin]]].
  fold P in Hopen, Htimer, Hlisten, Hwin. fold c in Hopen, Htimer, Hlisten, Hwin.
  subst declined. cbv beta.
  split; [|split].
  - cbn [step]. rewrite Htimer. cbn [fst snd].
    rewrite promise_declineAndClose by exact Hpending.
    unfold declineAndClose at 1. rewrite closing_close.
    rewrite storage_declineAndClose. auto.
  - intros w ->. cbn [step].
    change (c_confirmWinId P) with (Some w).
    rewrite bool_decide_eq_true_2 by reflexivity.
    change (winRemovedListening (set_windowOpen false c)) with (winRemovedListening c).
    rewrite Hwin. cbn [fst]. unfold handleWinRemoved.
    change (c_confirmWinId P) with (Some w).
    rewrite bool_decide_eq_true_2 by reflexivity.
    rewrite promise_declineAndClose by exact Hpending.
    unfold declineAndClose at 1. rewrite closing_close.
    rewrite storage_declineAndClose. auto.
  - intros port req Hport Hdec Hno. cbn [step]. rewrite Hlisten.
    unfold onRequest. rewrite (isDecision_not_getPayload P req Hdec).
    rewrite bool_decide_eq_true_2 by exact Hport. cbn [negb].
    rewrite (handle_start_decline_response P c req Hdec Hno).
    cbn [after_handler fst snd].
    change (close P (onDecline c)) with (declineAndClose P c).
    rewrite promise_declineAndClose by exact Hpending.
    unfold declineAndClose at 1. rewrite closing_close.
    rewrite storage_declineAndClose. auto.
Qed.

Lemma X14_decline_paths_witness :
  let P := Sample.opsParams in
  let c := run P Sample.opsConfirm [Message 1 (DAppGetPayloadRequest "id-1")] in
  promise (fst (step P c TimerFired)) = RejectedWith (Error (Code NotGranted))
  /\ promise (fst (step P c (WindowRemoved 7))) = RejectedWith (Error (Code NotGranted))
  /\ snd (step P c (Message 1 (DAppOpsConfirmationRequest "id-1" false))) =
     Respond DAppOpsConfirmationResponse.
Proof.
  intros P c.
  pose proof (X14_decline_paths "id-1" Sample.opsPayload
                (OpsHandler Sample.session Sample.rpcURL Sample.opParams) (Some 7%Z)
                Sample.store [Message 1 (DAppGetPayloadRequest "id-1")]
                ltac:(reflexivity)) as [[Htimer _] [Hwindow Hdecline]].
  split; [exact (proj1 Htimer)|].
  split; [exact (proj1 (Hwindow 7%Z eq_refl))|].
  exact (proj2 (Hdecline 1 (DAppOpsConfirmationRequest "id-1" false)
                  ltac:(reflexivity) ltac:(reflexivity) ltac:(reflexivity))).
Defined.

(** ** After the promise is settled *)

(** X15.  In a confirmation opened by [requestConfirm], once the promise of
    the caller is settled, a message on any channel, the timer and the
    removal of a window change neither the promise nor the effects nor the
    storage and are given no response: only the completion of a call that
    was already awaited can still act. *)
Theorem X15_settled_is_final
    (id : string) (payload : ThanosDAppPayload) (handler : Handler)
    (winId : option Z) (st : Storage) (evs : list Event)
    (port : Port) (req : ThanosRequest) (w : Z) :
  let P := fst (requestConfirm id payload handler winId st) in
  let c := run P (snd (requestConfirm id payload handler winId st)) evs in
  promise c <> Pending ->
  step P c (Message port req) = (c, Ignored)
  /\ step P c TimerFired = (c, Ignored)
  /\ snd (step P c (WindowRemoved w)) = Ignored
  /\ promise (fst (step P c (WindowRemoved w))) = promise c
  /\ log (fst (step P c (WindowRemoved w))) = log c
  /\ storage (fst (step P c (WindowRemoved w))) = storage c.
Proof.
  intros P c Hsettled.
  destruct (opened_settled id payload handler winId st evs Hsettled)
    as [Hclosed [Htimer [Hlisten Hwin]]].
  fold P in Hclosed, Htimer, Hlisten, Hwin. fold c in Hclosed, Htimer, Hlisten, Hwin.
  cbn [step]. rewrite Hlisten, Htimer.
  split; [reflexivity|]. split; [reflexivity|].
  destruct (bool_decide (c_confirmWinId P = Some w)).
  - change (winRemovedListening (set_windowOpen false c)) with (winRemovedListening c).
    rewrite Hwin. cbn. auto.
  - rewrite Hwin. cbn. auto.
Qed.

Lemma X15_settled_is_final_witness :
  let P := Sample.opsParams in
  let c := run P Sample.opsConfirm [Message 1 (DAppGetPayloadRequest "id-1"); TimerFired] in
  step P c (Message 1 (DAppOpsConfirmationRequest "id-1" true)) = (c, Ignored).
Proof.
  intros P c.
  exact (proj1 (X15_settled_is_final "id-1" Sample.opsPayload
                  (OpsHandler Sample.session Sample.rpcURL Sample.opParams) (Some 7%Z)
                  Sample.store [Message 1 (DAppGetPayloadRequest "id-1"); TimerFired]
                  1 (DAppOpsConfirmationRequest "id-1" true) 0%Z
                  ltac:(vm_compute; discriminate))).
Defined.

(** ** The calls of the vault *)

Lemma vaultCalls_app (l l' : list Effect) :
  vaultCalls (l ++ l') = vaultCalls l ++ vaultCalls l'.
Proof. apply List.filter_app. Qed.

Lemma vaultCalls_vaultCall (P : ConfirmParams) : vaultCalls (vaultCall P) = vaultCall P.
Proof. unfold vaultCall. destruct (c_handler P); reflexivity. Qed.

Lemma vaultCalls_close (P : ConfirmParams) (c : Confirm) :
  vaultCalls (log (close P c)) = vaultCalls (log c).
Proof.
  close_cases P c; [reflexivity|]. cbn [log]. rewrite !vaultCalls_app.
  destruct (removesWindow P c); cbn; rewrite app_nil_r; reflexivity.
Qed.

Lemma vaultCalls_onDecline (c : Confirm) :
  vaultCalls (log (onDecline c)) = vaultCalls (log c).
Proof. cbn. rewrite vaultCalls_app. cbn. apply app_nil_r. Qed.

Lemma vaultCalls_declineAndClose (P : ConfirmParams) (c : Confirm) :
  vaultCalls (log (declineAndClose P c)) = vaultCalls (log c).
Proof. unfold declineAndClose. rewrite vaultCalls_close. apply vaultCalls_onDecline. Qed.

Lemma vaultCalls_handle_resume (P : ConfirmParams) (c : Confirm) (req : ThanosRequest)
    (result : Completion string) (ledger : bool) :
  vaultCalls (log (fst (handle_resume P c req result ledger))) = vaultCalls (log c).
Proof.
  unfold handle_resume.
  destruct (c_handler P), req; try reflexivity; destruct result as [v|e];
    try reflexivity; try destruct ledger;
    try destruct (instanceofTezosOperationError e);
    cbn; rewrite ?vaultCalls_app; cbn; rewrite ?app_nil_r; reflexivity.
Qed.

Lemma vaultCalls_after_handler (P : ConfirmParams) (c : Confirm)
    (res : Completion (option ThanosResponse)) :
  vaultCalls (log (fst (after_handler P c res))) = vaultCalls (log c).
Proof.
  destruct res as [[r|]|e]; cbn [after_handler fst]; auto using vaultCalls_close.
Qed.

(** One callback calls the vault exactly when it is an accepted approval. *)
Lemma vaultCalls_step (P : ConfirmParams) (c : Confirm) (ev : Event) :
  vaultCalls (log (fst (step P c ev))) =
  vaultCalls (log c) ++ (if acceptsApproval P c ev then vaultCall P else []).
Proof.
  destruct ev as [port req|i result ledger| |w]; cbn [step acceptsApproval].
  - destruct (requestListening c); [|cbn; symmetry; apply app_nil_r].
    unfold onRequest. cbn [andb].
    destruct (isGetPayloadFor (c_id P) req) eqn:Hget.
    + assert (isApproval P req = false) as ->.
      { destruct (isApproval P req) eqn:Happ; [|reflexivity].
        apply isApproval_isDecision, isDecision_not_getPayload in Happ. congruence. }
      rewrite andb_false_r. cbn. symmetry. apply app_nil_r.
    + destruct (bool_decide (knownPort c = Some port));
        [|cbn; symmetry; apply app_nil_r].
      cbn [negb andb].
      destruct (isDecision P req) eqn:Hdec.
      * destruct (isApproval P req) eqn:Happ.
        -- destruct (handle_start_approval P c req Happ) as [Hs [Hlog _]].
           destruct (handle_start P c req) as [c' status]. cbn [fst snd] in *.
           subst status. cbn [fst]. cbn [log set_suspended].
           rewrite Hlog, vaultCalls_app, vaultCalls_vaultCall. reflexivity.
        -- rewrite (handle_start_decline_response P c req Hdec Happ).
           rewrite vaultCalls_after_handler, vaultCalls_onDecline.
           symmetry. apply app_nil_r.
      * assert (isApproval P req = false) as ->.
        { unfold isApproval. rewrite Hdec. reflexivity. }
        rewrite (handle_start_other P c req Hdec). cbn. symmetry. apply app_nil_r.
  - rewrite app_nil_r. destruct (suspended c !! i) as [req|]; [|reflexivity].
    pose proof (vaultCalls_handle_resume P (set_suspended (delete i (suspended c)) c)
                  req result ledger) as Hres.
    destruct (handle_resume P _ req result ledger) as [c' res]. cbn [fst] in *.
    rewrite vaultCalls_after_handler. exact Hres.
  - rewrite app_nil_r. destruct (timerPending c); [|reflexivity]. cbn [fst].
    rewrite vaultCalls_declineAndClose. reflexivity.
  - rewrite app_nil_r.
    set (c1 := if bool_decide (c_confirmWinId P = Some w)
               then set_windowOpen false c else c).
    assert (log c1 = log c) as Hlog.
    { subst c1. destruct (bool_decide (c_confirmWinId P = Some w)); reflexivity. }
    destruct (winRemovedListening c1); cbn [fst]; [|rewrite Hlog; reflexivity].
    unfold handleWinRemoved.
    destruct (bool_decide (c_confirmWinId P = Some w)); [|rewrite Hlog; reflexivity].
    rewrite vaultCalls_declineAndClose, Hlog. reflexivity.
Qed.

Lemma vaultCalls_run (P : ConfirmParams) (evs : list Event) (c : Confirm) :
  vaultCalls (log (run P c evs)) =
  vaultCalls (log c) ++ concat (repeat (vaultCall P) (approvalsAccepted P c evs)).
Proof.
  revert c. induction evs as [|ev evs IH]; intros c.
  - cbn. symmetry. apply app_nil_r.
  - cbn [run approvalsAccepted]. rewrite IH, vaultCalls_step.
    destruct (acceptsApproval P c ev); cbn [Nat.add repeat concat].
    + rewrite <- app_assoc. reflexivity.
    + rewrite app_nil_r. reflexivity.
Qed.

(** X17.  In a confirmation opened by [requestConfirm], after any sequence
    of callbacks, the calls of the vault are: one per approval that arrived
    on the bound channel while the listener was attached, each with the
    account, the endpoint and the operations (or the payload to sign) that
    the handler captured, and no other.  So nothing but an approval of the
    bound channel calls the vault; and an approval that arrives twice, the
    second while the first is still awaited, calls it twice. *)
Theorem X17_vault_called_once_per_approval
    (id : string) (payload : ThanosDAppPayload) (handler : Handler)
    (winId : option Z) (st : Storage) (evs : list Event) :
  let P := fst (requestConfirm id payload handler winId st) in
  let c0 := snd (requestConfirm id payload handler winId st) in
  vaultCalls (log (run P c0 evs)) =
    concat (repeat (vaultCall P) (approvalsAccepted P c0 evs))
  /\ (forall port req,
        isApproval P req = true ->
        vaultCalls
          (log (run P c0 [Message port (DAppGetPayloadRequest id);
                          Message port req; Message port req])) =
        vaultCall P ++ vaultCall P).
Proof.
  intros P c0. split; [rewrite vaultCalls_run; reflexivity|].
  intros port req Happ. rewrite vaultCalls_run.
  assert (isGetPayloadFor (c_id P) req = false) as Hget.
  { apply isDecision_not_getPayload, isApproval_isDecision, Happ. }
  set (c1 := fst (step P c0 (Message port (DAppGetPayloadRequest id)))).
  assert (knownPort c1 = Some port /\ requestListening c1 = true) as [Hport1 Hlisten1].
  { subst c1. cbn [step]. change (requestListening c0) with true. cbv iota.
    unfold onRequest. change (c_id P) with id. cbn [isGetPayloadFor].
    rewrite String.eqb_refl. split; reflexivity. }
  set (c2 := fst (step P c1 (Message port req))).
  assert (knownPort c2 = Some port /\ requestListening c2 = true) as [Hport2 Hlisten2].
  { subst c2. split.
    - rewrite knownPort_step, Hget, andb_false_r. exact Hport1.
    - cbn [step]. rewrite Hlisten1. unfold onRequest. rewrite Hget.
      rewrite bool_decide_eq_true_2 by exact Hport1. cbn [negb].
      destruct (handle_start_approval P c1 req Happ) as [Hs _].
      pose proof (guard_handle_start P c1 req) as Hguard.
      destruct (handle_start P c1 req) as [c' status]. cbn [fst snd] in *.
      subst status. cbn [fst].
      change (requestListening (set_suspended (suspended c' ++ [req]) c'))
        with (requestListening c').
      unfold guard in Hguard. congruence. }
  assert (isApproval P (DAppGetPayloadRequest id) = false) as Hhandshake.
  { unfold isApproval, isDecision. destruct (c_handler P); reflexivity. }
  cbn [approvalsAccepted acceptsApproval]. fold c1. fold c2.
  rewrite Hhandshake, andb_false_r, Hlisten1, Hlisten2, Happ.
  rewrite (bool_decide_eq_true_2 _ Hport1), (bool_decide_eq_true_2 _ Hport2).
  cbn. rewrite app_nil_r. reflexivity.
Qed.

Lemma X17_vault_called_once_per_approval_witness :
  vaultCalls
    (log (run Sample.opsParams Sample.opsConfirm
            [Message 1 (DAppGetPayloadRequest "id-1");
             Message 1 (DAppOpsConfirmationRequest "id-1" true);
             Message 1 (DAppOpsConfirmationRequest "id-1" true)])) =
  [EVaultSendOperations "tz1Alice" Sample.rpcURL Sample.opParams;
   EVaultSendOperations "tz1Alice" Sample.rpcURL Sample.opParams].
Proof.
  exact (proj2 (X17_vault_called_once_per_approval "id-1" Sample.opsPayload
                  (OpsHandler Sample.session Sample.rpcURL Sample.opParams) (Some 7%Z)
                  Sample.store [])
           1 (DAppOpsConfirmationRequest "id-1" true) eq_refl).
Defined.

(** ** A settled promise and the runs that are still suspended *)

Lemma resolve_settled (p : Promise) (r : ThanosDAppResponse) :
  p <> Pending -> resolve p r = p.
Proof. destruct p; [congruence|reflexivity..]. Qed.

Lemma reject_settled (p : Promise) (e : JsError) : p <> Pending -> reject p e = p.
Proof. destruct p; [congruence|reflexivity..]. Qed.

Lemma promise_handle_resume_settled (P : ConfirmParams) (c : Confirm)
    (req : ThanosRequest) (result : Completion string) (ledger : bool) :
  promise c <> Pending ->
  promise (fst (handle_resume P c req result ledger)) = promise c.
Proof.
  intros Hsettled. unfold handle_resume.
  destruct (c_handler P), req; try reflexivity; destruct result as [v|e];
    try reflexivity; try destruct ledger;
    try destruct (instanceofTezosOperationError e);
    cbn; rewrite ?resolve_settled, ?reject_settled by exact Hsettled; reflexivity.
Qed.

(** Once settled, the promise is the same after every callback. *)
Lemma promise_step_settled (P : ConfirmParams) (c : Confirm) (ev : Event) :
  promise c <> Pending -> promise (fst (step P c ev)) = promise c.
Proof.
  intros Hsettled.
  assert (forall c', promise c' = promise c ->
                     promise (declineAndClose P c') = promise c) as Hdecline.
  { intros c' Hc'. unfold declineAndClose. rewrite promise_close. cbn.
    rewrite Hc'. apply reject_settled. exact Hsettled. }
  destruct ev as [port req|i result ledger| |w]; cbn [step].
  - destruct (requestListening c); [|reflexivity]. unfold onRequest.
    destruct (isGetPayloadFor (c_id P) req); [reflexivity|].
    destruct (bool_decide (knownPort c = Some port)); [|reflexivity]. cbn [negb].
    destruct (isDecision P req) eqn:Hdec.
    + destruct (isApproval P req) eqn:Happ.
      * destruct (handle_start_approval P c req Happ) as [Hs [_ [Hp _]]].
        destruct (handle_start P c req) as [c' status]. cbn [fst snd] in *.
        subst status. exact Hp.
      * rewrite (handle_start_decline_response P c req Hdec Happ).
        cbn [after_handler fst]. apply (Hdecline c). reflexivity.
    + rewrite (handle_start_other P c req Hdec). reflexivity.
  - destruct (suspended c !! i) as [req|]; [|reflexivity].
    pose proof (promise_handle_resume_settled P
                  (set_suspended (delete i (suspended c)) c) req result ledger Hsettled)
      as Hres.
    destruct (handle_resume P _ req result ledger) as [c' res]. cbn [fst] in *.
    destruct res as [[r|]|e]; cbn [after_handler fst]; rewrite ?promise_close;
      exact Hres.
  - destruct (timerPending c); [|reflexivity]. cbn [fst]. apply Hdecline. reflexivity.
  - set (c1 := if bool_decide (c_confirmWinId P = Some w)
               then set_windowOpen false c else c).
    assert (promise c1 = promise c) as Hc1.
    { subst c1. destruct (bool_decide (c_confirmWinId P = Some w)); reflexivity. }
    destruct (winRemovedListening c1); cbn [fst]; [|exact Hc1].
    unfold handleWinRemoved.
    destruct (bool_decide (c_confirmWinId P = Some w)); [|exact Hc1].
    apply Hdecline. exact Hc1.
Qed.

Lemma promise_run_settled (P : ConfirmParams) (evs : list Event) (c : Confirm) :
  promise c <> Pending -> promise (run P c evs) = promise c.
Proof.
  revert c. induction evs as [|ev evs IH]; intros c Hsettled; [reflexivity|].
  cbn [run]. rewrite IH; rewrite promise_step_settled by exact Hsettled;
    [reflexivity|exact Hsettled].
Qed.

Lemma length_delete_le {A : Type} (l : list A) (i : nat) :
  length (delete i l) <= length l.
Proof.
  revert i. induction l as [|x l IH]; intros [|i]; simpl; try lia.
  specialize (IH i). lia.
Qed.

(** No more runs are suspended than approvals were accepted. *)
Lemma suspended_step (P : ConfirmParams) (c : Confirm) (ev : Event) :
  length (suspended (fst (step P c ev))) <=
  length (suspended c) + (if acceptsApproval P c ev then 1 else 0).
Proof.
  destruct ev as [port req|i result ledger| |w]; cbn [step acceptsApproval].
  - destruct (requestListening c); [|cbn; lia]. unfold onRequest. cbn [andb].
    destruct (isGetPayloadFor (c_id P) req); [cbn; lia|].
    destruct (bool_decide (knownPort c = Some port)); [|cbn; lia]. cbn [negb andb].
    pose proof (suspended_handle_start P c req) as Hsusp.
    pose proof (handle_start_await P c req) as Hawait.
    destruct (handle_start P c req) as [c' [result|]]; cbn [fst snd] in *.
    + rewrite suspended_after_handler, Hsusp. lia.
    + rewrite (Hawait eq_refl). cbn. rewrite length_app, Hsusp. cbn. lia.
  - destruct (suspended c !! i) as [req|]; [|cbn [fst]; lia].
    pose proof (suspended_handle_resume P (set_suspended (delete i (suspended c)) c)
                  req result ledger) as Hres.
    destruct (handle_resume P _ req result ledger) as [c' res]. cbn [fst] in *.
    rewrite suspended_after_handler, Hres. cbn.
    pose proof (length_delete_le (suspended c) i). lia.
  - destruct (timerPending c); [|cbn [fst]; lia]. cbn [fst]. unfold declineAndClose.
    rewrite suspended_close. cbn. lia.
  - set (c1 := if bool_decide (c_confirmWinId P = Some w)
               then set_windowOpen false c else c).
    assert (suspended c1 = suspended c) as Hc1.
    { subst c1. destruct (bool_decide (c_confirmWinId P = Some w)); reflexivity. }
    clearbody c1.
    destruct (winRemovedListening c1); cbn [fst]; [|rewrite Hc1; lia].
    unfold handleWinRemoved.
    destruct (bool_decide (c_confirmWinId P = Some w)); [|rewrite Hc1; lia].
    unfold declineAndClose. rewrite suspended_close. cbn. rewrite Hc1. lia.
Qed.

Lemma suspended_run (P : ConfirmParams) (evs : list Event) (c : Confirm) :
  length (suspended (run P c evs)) <= length (suspended c) + approvalsAccepted P c evs.
Proof.
  revert c. induction evs as [|ev evs IH]; intros c; [cbn; lia|].
  cbn [run approvalsAccepted]. specialize (IH (fst (step P c ev))).
  pose proof (suspended_step P c ev). lia.
Qed.

(** A suspended run of an operation or sign flow has called the vault. *)
Lemma suspended_vault_called
    (id : string) (payload : ThanosDAppPayload) (handler : Handler)
    (winId : option Z) (st : Storage) (evs : list Event) (e : Effect) :
  let P := fst (requestConfirm id payload handler winId st) in
  let c := run P (snd (requestConfirm id payload handler winId st)) evs in
  suspended c <> [] -> In e (vaultCall P) -> In e (log c).
Proof.
  intros P c Hsusp He.
  assert (In e (vaultCalls (log c))) as Hin; [|apply List.filter_In in Hin; tauto].
  subst c. rewrite vaultCalls_run. cbn [log requestConfirm snd app].
  pose proof (suspended_run P evs (snd (requestConfirm id payload handler winId st)))
    as Hle.
  cbn [suspended requestConfirm snd length Nat.add] in Hle.
  destruct (approvalsAccepted P _ evs) as [|n].
  - destruct (suspended (run P _ evs)); [congruence|cbn in Hle; lia].
  - apply List.in_or_app. right. cbn [repeat concat].
    apply List.in_or_app. left. exact He.
Qed.

(** X16.  An approval that is overtaken by the timer.  In an operation
    confirmation whose promise is pending while an approved submission is
    awaited, if the timer fires first, the promise is rejected with
    [NotGranted] and stays so whatever follows; when the submission then
    succeeds, the decision is answered and the operation hash is dropped:
    the vault was called for the operations, yet the requester is told
    that nothing was granted. *)
Theorem X16_approval_overtaken_by_timer
    (id : string) (payload : ThanosDAppPayload)
    (dApp : ThanosDAppSession) (networkRpc : string) (opParams : list OpParam)
    (winId : option Z) (st : Storage) (evs later : list Event)
    (i : nat) (req : ThanosRequest) (opHash : string) (ledger : bool) :
  let handler := OpsHandler dApp networkRpc opParams in
  let P := fst (requestConfirm id payload handler winId st) in
  let c := run P (snd (requestConfirm id payload handler winId st)) evs in
  let c1 := fst (step P c TimerFired) in
  let out := step P c1 (Completed i (Normal opHash) ledger) in
  promise c = Pending ->
  suspended c !! i = Some req ->
  promise c1 = RejectedWith (Error (Code NotGranted))
  /\ promise (fst out) = RejectedWith (Error (Code NotGranted))
  /\ promise (run P (fst out) later) = RejectedWith (Error (Code NotGranted))
  /\ snd out = Respond DAppOpsConfirmationResponse
  /\ In (EVaultSendOperations (dapp_pkh dApp) networkRpc opParams) (log (fst out))
  /\ In (EResolve (OperationResponse opHash)) (log (fst out)).
Proof.
  intros handler P c c1 out Hpending Hreq.
  destruct (opened_pending id payload handler winId st evs Hpending)
    as [Hopen [Htimer _]].
  fold P in Hopen, Htimer. fold c in Hopen, Htimer.
  assert (c1 = declineAndClose P (set_timerPending false c)) as Hc1.
  { subst c1. cbn [step]. rewrite Htimer. reflexivity. }
  assert (promise c1 = RejectedWith (Error (Code NotGranted))) as Hp1.
  { rewrite Hc1. apply promise_declineAndClose. exact Hpending. }
  assert (suspended c1 = suspended c) as Hs1.
  { rewrite Hc1. unfold declineAndClose. rewrite suspended_close. reflexivity. }
  assert (isApproval P req = true) as Happroved.
  { assert (approvalsOnly P c) as Happ by (apply approvalsOnly_run; constructor).
    unfold approvalsOnly in Happ. rewrite Forall_forall in Happ.
    apply Happ. eapply list_elem_of_lookup_2. exact Hreq. }
  assert (promise (fst out) = RejectedWith (Error (Code NotGranted))) as Hp2.
  { subst out. rewrite promise_step_settled; [exact Hp1|]. rewrite Hp1. discriminate. }
  split; [exact Hp1|]. split; [exact Hp2|].
  split; [rewrite promise_run_settled; [exact Hp2|rewrite Hp2; discriminate]|].
  assert (In (EVaultSendOperations (dapp_pkh dApp) networkRpc opParams) (log c)) as Hvault.
  { apply (suspended_vault_called id payload handler winId st evs).
    - fold P. fold c. intros Hnil. rewrite Hnil in Hreq. discriminate Hreq.
    - left. reflexivity. }
  assert (exists l, log c1 = log c ++ l) as [l1 Hl1].
  { rewrite Hc1. unfold declineAndClose.
    close_cases P (onDecline (set_timerPending false c)); cbn [log];
      cbn; rewrite <- ?app_assoc; eauto. }
  subst out. cbn [step]. rewrite Hs1, Hreq.
  unfold isApproval, isDecision in Happroved. unfold handle_resume.
  change (c_handler P) with handler in *. subst handler. cbv iota in *.
  destruct req as [rid|rid cf h k|rid cf|rid cf|]; try discriminate Happroved.
  cbn [after_handler fst snd]. split; [reflexivity|].
  rewrite close_closed.
  2:{ cbn. destruct ledger; cbn; rewrite Hc1; unfold declineAndClose;
        apply closing_close. }
  split.
  - destruct ledger; cbn; rewrite Hl1; rewrite !in_app_iff; auto.
  - destruct ledger; cbn; rewrite !in_app_iff; cbn; auto.
Qed.

Lemma X16_approval_overtaken_by_timer_witness :
  let P := Sample.opsParams in
  let c := run P Sample.opsConfirm
             [Message 1 (DAppGetPayloadRequest "id-1");
              Message 1 (DAppOpsConfirmationRequest "id-1" true)] in
  let out := step P (fst (step P c TimerFired)) (Completed 0 (Normal "opHash") true) in
  promise (fst out) = RejectedWith (Error (Code NotGranted))
  /\ In (EVaultSendOperations "tz1Alice" Sample.rpcURL Sample.opParams) (log (fst out)).
Proof.
  intros P c out.
  pose proof (X16_approval_overtaken_by_timer "id-1" Sample.opsPayload
                Sample.session Sample.rpcURL Sample.opParams (Some 7%Z) Sample.store
                [Message 1 (DAppGetPayloadRequest "id-1");
                 Message 1 (DAppOpsConfirmationRequest "id-1" true)] []
                0 (DAppOpsConfirmationRequest "id-1" true) "opHash" true
                ltac:(reflexivity) ltac:(reflexivity))
    as [_ [Hpromise [_ [_ [Hvault _]]]]].
  split; [exact Hpromise|exact Hvault].
Defined.

(** ** The success of an approved action *)



(** ** The storage under a confirmation *)







(** ** Messages of other confirmations *)

(** X20.  A message that does not carry the id of the confirmation, on any
    channel and in any state, changes nothing and is given no response: the
    handshake and the decisions of one confirmation never act on
    another. *)
Theorem X20_other_id_ignored
    (P : ConfirmParams) (c : Confirm) (port : Port) (req : ThanosRequest) :
  requestId req <> Some (c_id P) ->
  step P c (Message port req) = (c, Ignored).
Proof.
  intros Hid. cbn [step]. destruct (requestListening c); [|reflexivity].
  unfold onRequest.
  assert (isGetPayloadFor (c_id P) req = false) as ->.
  { destruct req; try reflexivity. cbn in *.
    apply String.eqb_neq. congruence. }
  destruct (bool_decide (knownPort c = Some port)); [|reflexivity]. cbn [negb].
  rewrite handle_start_other; [reflexivity|].
  unfold isDecision. destruct (c_handler P), req; try reflexivity;
    cbn in Hid; apply String.eqb_neq; congruence.
Qed.

Lemma X20_other_id_ignored_witness :
  let c := run Sample.opsParams Sample.opsConfirm
             [Message 1 (DAppGetPayloadRequest "id-1")] in
  step Sample.opsParams c (Message 1 (DAppOpsConfirmationRequest "id-2" true)) =
  (c, Ignored).
Proof.
  intros c.
  exact (X20_other_id_ignored Sample.opsParams c 1
           (DAppOpsConfirmationRequest "id-2" true) ltac:(discriminate)).
Defined.

(** ** What is shown is what is signed *)

Lemma everyKindIsString_true (ops : list OpParam) :
  everyKindIsString ops = Normal true ->
  Forall (fun op => exists kind, op = OpObject (Some kind)) ops.
Proof.
  induction ops as [|[|[k|]] ops IH]; cbn; try discriminate.
  - constructor.
  - intros H. constructor; eauto.
Qed.

(** A request that passes the validation of [requestOperation] has a valid
    address and a non-empty list of operations, each with a string kind. *)
Lemma validOperationRequest_true
    (isAddressValid : option string -> bool) (req : ThanosDAppOperationRequest) :
  validOperationRequest isAddressValid req = Normal true ->
  isAddressValid (op_sourcePkh req) = true
  /\ exists ops, op_opParams req = Some ops /\ ops <> []
                 /\ Forall (fun op => exists kind, op = OpObject (Some kind)) ops.
Proof.
  unfold validOperationRequest, everyBoolean.
  destruct (op_opParams req) as [ops|]; cbn.
  - destruct (everyKindIsString ops) as [b|e] eqn:Hevery; cbn; [|discriminate].
    intros [= Hall]. rewrite !andb_true_iff in Hall.
    destruct Hall as [Haddr [Hlen [Hb _]]]. subst b.
    split; [exact Haddr|]. exists ops. split; [reflexivity|]. split.
    + destruct ops; [discriminate Hlen|discriminate].
    + apply everyKindIsString_true. exact Hevery.
  - intros [= Hall]. rewrite andb_false_r in Hall. discriminate.
Qed.

(** X21.  The confirmation that [requestOperation] opens shows what will be
    done on approval: its payload carries the operations of the request (a
    non-empty list, each with a string kind), the address of the request,
    which is the session's, and the endpoint of the session's network, and
    the call its handler makes to the vault on approval is for that
    account, that endpoint and those operations.  The same holds for
    [requestSign]: the payload shows the normalised hexadecimal payload of
    the request, and that payload is what the vault is asked to sign, with
    the session's account. *)
Theorem X21_shown_is_signed
    (NETWORKS : list ThanosNetwork) (isAddressValid : option string -> bool)
    (emitMichelineValue : string -> Completion string)
    (localForger_parse : string -> Completion ForgedOperation)
    (st : Storage) (id : string) (winId : option Z) (origin : string)
    (opReq : ThanosDAppOperationRequest) (signReq : ThanosDAppSignRequest)
    (effs : list Effect) (P : ConfirmParams) (c : Confirm) :
  (requestOperation NETWORKS isAddressValid st id winId origin opReq =
     {| effects := effs; settlement := Confirming P c |} ->
   exists dApp networkRpc opParams,
     getDApp st origin = Some dApp
     /\ getNetworkRPC NETWORKS (dapp_network dApp) = Normal networkRpc
     /\ op_sourcePkh opReq = Some (dapp_pkh dApp)
     /\ op_opParams opReq = Some opParams
     /\ opParams <> []
     /\ Forall (fun op => exists kind, op = OpObject (Some kind)) opParams
     /\ c_payload P =
        PayloadConfirmOperations origin networkRpc (dapp_appMeta dApp)
          (dapp_pkh dApp) (dapp_publicKey dApp) opParams
     /\ vaultCall P = [EVaultSendOperations (dapp_pkh dApp) networkRpc opParams])
  /\ (requestSign NETWORKS isAddressValid emitMichelineValue localForger_parse
        st id winId origin signReq =
        {| effects := effs; settlement := Confirming P c |} ->
      exists dApp networkRpc raw preview,
        getDApp st origin = Some dApp
        /\ getNetworkRPC NETWORKS (dapp_network dApp) = Normal networkRpc
        /\ sign_sourcePkh signReq = Some (dapp_pkh dApp)
        /\ sign_payload (normalizeSignRequest signReq) = Some raw
        /\ HEX_PATTERN raw = true
        /\ c_payload P =
           PayloadSign origin networkRpc (dapp_appMeta dApp) (dapp_pkh dApp) raw preview
        /\ vaultCall P = [EVaultSign (dapp_pkh dApp) raw]).
Proof.
  split.
  - unfold requestOperation.
    destruct (validOperationRequest isAddressValid opReq) as [[|]|e] eqn:Hvalid;
      try discriminate.
    destruct (validOperationRequest_true _ _ Hvalid) as [_ [ops [Hops [Hne Hkinds]]]].
    destruct (getDApp st origin) as [dApp|] eqn:HdApp; [|discriminate].
    destruct (bool_decide (op_sourcePkh opReq = Some (dapp_pkh dApp))) eqn:Hpkh;
      [|discriminate].
    apply bool_decide_eq_true_1 in Hpkh. cbn [negb].
    destruct (getNetworkRPC NETWORKS (dapp_network dApp)) as [r|e] eqn:Hrpc;
      [|discriminate].
    rewrite Hops, Hpkh. cbn. intros [= _ <- _].
    exists dApp, r, ops. repeat (split; [solve [auto]|]). reflexivity.
  - unfold requestSign.
    destruct (everyBoolean _) eqn:Hvalid; [|discriminate]. cbn [negb].
    destruct (getDApp st origin) as [dApp|] eqn:HdApp; [|discriminate].
    destruct (bool_decide (sign_sourcePkh (normalizeSignRequest signReq)
                           = Some (dapp_pkh dApp))) eqn:Hpkh; [|discriminate].
    apply bool_decide_eq_true_1 in Hpkh. cbn [negb].
    destruct (getNetworkRPC NETWORKS (dapp_network dApp)) as [r|e] eqn:Hrpc;
      [|discriminate].
    unfold everyBoolean in Hvalid. cbn [forallb] in Hvalid.
    rewrite !andb_true_iff in Hvalid. destruct Hvalid as [_ [Hhex _]].
    unfold testHex in Hhex.
    destruct (sign_payload (normalizeSignRequest signReq)) as [raw|] eqn:Hraw;
      [|discriminate].
    rewrite Hpkh. cbn. intros [= _ <- _].
    exists dApp, r, raw, (buildPreview emitMichelineValue localForger_parse raw).
    assert (sign_sourcePkh signReq = Some (dapp_pkh dApp)) as Hsrc.
    { rewrite <- Hpkh. unfold normalizeSignRequest.
      destruct (sign_payload signReq) as [p|]; [|reflexivity].
      destruct (startsWith "0x" p); reflexivity. }
    repeat (split; [solve [auto]|]). reflexivity.
Qed.

Lemma X21_shown_is_signed_witness :
  exists P c dApp networkRpc opParams,
    settlement (requestOperation Sample.NETWORKS Sample.isAddressValid Sample.store
                  "id-1" (Some 7%Z) Sample.origin Sample.operationRequest) =
      Confirming P c
    /\ c_payload P =
       PayloadConfirmOperations Sample.origin networkRpc (dapp_appMeta dApp)
         (dapp_pkh dApp) (dapp_publicKey dApp) opParams
    /\ vaultCall P = [EVaultSendOperations (dapp_pkh dApp) networkRpc opParams].
Proof.
  eexists _, _.
  destruct (proj1 (X21_shown_is_signed Sample.NETWORKS Sample.isAddressValid
                     Sample.emitMichelineValue Sample.localForger_parse Sample.store
                     "id-1" (Some 7%Z) Sample.origin Sample.operationRequest
                     Sample.signRequest _ Sample.opsParams Sample.opsConfirm)
              eq_refl)
    as [dApp [networkRpc [opParams [_ [_ [_ [_ [_ [_ [Hpayload Hcall]]]]]]]]]].
  exists dApp, networkRpc, opParams.
  split; [reflexivity|]. split; [exact Hpayload|exact Hcall].
Defined.

(** ** The approval window *)

(** X22.  The window [requestConfirm] creates, for a current window whose
    position and size are whole numbers of magnitude at most [2 ^ 50]: it
    is 380 by 600 (396 by 617 on Windows), never closer than 20 pixels to
    the top or to the left of the screen, and, where that bound does not
    apply, a 380 by 600 rectangle at its position has its centre within
    half a pixel of the centre of the current window, in both
    directions. *)
Theorem X22_confirm_window_geometry (win : BrowserWindow) (isWin : bool) (id : string) :
  exactCoordinates win = true ->
  let created := confirmWindow win isWin id in
  (20 <= create_top created /\ 20 <= create_left created)%Z
  /\ (create_width created, create_height created) =
     (if isWin then (396, 617) else (380, 600))%Z
  /\ (639 <= 2 * win_top win + win_height win ->
      0 <= 2 * create_top created + CONFIRM_WINDOW_HEIGHT
           - (2 * win_top win + win_height win) <= 1)%Z
  /\ (419 <= 2 * win_left win + win_width win ->
      0 <= 2 * create_left created + CONFIRM_WINDOW_WIDTH
           - (2 * win_left win + win_width win) <= 1)%Z.
Proof.
  intros _.
  cbv zeta. unfold confirmWindow, roundHalf, CONFIRM_WINDOW_HEIGHT, CONFIRM_WINDOW_WIDTH.
  cbn [create_top create_left create_width create_height].
  split; [lia|]. split; [destruct isWin; reflexivity|].
  split; intros Hbig; Z.div_mod_to_equations; lia.
Qed.

Lemma X22_confirm_window_geometry_witness :
  let created :=
    confirmWindow {| win_top := 100; win_left := 0; win_width := 1280; win_height := 801 |}
      false "id-1" in
  (0 <= 2 * create_top created + CONFIRM_WINDOW_HEIGHT - (2 * 100 + 801) <= 1)%Z
  /\ (0 <= 2 * create_left created + CONFIRM_WINDOW_WIDTH - (2 * 0 + 1280) <= 1)%Z.
Proof.
  intros created.
  pose proof (X22_confirm_window_geometry
                {| win_top := 100; win_left := 0; win_width := 1280; win_height := 801 |}
                false "id-1" ltac:(reflexivity))
    as [_ [_ [Htop Hleft]]].
  split; [apply Htop; cbn; lia|apply Hleft; cbn; lia].
Defined.

(** ** The pages of the operation history *)

Lemma operationsTransformFn_from {A B : Type} (pages : list (MixedPage A B))
    (acc : list A * list B) :
  fold_left
    (fun acc pageData =>
       (fst acc ++ bcd_transfers pageData, snd acc ++ tzkt pageData))
    pages acc =
  (fst acc ++ concat (map bcd_transfers pages), snd acc ++ concat (map tzkt pages)).
Proof.
  revert acc. induction pages as [|page pages IH]; intros [bs ts].
  - cbn. rewrite !app_nil_r. reflexivity.
  - cbn [fold_left map concat fst snd]. rewrite IH. cbn [fst snd].
    rewrite <- !app_assoc. reflexivity.
Qed.

(** X23.  [operationsTransformFn] joins the pages in their order: the
    token transfers of all pages, then apart the operations of all pages,
    each list in page order; what it returns has as many items as
    [getDataLength] counts over the pages, and joining the pages of two
    lists of pages joins their results. *)
Theorem X23_pages_are_concatenated {A B : Type} (pages more : list (MixedPage A B)) :
  operationsTransformFn pages =
    (concat (map bcd_transfers pages), concat (map tzkt pages))
  /\ length (fst (operationsTransformFn pages)) + length (snd (operationsTransformFn pages))
     = list_sum (map getDataLength pages)
  /\ operationsTransformFn (pages ++ more) =
     (fst (operationsTransformFn pages) ++ fst (operationsTransformFn more),
      snd (operationsTransformFn pages) ++ snd (operationsTransformFn more)).
Proof.
  assert (forall ps : list (MixedPage A B),
            operationsTransformFn ps =
            (concat (map bcd_transfers ps), concat (map tzkt ps))) as Hconcat.
  { intros ps. unfold operationsTransformFn. rewrite operationsTransformFn_from.
    reflexivity. }
  split; [apply Hconcat|]. split.
  - rewrite Hconcat. cbn [fst snd].
    induction pages as [|page pages IH]; [reflexivity|].
    change (list_sum (map getDataLength (page :: pages)))
      with (getDataLength page + list_sum (map getDataLength pages)).
    cbn [map concat]. rewrite !length_app. unfold getDataLength at 1. lia.
  - rewrite !Hconcat. cbn [fst snd]. rewrite !map_app, !concat_app. reflexivity.
Qed.

(** ** Pending and historical operations *)

Section UniqueOpsFacts.

Variable getTime : string -> Z.
Variable now : nat -> Z.

Lemma hasKey_true (l : list ThanosOperation) (x : ThanosOperation) :
  hasKey l x = true <-> In (opKey x) (map opKey l).
Proof.
  unfold hasKey. rewrite existsb_exists, in_map_iff. split.
  - intros [op [Hin Heq]]. apply String.eqb_eq in Heq. eauto.
  - intros [op [Heq Hin]]. exists op. split; [assumption|]. apply String.eqb_eq, Heq.
Qed.

Lemma keyIsNew_true (unique : list ThanosOperation) (x : ThanosOperation) :
  keyIsNew unique x = true <-> ~ In (opKey x) (map opKey unique).
Proof.
  unfold keyIsNew. rewrite forallb_forall, in_map_iff. split.
  - intros Hall [u [Heq Hin]]. specialize (Hall u Hin).
    apply negb_true_iff in Hall. apply String.eqb_neq in Hall. congruence.
  - intros Hnot u Hin. apply negb_true_iff, String.eqb_neq. intros Heq.
    apply Hnot. eauto.
Qed.

Lemma historyStep_NoDup (unique : list ThanosOperation) (op : ThanosOperation) :
  List.NoDup (map opKey unique) -> List.NoDup (map opKey (historyStep unique op)).
Proof.
  intros Hnodup. unfold historyStep. destruct (keyIsNew unique op) eqn:Hnew; [|assumption].
  apply keyIsNew_true in Hnew. rewrite map_app. cbn [map].
  apply (Permutation_NoDup (Permutation_cons_append _ _)).
  constructor; assumption.
Qed.

Lemma historyStep_incl (unique : list ThanosOperation) (op u : ThanosOperation) :
  In u unique -> In u (historyStep unique op).
Proof.
  intros Hin. unfold historyStep. destruct (keyIsNew unique op); [|assumption].
  apply in_or_app. left. assumption.
Qed.

Lemma historyStep_key (unique : list ThanosOperation) (op : ThanosOperation) :
  In (opKey op) (map opKey (historyStep unique op)).
Proof.
  unfold historyStep. destruct (keyIsNew unique op) eqn:Hnew.
  - rewrite map_app. apply in_or_app. right. left. reflexivity.
  - destruct (in_dec string_dec (opKey op) (map opKey unique)) as [Hin|Hnot];
      [assumption|]. apply keyIsNew_true in Hnot. congruence.
Qed.

Lemma historyStep_from (unique : list ThanosOperation) (op u : ThanosOperation) :
  In u (historyStep unique op) -> In u unique \/ u = op.
Proof.
  unfold historyStep. destruct (keyIsNew unique op); [|tauto].
  intros Hin. apply in_app_or in Hin as [Hin|[Heq|[]]]; [tauto|]. right. congruence.
Qed.

Lemma pendingStep_cases (operations : list ThanosOperation) (k : nat)
    (unique nonUnique : list ThanosOperation) (pndOp : ThanosOperation) :
  pendingStep getTime now operations k (unique, nonUnique) pndOp =
  if expired getTime now k pndOp || hasKey operations pndOp
  then (unique, nonUnique ++ [pndOp])
  else (historyStep unique pndOp, nonUnique).
Proof.
  unfold pendingStep, historyStep. cbn [fst snd].
  destruct (expired getTime now k pndOp || hasKey operations pndOp); [reflexivity|].
  destruct (keyIsNew unique pndOp); reflexivity.
Qed.

(** What the loop over the pending operations leaves in its two lists. *)
Lemma pendingLoop_spec (operations pendingOperations : list ThanosOperation) :
  forall (k : nat) (unique nonUnique : list ThanosOperation),
    let result :=
      pendingLoop getTime now operations k pendingOperations (unique, nonUnique) in
    (List.NoDup (map opKey unique) -> List.NoDup (map opKey (fst result)))
    /\ (forall u, In u unique -> In u (fst result))
    /\ (forall u, In u (fst result) ->
          In u unique \/ (In u pendingOperations /\ hasKey operations u = false))
    /\ (forall p, In p (snd result) <->
          In p nonUnique \/
          exists i, pendingOperations !! i = Some p
                    /\ expired getTime now (k + i) p || hasKey operations p = true)
    /\ (forall p, In p pendingOperations ->
          In p (snd result) \/ In (opKey p) (map opKey (fst result))).
Proof.
  induction pendingOperations as [|pndOp rest IH]; intros k unique nonUnique.
  - cbn. repeat split; try tauto.
    intros [Hin|[i [Hlook _]]]; [assumption|]. rewrite lookup_nil in Hlook. discriminate.
  - cbn [pendingLoop]. rewrite pendingStep_cases.
    destruct (expired getTime now k pndOp || hasKey operations pndOp) eqn:Hbad.
    + specialize (IH (S k) unique (nonUnique ++ [pndOp])).
      cbv zeta in IH. destruct IH as [Hnodup [Hincl [Hfrom [Hnon Hkept]]]].
      cbv zeta. split; [assumption|]. split; [assumption|]. split.
      { intros u Hu. apply Hfrom in Hu as [Hu|[Hu Hkey]]; [tauto|].
        right. split; [right; assumption|assumption]. }
      split.
      { intros p. rewrite Hnon, in_app_iff. split.
        - intros [[Hin|[Heq|[]]]|[i [Hlook Hexp]]].
          + tauto.
          + subst p. right. exists 0. rewrite Nat.add_0_r. split; [reflexivity|assumption].
          + right. exists (S i). rewrite Nat.add_succ_r. split; assumption.
        - intros [Hin|[[|i] [Hlook Hexp]]].
          + tauto.
          + cbn in Hlook. injection Hlook as ->. left. right. left. reflexivity.
          + right. exists i. rewrite Nat.add_succ_r in Hexp. split; assumption. }
      intros p [Heq|Hin].
      { subst p. left. apply Hnon. left. apply in_or_app. right. left. reflexivity. }
      apply Hkept, Hin.
    + specialize (IH (S k) (historyStep unique pndOp) nonUnique).
      cbv zeta in IH. destruct IH as [Hnodup [Hincl [Hfrom [Hnon Hkept]]]].
      apply orb_false_iff in Hbad as [Hexpired HnoKey].
      cbv zeta. split; [intros Hu; apply Hnodup, historyStep_NoDup, Hu|].
      split; [intros u Hu; apply Hincl, historyStep_incl, Hu|]. split.
      { intros u Hu. apply Hfrom in Hu as [Hu|[Hu Hkey]].
        - apply historyStep_from in Hu as [Hu| ->]; [tauto|].
          right. split; [left; reflexivity|assumption].
        - right. split; [right; assumption|assumption]. }
      split.
      { intros p. rewrite Hnon. split.
        - intros [Hin|[i [Hlook Hexp]]]; [tauto|].
          right. exists (S i). rewrite Nat.add_succ_r. split; assumption.
        - intros [Hin|[[|i] [Hlook Hexp]]].
          + tauto.
          + cbn in Hlook. injection Hlook as ->. rewrite Nat.add_0_r in Hexp.
            rewrite Hexpired, HnoKey in Hexp. discriminate.
          + right. exists i. rewrite Nat.add_succ_r in Hexp. split; assumption. }
      intros p [Heq|Hin]; [|apply Hkept, Hin].
      subst p. right.
      pose proof (historyStep_key unique pndOp) as Hkey.
      apply in_map_iff in Hkey as [u [Heq Hu]].
      apply in_map_iff. exists u. split; [assumption|]. apply Hincl, Hu.
Qed.

(** What the loop over the historical operations adds. *)
Lemma historyLoop_spec (operations : list ThanosOperation) :
  forall unique : list ThanosOperation,
    let result := fold_left historyStep operations unique in
    (List.NoDup (map opKey unique) -> List.NoDup (map opKey result))
    /\ (forall u, In u unique -> In u result)
    /\ (forall u, In u result -> In u unique \/ In u operations)
    /\ (forall op, In op operations -> In (opKey op) (map opKey result)).
Proof.
  induction operations as [|op rest IH]; intros unique.
  - cbn. repeat split; tauto.
  - cbn [fold_left]. specialize (IH (historyStep unique op)). cbv zeta in IH.
    destruct IH as [Hnodup [Hincl [Hfrom Hkeys]]].
    cbv zeta. split; [intros Hu; apply Hnodup, historyStep_NoDup, Hu|].
    split; [intros u Hu; apply Hincl, historyStep_incl, Hu|]. split.
    + intros u Hu. apply Hfrom in Hu as [Hu|Hu]; [|right; right; assumption].
      apply historyStep_from in Hu as [Hu| ->]; [tauto|]. right. left. reflexivity.
    + intros op' [Heq|Hin]; [|apply Hkeys, Hin]. subst op'.
      pose proof (historyStep_key unique op) as Hkey.
      apply in_map_iff in Hkey as [u [Heq Hu]].
      apply in_map_iff. exists u. split; [assumption|]. apply Hincl, Hu.
Qed.

Lemma insertByTime_Permutation (x : ThanosOperation) (l : list ThanosOperation) :
  Permutation (insertByTime getTime x l) (x :: l).
Proof.
  induction l as [|y l IH]; [reflexivity|]. cbn [insertByTime].
  destruct (getTime (op_time y) <? getTime (op_time x))%Z; [reflexivity|].
  rewrite IH. apply perm_swap.
Qed.

Lemma insertByTime_sorted (x : ThanosOperation) (l : list ThanosOperation) :
  StronglySorted (latestFirst getTime) l -> StronglySorted (latestFirst getTime) (insertByTime getTime x l).
Proof.
  induction l as [|y l IH]; intros Hsorted.
  - cbn. constructor; [constructor|constructor].
  - cbn [insertByTime]. inversion Hsorted as [|y' l' Hl Hy]; subst.
    destruct (getTime (op_time y) <? getTime (op_time x))%Z eqn:Hlt.
    + apply Z.ltb_lt in Hlt. constructor; [assumption|].
      constructor; [unfold latestFirst; lia|].
      rewrite Forall_forall in Hy |- *. intros z Hz. specialize (Hy z Hz).
      unfold latestFirst in *. lia.
    + apply Z.ltb_ge in Hlt. constructor; [apply IH, Hl|].
      apply (Permutation_Forall (Permutation_sym (insertByTime_Permutation x l))).
      constructor; [unfold latestFirst; lia|assumption].
Qed.

Lemma sortByTime_from (l : list ThanosOperation) :
  forall sorted : list ThanosOperation,
    let result := fold_left (fun sorted x => insertByTime getTime x sorted) l sorted in
    Permutation result (sorted ++ l)
    /\ (StronglySorted (latestFirst getTime) sorted -> StronglySorted (latestFirst getTime) result).
Proof.
  induction l as [|x l IH]; intros sorted.
  - cbn. rewrite app_nil_r. split; [reflexivity|tauto].
  - cbn [fold_left]. specialize (IH (insertByTime getTime x sorted)). cbv zeta in IH.
    destruct IH as [Hperm Hsorted]. cbv zeta. split.
    + rewrite Hperm, insertByTime_Permutation. apply Permutation_middle.
    + intros Hs. apply Hsorted, insertByTime_sorted, Hs.
Qed.

Lemma sortByTime_spec (l : list ThanosOperation) :
  Permutation (sortByTime getTime l) l /\ StronglySorted (latestFirst getTime) (sortByTime getTime l).
Proof.
  unfold sortByTime. destruct (sortByTime_from l []) as [Hperm Hsorted].
  split; [exact Hperm|]. apply Hsorted. constructor.
Qed.

(** X24.  The two lists the operation history computes from the
    historical and the pending operations.  In the list it shows no two
    operations have the same key, every historical operation is
    represented by its key, every entry is a historical operation or a
    pending one whose key no historical operation has, and the entries are
    ordered latest first.  The list of pending operations to forget holds
    exactly those that are expired when the loop reaches them or have the key of
    a historical operation; a pending operation that is not forgotten is
    represented in the shown list by its key. *)
Theorem X24_unique_and_nonUnique (operations pendingOperations : list ThanosOperation) :
  let unique := fst (uniqueAndNonUniqueOps getTime now operations pendingOperations) in
  let nonUnique := snd (uniqueAndNonUniqueOps getTime now operations pendingOperations) in
  List.NoDup (map opKey unique)
  /\ (forall op, In op operations -> In (opKey op) (map opKey unique))
  /\ (forall u, In u unique ->
        In u operations \/ (In u pendingOperations /\ hasKey operations u = false))
  /\ StronglySorted (latestFirst getTime) unique
  /\ (forall p, In p nonUnique <->
        exists i, pendingOperations !! i = Some p
                  /\ expired getTime now i p || hasKey operations p = true)
  /\ (forall p, In p pendingOperations ->
        In p nonUnique \/ In (opKey p) (map opKey unique)).
Proof.
  unfold uniqueAndNonUniqueOps.
  pose proof (pendingLoop_spec operations pendingOperations 0 [] []) as Hpending.
  cbv zeta in Hpending.
  destruct (pendingLoop getTime now operations 0 pendingOperations ([], []))
    as [unique0 nonUnique] eqn:Hloop.
  cbn [fst snd] in Hpending. destruct Hpending as [Hnodup0 [_ [Hfrom0 [Hnon Hkept]]]].
  pose proof (historyLoop_spec operations unique0) as Hhistory. cbv zeta in Hhistory.
  destruct Hhistory as [Hnodup [Hincl [Hfrom Hkeys]]].
  destruct (sortByTime_spec (fold_left historyStep operations unique0)) as [Hperm Hsorted].
  cbv zeta. cbn [fst snd].
  assert (forall key, In key (map opKey (fold_left historyStep operations unique0)) ->
            In key (map opKey (sortByTime getTime (fold_left historyStep operations unique0))))
    as Hkeep.
  { intros key. apply Permutation_in, Permutation_map, Permutation_sym, Hperm. }
  split.
  { apply (Permutation_NoDup (Permutation_map opKey (Permutation_sym Hperm))).
    apply Hnodup, Hnodup0. constructor. }
  split; [intros op Hop; apply Hkeep, Hkeys, Hop|]. split.
  { intros u Hu. apply (Permutation_in _ Hperm) in Hu.
    apply Hfrom in Hu as [Hu|Hu]; [|tauto].
    apply Hfrom0 in Hu as [[]|Hu]. tauto. }
  split; [assumption|]. split.
  { intros p. rewrite Hnon. cbn [In]. split.
    - intros [[]|Hex]. exact Hex.
    - intros Hex. right. exact Hex. }
  intros p Hp. apply Hkept in Hp as [Hp|Hp]; [tauto|]. right.
  apply Hkeep. apply in_map_iff in Hp as [u [Heq Hu]].
  apply in_map_iff. exists u. split; [assumption|]. apply Hincl, Hu.
Qed.

End UniqueOpsFacts.

Lemma X24_unique_and_nonUnique_witness :
  let unique :=
    fst (uniqueAndNonUniqueOps SampleHistory.getTime SampleHistory.now
           SampleHistory.operations SampleHistory.pendingOperations) in
  let nonUnique :=
    snd (uniqueAndNonUniqueOps SampleHistory.getTime SampleHistory.now
           SampleHistory.operations SampleHistory.pendingOperations) in
  In (opKey SampleHistory.applied) (map opKey unique)
  /\ In SampleHistory.appliedPending nonUnique
  /\ In SampleHistory.stalePending nonUnique
  /\ In (opKey SampleHistory.freshPending) (map opKey unique).
Proof.
  intros unique nonUnique.
  pose proof (X24_unique_and_nonUnique SampleHistory.getTime SampleHistory.now
                SampleHistory.operations SampleHistory.pendingOperations)
    as [_ [Hkeys [_ [_ [Hnon Hkept]]]]].
  split; [apply Hkeys; left; reflexivity|].
  split; [apply Hnon; exists 0; split; reflexivity|].
  split; [apply Hnon; exists 1; split; reflexivity|].
  destruct (Hkept SampleHistory.freshPending) as [Hforgot|Hshown].
  - right. right. left. reflexivity.
  - apply Hnon in Hforgot as [[|[|[|i]]] [Hlook Hbad]];
      vm_compute in Hlook; vm_compute in Hbad; discriminate.
  - exact Hshown.
Defined.

(** ** The history of a baker's settings *)

(** X25.  The setting a baking history item uses.  It is the value of the
    first entry of the history whose cycle is not after the item's, and the
    initial value if there is none.  So, in a history that lists its entries
    from the latest cycle to the earliest, it is the value of the entry in
    force at the item's cycle: the one with the greatest cycle not after
    it. *)
Theorem X25_setting_in_force {V : Type} (history : list (Z * V)) (cycle : Z) (initial : V) :
  ((forall historyEntry, In historyEntry history -> (cycle < fst historyEntry)%Z) ->
   valueAtCycle history cycle initial = initial)
  /\ (forall before historyEntry after,
        history = before ++ historyEntry :: after ->
        (forall earlier, In earlier before -> (cycle < fst earlier)%Z) ->
        (fst historyEntry <= cycle)%Z ->
        valueAtCycle history cycle initial = snd historyEntry)
  /\ (StronglySorted (fun a b => (fst b < fst a)%Z) history ->
      forall inForce,
        In inForce history ->
        (fst inForce <= cycle)%Z ->
        (forall other, In other history -> (fst other <= cycle)%Z ->
                       (fst other <= fst inForce)%Z) ->
        valueAtCycle history cycle initial = snd inForce).
Proof.
  assert (forall before historyEntry after,
            (forall earlier : Z * V, In earlier before -> (cycle < fst earlier)%Z) ->
            (fst historyEntry <= cycle)%Z ->
            valueAtCycle (before ++ historyEntry :: after) cycle initial = snd historyEntry)
    as Hfirst.
  { intros before historyEntry after Hbefore Hentry. unfold valueAtCycle.
    induction before as [|e before IH]; cbn [app find].
    - apply Z.leb_le in Hentry. rewrite Hentry. reflexivity.
    - assert ((fst e <=? cycle)%Z = false) as ->.
      { apply Z.leb_gt, Hbefore. left. reflexivity. }
      apply IH. intros earlier Hin. apply Hbefore. right. assumption. }
  split.
  { intros Hall. unfold valueAtCycle.
    induction history as [|e history IH]; [reflexivity|]. cbn [find].
    assert ((fst e <=? cycle)%Z = false) as ->.
    { apply Z.leb_gt, Hall. left. reflexivity. }
    apply IH. intros historyEntry Hin. apply Hall. right. assumption. }
  split.
  { intros before historyEntry after -> Hbefore Hentry. apply Hfirst; assumption. }
  intros Hsorted inForce Hin Hle Hmax.
  apply in_split in Hin as [before [after ->]].
  apply Hfirst; [|assumption].
  intros earlier Hearlier.
  destruct (Z.lt_ge_cases cycle (fst earlier)) as [Hlt|Hge]; [assumption|].
  assert ((fst earlier <= fst inForce)%Z) as Hbound.
  { apply Hmax; [|lia]. apply in_or_app. left. assumption. }
  assert ((fst inForce < fst earlier)%Z) as Horder; [|lia].
  clear - Hsorted Hearlier.
  induction before as [|e before IH]; [destruct Hearlier|].
  cbn [app] in Hsorted. inversion Hsorted as [|e' l' Hl He]; subst.
  destruct Hearlier as [->|Hearlier]; [|apply IH; assumption].
  rewrite List.Forall_forall in He. apply He. apply in_or_app. right. left. reflexivity.
Qed.

Lemma X25_setting_in_force_witness :
  valueAtCycle [(300, "c"); (200, "b"); (100, "a")]%Z 250%Z "initial" = "b".
Proof.
  pose proof (X25_setting_in_force [(300, "c"); (200, "b"); (100, "a")]%Z 250%Z "initial")
    as [_ [_ Hforce]].
  apply (Hforce ltac:(repeat constructor) (200%Z, "b")).
  - right. left. reflexivity.
  - cbn. lia.
  - intros other [<-|[<-|[<-|[]]]]; cbn; lia.
Defined.
